(** * JiraAgent: the incremental similarity index and its retrieval engine

    A shallow embedding of [core/Index.py], [core/Reference_Issue.py],
    [core/Pot_Assignee.py], the JSON store of [core/ingest.py] and the
    lookup of [core/Recommended_Actions.py].  Python dictionaries holding JSON-like records
    are finite maps from field names to values; the persisted artifacts live
    in a file system mapping paths to typed file contents; functions that
    read or write files thread that file system explicitly and may raise.

    Scores are exact rationals: float32 rounding is not modelled.  The text
    encoder, the Euclidean normalisation and NumPy's [argsort] are external
    to the repository and enter as section variables; [argsort] is only
    assumed to rank by descending score, ties in any order.  Record values
    are [None], strings and integers.  Console output, the loading of the
    encoder and the creation of directories are left out. *)

From Stdlib Require Import ZArith QArith Lia Ascii String List.
From Stdlib Require Import Permutation Sorted.
From stdpp Require Import base option list strings pretty gmap.

Local Open Scope string_scope.
Local Open Scope list_scope.
Local Open Scope nat_scope.

(** ** Python values carried by issue records and metadata entries *)

Inductive pyval : Type :=
  | PNone
  | PStr (s : string)
  | PInt (z : Z).

Global Instance pyval_eq_dec : EqDecision pyval.
Proof. solve_decision. Defined.

Definition pyval_encode (v : pyval) : unit + (string + Z) :=
  match v with
  | PNone => inl tt
  | PStr s => inr (inl s)
  | PInt z => inr (inr z)
  end.

Definition pyval_decode (x : unit + (string + Z)) : pyval :=
  match x with
  | inl _ => PNone
  | inr (inl s) => PStr s
  | inr (inr z) => PInt z
  end.

Global Instance pyval_countable : Countable pyval.
Proof.
  apply (inj_countable' pyval_encode pyval_decode).
  intros []; reflexivity.
Defined.

(** Python truthiness: [None], the empty string and [0] are falsy. *)
Definition truthy (v : pyval) : bool :=
  match v with
  | PNone => false
  | PStr s => negb (String.eqb s "")
  | PInt z => negb (Z.eqb z 0)
  end.

(** [a or b] *)
Definition py_or (a b : pyval) : pyval := if truthy a then a else b.

(** [str(v)] *)
Definition py_str (v : pyval) : string :=
  match v with
  | PNone => "None"
  | PStr s => s
  | PInt z => pretty z
  end.

(** [d.get(k)] and [d.get(k, dflt)] on a record. *)
Definition py_get (d : gmap string pyval) (k : string) : pyval :=
  default PNone (d !! k).

Definition py_get_d (d : gmap string pyval) (k : string) (dflt : pyval) : pyval :=
  default dflt (d !! k).

(** ** Arrays *)

(** A two-dimensional array of shape [(length rows, ncols)]. *)
Record matrix : Type := { ncols : nat; rows : list (list Q) }.

Definition nrows (m : matrix) : nat := length (rows m).

(** [a.size] *)
Definition msize (m : matrix) : nat := nrows m * ncols m.

(** What [np.load] yields: a 2-D array, or an array of another rank. *)
Inductive ndarray : Type :=
  | Arr2 (m : matrix)
  | ArrND (ndim : nat).

(** [np.zeros((0, dim))] *)
Definition zeros0 (dim : nat) : matrix := {| ncols := dim; rows := [] |}.

(** ** Exceptions and results *)

Inductive exn : Type :=
  | ValueError (msg : string)
  | KeyError (k : string)
  | IndexError (msg : string)
  | UnboundLocalError (var : string)
  | LoadError (path : string).

Inductive result (A : Type) : Type :=
  | Ok (a : A)
  | Raise (e : exn).
Arguments Ok {A} a.
Arguments Raise {A} e.

(** ** Persisted artifacts *)

(** The metadata dictionary, in insertion order.  The JSON file keys it by
    the decimal string of the row id; the model keeps the row id itself, so
    [str(i)] and [int(k)] are the identity. *)
Definition meta_dict : Type := list (nat * gmap string pyval).

Inductive file : Type :=
  | FMeta (meta : meta_dict)
  | FEmb (a : ndarray)
  | FAnn (dim : nat) (n_trees : Z) (items : list (list Q))
  | FCsv (assignee_col : list string)
  | FIssuesJson (extracted : list (option string))
  | FOther.

(** [os.path.exists] *)
Definition exists_file (fs : gmap string file) (p : string) : bool :=
  bool_decide (is_Some (fs !! p)).

(** [d.get(k)] on an insertion-ordered dictionary. *)
Fixpoint dict_get {A : Type} (d : list (nat * A)) (k : nat) : option A :=
  match d with
  | [] => None
  | (k', v) :: d' => if Nat.eqb k k' then Some v else dict_get d' k
  end.

(** [d[k] = v]: an existing key keeps its position, a new key goes last. *)
Fixpoint dict_set {A : Type} (d : list (nat * A)) (k : nat) (v : A) : list (nat * A) :=
  match d with
  | [] => [(k, v)]
  | (k', v') :: d' =>
      if Nat.eqb k k' then (k, v) :: d' else (k', v') :: dict_set d' k v
  end.

(** ** A state-and-exception monad over the file system *)

Definition M (A : Type) : Type := gmap string file -> result A * gmap string file.

Definition ret {A : Type} (a : A) : M A := fun fs => (Ok a, fs).

Definition raise {A : Type} (e : exn) : M A := fun fs => (Raise e, fs).

Definition bind {A B : Type} (m : M A) (k : A -> M B) : M B :=
  fun fs =>
    match m fs with
    | (Ok a, fs') => k a fs'
    | (Raise e, fs') => (Raise e, fs')
    end.

(** A computation that only reads the file system. *)
Definition reading {A : Type} (f : gmap string file -> result A) : M A :=
  fun fs => (f fs, fs).

(** A computation that only writes. *)
Definition writing (f : gmap string file -> gmap string file) : M unit :=
  fun fs => (Ok tt, f fs).

Notation "'let!' x ':=' c 'in' k" := (bind c (fun x => k))
  (at level 10, x pattern, c at level 100, k at level 200, only parsing).

(** ** core/Index.py *)

Record config : Type := {
  EmbedDim : nat;
  AnnoyIndexPath : string;
  AnnoyMetaPath : string;
  AnnoyEmbPath : string;
  AnnoyNTrees : Z;
  KeyField : string
}.

Definition _load_meta_embs (meta_path emb_path : string) (dim : nat)
    (fs : gmap string file) : result (meta_dict * matrix) :=
  if exists_file fs meta_path && exists_file fs emb_path then
    match fs !! meta_path with
    | Some (FMeta meta) =>
        match fs !! emb_path with
        | Some (FEmb (Arr2 embs)) =>
            if Nat.eqb (ncols embs) dim then Ok (meta, embs)
            else Raise (ValueError "Saved embeddings have wrong shape/dim")
        | Some (FEmb (ArrND _)) =>
            Raise (ValueError "Saved embeddings have wrong shape/dim")
        | _ => Raise (LoadError emb_path)
        end
    | _ => Raise (LoadError meta_path)
    end
  else Ok ([], zeros0 dim).

(** [np.save] appends ".npy" to a file name that does not end in it, while
    [np.load] opens the name it is given: only under a name that ends in
    ".npy" is the matrix written where it is looked for. *)
Definition npy_suffixed (p : string) : bool :=
  match rev (list_ascii_of_string p) with
  | "y"%char :: "p"%char :: "n"%char :: "."%char :: _ => true
  | _ => false
  end.

(** [json.dump] to [meta_path] and [np.save] to [emb_path], for an
    [emb_path] that ends in ".npy".  For any other name [np.save] writes
    [emb_path + ".npy"], which this definition does not follow: every
    statement about the files a save leaves behind assumes [npy_suffixed]. *)
Definition _save_meta_embs (meta : meta_dict) (embs : matrix)
    (meta_path emb_path : string) (fs : gmap string file) : gmap string file :=
  <[emb_path := FEmb (Arr2 embs)]> (<[meta_path := FMeta meta]> fs).


(** [rebuild index from scratch and save to disk]; with no rows the stale
    artifact is removed.  Annoy refuses an item whose length differs from
    the dimension the index was created with. *)
Definition _build_and_save_annoy (embs : matrix) (idx_path : string)
    (dim : nat) (n_trees : Z) : M unit :=
  if Nat.eqb (nrows embs) 0 then writing (delete idx_path)
  else if Nat.eqb (ncols embs) dim
       then writing (insert idx_path (FAnn dim n_trees (rows embs)))
       else raise (IndexError "Vector has wrong length").

(** [str(t.get(key_field) or t.get("Issue id") or t.get("Summary") or "")]:
    [_safe_key] of Reference_Issue.py, written inline in Index.py. *)
Definition _safe_key (issue : gmap string pyval) (key_field : string) : string :=
  py_str (py_or (py_or (py_or (py_get issue key_field) (py_get issue "Issue id"))
                       (py_get issue "Summary"))
                (PStr "")).

(** The metadata row both indexing paths write. *)
Definition mk_entry (key : string) (t : gmap string pyval)
    (summary assignee : pyval) : gmap string pyval :=
  <["key" := PStr key]>
    (<["Issue id" := py_get t "Issue id"]>
       (<["Issue key" := py_get t "Issue key"]>
          (<["Summary" := summary]>
             (<["Assignee" := assignee]> ∅)))).

(** [{v["key"]: int(k) for k, v in meta.items()}]: a later row overrides an
    earlier one with the same key; a row without ["key"] raises. *)
Fixpoint key_to_idx_from (items : meta_dict) (acc : gmap pyval nat)
    : result (gmap pyval nat) :=
  match items with
  | [] => Ok acc
  | (k, v) :: rest =>
      match v !! "key" with
      | Some key => key_to_idx_from rest (<[key := k]> acc)
      | None => Raise (KeyError "key")
      end
  end.

Definition existing_key_to_idx (meta : meta_dict) : result (gmap pyval nat) :=
  key_to_idx_from meta ∅.

(** Body of the first-run loop: the text to embed and the row to store. *)
Definition first_build_item (key_field : string) (t : gmap string pyval)
    : option (pyval * gmap string pyval) :=
  let key := _safe_key t key_field in
  if String.eqb key "" then None
  else Some (py_get_d t "Summary" (PStr ""),
             mk_entry key t (py_get t "Summary") (py_get t "Assignee")).

(** [not stored or stored.get("Summary") != summary
     or stored.get("Assignee") != assignee] *)
Definition entry_changed (stored : option (gmap string pyval))
    (summary assignee : pyval) : bool :=
  match stored with
  | None => true
  | Some e =>
      bool_decide (e = ∅)
      || negb (bool_decide (py_get e "Summary" = summary))
      || negb (bool_decide (py_get e "Assignee" = assignee))
  end.

(** Body of the incremental loop. *)
Definition incremental_item (key_field : string) (key_to_idx : gmap pyval nat)
    (meta : meta_dict) (t : gmap string pyval)
    : option (pyval * gmap string pyval) :=
  let key := _safe_key t key_field in
  if String.eqb key "" then None
  else
    let summary := py_get_d t "Summary" (PStr "") in
    let assignee := py_get t "Assignee" in
    match key_to_idx !! PStr key with
    | None => Some (summary, mk_entry key t summary assignee)
    | Some idx =>
        if entry_changed (dict_get meta idx) summary assignee
        then Some (summary, mk_entry key t summary assignee)
        else None
    end.

(** [for i, m in enumerate(metas_to_add): meta[str(n_before + i)] = m] *)
Fixpoint append_rows (meta : meta_dict) (n_before i : nat)
    (ms : list (gmap string pyval)) : meta_dict :=
  match ms with
  | [] => meta
  | m :: ms' => append_rows (dict_set meta (n_before + i) m) n_before (S i) ms'
  end.

(** [np.vstack([a, b])] *)
Definition vstack (a b : matrix) : result matrix :=
  if Nat.eqb (ncols a) (ncols b)
  then Ok {| ncols := ncols a; rows := rows a ++ rows b |}
  else Raise (ValueError "all the input array dimensions must match").

Inductive status : Type :=
  | no_data
  | built_from_all
  | no_new_or_changed
  | incremental_ok.

Record index_summary : Type := {
  summary_status : status;
  added : nat;
  index_size : nat
}.

(** ** core/Pot_Assignee.py *)

(** ASCII white space, as [str.strip] removes it from ASCII text.  The
    Unicode white space [str.strip] also removes (U+00A0 and the like) is
    not modelled; see [plain_text]. *)
Definition is_space (c : ascii) : bool :=
  let n := nat_of_ascii c in
  (Nat.leb 9 n && Nat.leb n 13) || (Nat.leb 28 n && Nat.leb n 32).

Fixpoint lstrip (cs : list ascii) : list ascii :=
  match cs with
  | [] => []
  | c :: cs' => if is_space c then lstrip cs' else cs
  end.

(** [s.strip()] *)
Definition py_strip (s : string) : string :=
  string_of_list_ascii
    (rev (lstrip (rev (lstrip (list_ascii_of_string s))))).

Definition lower_ascii (c : ascii) : ascii :=
  let n := nat_of_ascii c in
  if Nat.leb 65 n && Nat.leb n 90 then ascii_of_nat (n + 32) else c.

(** [s.lower()] on ASCII text *)
Definition py_lower (s : string) : string :=
  string_of_list_ascii (map lower_ascii (list_ascii_of_string s)).

Definition placeholder_names : list string :=
  [""; "none"; "null"; "unassigned"; "n/a"].

(** [if a not in lru: lru[a] = None] on an [OrderedDict] used as a queue. *)
Definition lru_add (lru : list string) (a : string) : list string :=
  if existsb (String.eqb a) lru then lru else lru ++ [a].

(** The loop over the rows of the CSV: [assignee_col] holds, per data row,
    [r.get("assignee") or ""]. *)
Definition read_csv_lru (assignee_col : list string) : list string :=
  fold_left
    (fun lru cell =>
       let a := py_strip cell in
       if negb (String.eqb a "")
          && negb (existsb (String.eqb (py_lower a)) placeholder_names)
       then lru_add lru a else lru)
    assignee_col [].

(** [_load_assignees_from_json]: the JSON store is kept as the value
    [_extract_assignee] yields for each of its issues, in file order.  A
    store whose bytes do not decode as UTF-8, or which holds an issue whose
    ["fields"] is not an object, makes the code raise; such a store has no
    representation here, so the definition covers the calls that return. *)
Definition _load_assignees_from_json (json_path : string)
    (fs : gmap string file) : list string :=
  if negb (exists_file fs json_path) then []
  else
    match fs !! json_path with
    | Some (FIssuesJson extracted) =>
        fold_left
          (fun lru it =>
             match it with
             | Some a => if negb (String.eqb a "") then lru_add lru a else lru
             | None => lru
             end)
          extracted []
    | _ => []
    end.

(** Returns the least recently used assignee and persists the rotated
    queue; with no assignee anywhere it returns [None] and writes nothing.
    The calls that raise while reading the JSON store are not represented
    (see [_load_assignees_from_json]). *)
Definition assign_lru (ASSIGNEE_JSON ASSIGNEE_CSV : string) : M (option string) :=
  fun fs =>
    let lru :=
      if exists_file fs ASSIGNEE_CSV then
        let from_csv :=
          match fs !! ASSIGNEE_CSV with
          | Some (FCsv col) => read_csv_lru col
          | _ => []
          end in
        match from_csv with
        | [] => if exists_file fs ASSIGNEE_JSON
                then _load_assignees_from_json ASSIGNEE_JSON fs
                else from_csv
        | _ => from_csv
        end
      else _load_assignees_from_json ASSIGNEE_JSON fs in
    match lru with
    | [] => (Ok None, fs)
    | assignee :: others =>
        (Ok (Some assignee), <[ASSIGNEE_CSV := FCsv (others ++ [assignee])]> fs)
    end.

(** ** core/Reference_Issue.py: values *)

Definition ASSIGNEE_JSON : string :=
  "/Users/swatisingh/Documents/Rohit/GIT/AgenticJIraAssignment/src/out/issues_normalized.json".
Definition ASSIGNEE_CSV : string :=
  "/Users/swatisingh/Documents/Rohit/GIT/AgenticJIraAssignment/src/out/assignees.csv".

(** [os.path.join(a, b)] on POSIX paths *)
Definition path_join (a b : string) : string :=
  if String.prefix "/" b then b
  else if String.eqb a "" then b
  else match rev (list_ascii_of_string a) with
       | "/"%char :: _ => a ++ b
       | _ => a ++ "/" ++ b
       end.

Record reference : Type := {
  ref_idx : nat;
  ref_key : string;
  ref_issue_id : pyval;
  ref_summary : pyval;
  ref_score : Q
}.

Record candidate : Type := {
  cand_idx : nat;
  cand_score : Q;
  meta_entry_sample : option (gmap string pyval)
}.

Record score_diagnostics : Type := {
  row_size : nat;
  row_max : option Q;
  row_min : option Q;
  row_mean : option Q;
  n_above_threshold : nat;
  top_candidates_before_filter : list candidate;
  self_skips : list (nat * string);
  threshold_filtered : list (nat * Q);
  returned_count : option nat
}.

Inductive diagnostics : Type :=
  | DiagMissingFiles (emb_path_exists : bool) (meta_path : option string)
  | DiagDimMismatch (q_dim stored_dim : nat)
  | DiagScores (d : score_diagnostics).

Record query_result : Type := {
  input_key : string;
  input_summary : pyval;
  references : list reference;
  diag : diagnostics
}.

(** The function returns a bare list on its early exits and a pair
    [(results, potential_assignee)] after scoring. *)
Inductive query_return : Type :=
  | RList (results : list query_result)
  | RPair (results : list query_result) (potential_assignee : option string).

Definition results_of (r : query_return) : list query_result :=
  match r with
  | RList rs => rs
  | RPair rs _ => rs
  end.

(** [score < score_threshold] *)
Definition score_lt (x y : Q) : bool := negb (Qle_bool y x).

Definition qmax (a b : Q) : Q := if Qle_bool a b then b else a.
Definition qmin (a b : Q) : Q := if Qle_bool a b then a else b.

Definition row_reduce (f : Q -> Q -> Q) (row : list Q) : option Q :=
  match row with
  | [] => None
  | x :: xs => Some (fold_left f xs x)
  end.

Definition row_mean_of (row : list Q) : option Q :=
  match row with
  | [] => None
  | _ => Some (fold_left Qplus row 0%Q / inject_Z (Z.of_nat (length row)))%Q
  end.

(** [np.dot] of two vectors *)
Fixpoint dot (u v : list Q) : Q :=
  match u, v with
  | x :: u', y :: v' => (x * y + dot u' v')%Q
  | _, _ => 0%Q
  end.

(** [l[:n]] with Python's reading of a negative bound *)
Definition py_slice_to {A : Type} (l : list A) (n : Z) : list A :=
  if Z.leb 0 n then firstn (Z.to_nat n) l
  else firstn (Z.to_nat (Z.of_nat (length l) + n)) l.

(** [str(meta_entry.get("key") or meta_entry.get("Issue key")
         or meta_entry.get("Issue id") or "")] *)
Definition candidate_key_of (meta_entry : gmap string pyval) : string :=
  py_str (py_or (py_or (py_or (py_get meta_entry "key") (py_get meta_entry "Issue key"))
                       (py_get meta_entry "Issue id"))
                (PStr "")).

(** [candidate_key and input_key and candidate_key == input_key] *)
Definition is_self_match (candidate_key input_key : string) : bool :=
  negb (String.eqb candidate_key "") && negb (String.eqb input_key "")
  && String.eqb candidate_key input_key.

(** What the candidate loop accumulates. *)
Record scan : Type := {
  refs : list reference;
  skipped_self : list (nat * string);
  filtered : list (nat * Q)
}.

(** [for idx in top_idxs: ...], leaving the loop once [len(refs) >= top_k]. *)
Fixpoint collect_refs (idx_to_meta : meta_dict) (input_key : string)
    (row : list Q) (top_k : Z) (score_threshold : Q) (debug : bool)
    (top_idxs : list nat) (acc : scan) : scan :=
  match top_idxs with
  | [] => acc
  | idx :: rest =>
      let continue := collect_refs idx_to_meta input_key row top_k
                        score_threshold debug rest in
      match dict_get idx_to_meta idx with
      | None => continue acc
      | Some meta_entry =>
          if bool_decide (meta_entry = ∅) then continue acc
          else
            let candidate_key := candidate_key_of meta_entry in
            if is_self_match candidate_key input_key then
              continue
                {| refs := refs acc;
                   skipped_self :=
                     if debug then skipped_self acc ++ [(idx, candidate_key)]
                     else skipped_self acc;
                   filtered := filtered acc |}
            else
              let score := nth idx row 0%Q in
              if score_lt score score_threshold then
                continue
                  {| refs := refs acc;
                     skipped_self := skipped_self acc;
                     filtered := filtered acc ++ [(idx, score)] |}
              else
                let acc' :=
                  {| refs := refs acc ++
                       [{| ref_idx := idx;
                           ref_key := candidate_key;
                           ref_issue_id := py_get meta_entry "Issue id";
                           ref_summary := py_get meta_entry "Summary";
                           ref_score := score |}];
                     skipped_self := skipped_self acc;
                     filtered := filtered acc |} in
                if Z.leb top_k (Z.of_nat (length (refs acc'))) then acc'
                else continue acc'
      end
  end.

Definition empty_scan : scan :=
  {| refs := []; skipped_self := []; filtered := [] |}.

(** [assign_lru] called [n] times in a row: the picks, oldest first, and
    the file system after the last call. *)
Fixpoint assign_lru_times (n : nat) (json csv : string)
    (fs : gmap string file) : list (option string) * gmap string file :=
  match n with
  | 0 => ([], fs)
  | S n' =>
      match assign_lru json csv fs with
      | (Ok a, fs') =>
          let rest := assign_lru_times n' json csv fs' in
          (a :: fst rest, snd rest)
      | (Raise _, fs') => ([], fs')
      end
  end.

(** A name the CSV reader keeps as it is: stripped, not blank, not one of
    the placeholders. *)
Definition keeps_name (a : string) : bool :=
  String.eqb (py_strip a) a
  && negb (String.eqb a "")
  && negb (existsb (String.eqb (py_lower a)) placeholder_names).


(** ** core/ingest.py *)

Definition REQUIRED : list string :=
  ["Issue Type"; "Issue key"; "Issue id"; "Summary"].

Definition PLACEHOLDERS : list string :=
  [""; "None"; "none"; "NULL"; "null"; "########"; "N/A"; "NA"; "-"].

Definition mandatory_populated (row : gmap string pyval) : bool :=
  forallb
    (fun f =>
       match row !! f with
       | None => false
       | Some PNone => false
       | Some v => negb (existsb (String.eqb (py_strip (py_str v))) PLACEHOLDERS)
       end)
    REQUIRED.

Record append_summary : Type := {
  loaded : nat;
  skipped_duplicates : nat;
  existing : nat
}.

(** [for item in existing: k = item.get(key_field);
     if k is not None: existing_by_key[str(k)] = item] *)
Definition index_by_key (key_field : string)
    (items : list (gmap string pyval)) : gmap string (gmap string pyval) :=
  fold_left
    (fun by_key item =>
       match py_get item key_field with
       | PNone => by_key
       | k => <[py_str k := item]> by_key
       end)
    items ∅.

(** What the loop over [new_issues] carries. *)
Record append_state : Type := {
  as_items : list (gmap string pyval);
  as_by_key : gmap string (gmap string pyval);
  as_added : nat;
  as_skipped : nat
}.

Definition append_step (key_field : string) (st : append_state)
    (it : gmap string pyval) : append_state :=
  match py_get it key_field with
  | PNone =>
      {| as_items := as_items st ++ [it];
         as_by_key := as_by_key st;
         as_added := as_added st + 1;
         as_skipped := as_skipped st |}
  | k =>
      let ks := py_str k in
      if bool_decide (is_Some (as_by_key st !! ks)) then
        {| as_items := as_items st;
           as_by_key := as_by_key st;
           as_added := as_added st;
           as_skipped := as_skipped st + 1 |}
      else
        {| as_items := as_items st ++ [it];
           as_by_key := <[ks := it]> (as_by_key st);
           as_added := as_added st + 1;
           as_skipped := as_skipped st |}
  end.

(** [append_to_json_store]: [on_disk] is what [json.load] yields for
    [out_path], [None] when the file is missing, empty or corrupt; the first
    component of the result is the list the function writes back. *)
Definition append_to_json_store (new_issues : list (gmap string pyval))
    (on_disk : option (list (gmap string pyval))) (key_field : string)
    : list (gmap string pyval) * append_summary :=
  let items := default [] on_disk in
  let st := fold_left (append_step key_field) new_issues
              {| as_items := items;
                 as_by_key := index_by_key key_field items;
                 as_added := 0;
                 as_skipped := 0 |} in
  (as_items st,
   {| loaded := as_added st;
      skipped_duplicates := as_skipped st;
      existing := length (as_items st) |}).

(** [str(k)] for an item whose [key_field] is not [None]. *)
Definition item_key (key_field : string) (it : gmap string pyval)
    : option string :=
  match py_get it key_field with
  | PNone => None
  | k => Some (py_str k)
  end.

(** The string keys of the items that carry [key_field], in file order. *)
Definition store_keys (key_field : string)
    (items : list (gmap string pyval)) : list string :=
  omap (item_key key_field) items.

(** The items without [key_field], which are never deduplicated. *)
Definition keyless_items (key_field : string)
    (items : list (gmap string pyval)) : list (gmap string pyval) :=
  List.filter (fun it => bool_decide (item_key key_field it = None)) items.

(** ** core/Recommended_Actions.py *)

(** [issue.get("Issue key") or issue.get("key") or issue.get("issue_key")] *)
Definition action_key (issue : gmap string pyval) : pyval :=
  py_or (py_or (py_get issue "Issue key") (py_get issue "key"))
        (py_get issue "issue_key").

(** [if key and str(key).strip() == issue_key] *)
Definition names_issue (issue_key : string) (issue : gmap string pyval) : bool :=
  truthy (action_key issue)
  && String.eqb (py_strip (py_str (action_key issue))) issue_key.

(** [find_recommended_actions], for a JSON file that holds the list
    [issues]: the comments of the first issue stored under [issue_key],
    [None] when there is none. *)
Definition find_recommended_actions (issue_key : string)
    (issues : list (gmap string pyval)) : pyval :=
  match List.find (names_issue issue_key) issues with
  | Some issue => py_get issue "Custom field (Comments)"
  | None => PNone
  end.

(** ** Sample stores and batches *)

Definition demo_cfg : config :=
  {| EmbedDim := 2;
     AnnoyIndexPath := "emb/annoy_index.ann";
     AnnoyMetaPath := "emb/annoy_meta.json";
     AnnoyEmbPath := "emb/embeddings.npy";
     AnnoyNTrees := 50;
     KeyField := "Issue key" |}.

(** An encoder that maps every text to the first unit vector of the plane,
    and a normalisation that finds its rows already of unit length. *)
Definition demo_embed (t : pyval) : list Q := [1%Q; 0%Q].
Definition demo_normalize (v : list Q) : list Q := v.

Definition issue_of (key summary assignee : string) : gmap string pyval :=
  <["Issue key" := PStr key]>
    (<["Summary" := PStr summary]>
       (<["Assignee" := PStr assignee]> ∅)).

Definition stored_entry (key summary assignee : string) : gmap string pyval :=
  <["key" := PStr key]>
    (<["Issue id" := PNone]>
       (<["Issue key" := PStr key]>
          (<["Summary" := PStr summary]>
             (<["Assignee" := PStr assignee]> ∅)))).

(** Key A was indexed twice (its content changed once), key B once. *)
Definition dup_meta : meta_dict :=
  [(0, stored_entry "A" "login fails" "alice");
   (1, stored_entry "A" "login fails on SSO" "alice");
   (2, stored_entry "B" "export is slow" "bob")].

Definition dup_stored : matrix :=
  {| ncols := 2;
     rows := [[1%Q; 0%Q]; [(4#5)%Q; (3#5)%Q]; [(3#5)%Q; (4#5)%Q]] |}.

Definition dup_fs : gmap string file :=
  <["emb/annoy_meta.json" := FMeta dup_meta]>
    (<["emb/embeddings.npy" := FEmb (Arr2 dup_stored)]>
       (<[ASSIGNEE_CSV := FCsv ["alice"; "bob"]]> ∅)).

Definition query_A : gmap string pyval := issue_of "A" "login fails on SSO" "alice".

(** Metadata with two rows next to a matrix with one. *)
Definition short_stored : matrix := {| ncols := 2; rows := [[1%Q; 0%Q]] |}.

Definition torn_fs : gmap string file :=
  <["emb/annoy_meta.json" := FMeta (firstn 2 dup_meta)]>
    (<["emb/embeddings.npy" := FEmb (Arr2 short_stored)]> ∅).

(** Only the metadata file survives. *)
Definition meta_only_fs : gmap string file :=
  <["emb/annoy_meta.json" := FMeta dup_meta]> ∅.

(** Both artifacts on disk, with no row in either. *)
Definition rowless_fs : gmap string file :=
  <["emb/annoy_meta.json" := FMeta []]>
    (<["emb/embeddings.npy" := FEmb (Arr2 (zeros0 2))]> ∅).

(** A store written by a three-dimensional encoder. *)
Definition wide_stored : matrix :=
  {| ncols := 3; rows := [[1%Q; 0%Q; 0%Q]] |}.

Definition wide_fs : gmap string file :=
  <["emb/annoy_meta.json" := FMeta (firstn 1 dup_meta)]>
    (<["emb/embeddings.npy" := FEmb (Arr2 wide_stored)]> ∅).

(** Key A with a new body, and a key the store has not seen. *)
Definition changed_A_new_C : list (gmap string pyval) :=
  [issue_of "A" "login fails after upgrade" "alice";
   issue_of "C" "crash on save" "carol"].

(** A key-bearing record without a Summary field. *)
Definition no_summary : gmap string pyval :=
  <["Issue key" := PStr "N"]> (<["Assignee" := PStr "nina"]> ∅).

(** A batch that carries key K twice with different bodies. *)
Definition twice_K : list (gmap string pyval) :=
  [issue_of "K" "first wording" "alice"; issue_of "K" "second wording" "alice"].

Definition batch_AB : list (gmap string pyval) :=
  [issue_of "A" "login fails" "alice"; issue_of "B" "export is slow" "bob"].

(** A record from which no key can be derived. *)
Definition keyless_batch : list (gmap string pyval) :=
  [<["Assignee" := PStr "zed"]> ∅].

(** An encoder of dimension three. *)
Definition wide_embed (t : pyval) : list Q := [1%Q; 0%Q; 0%Q].

(** A row of the CSV export with every mandatory field populated. *)
Definition csv_row : gmap string pyval :=
  <["Issue Type" := PStr "Bug"]>
    (<["Issue id" := PStr "10001"]> (issue_of "A" "login fails" "alice")).

(** Issue A as stored, with its comments, and as submitted again. *)
Definition stored_A : gmap string pyval :=
  <["Custom field (Comments)" := PStr "restart the SSO service"]> csv_row.

Definition resubmitted_A : gmap string pyval :=
  <["Custom field (Comments)" := PStr "clear the cache"]> csv_row.

(** ** A stable instance of the ranking, used for the sample runs *)

(** Insert row index [i] behind every index whose score is at least as high. *)
Fixpoint insert_desc (row : list Q) (i : nat) (l : list nat) : list nat :=
  match l with
  | [] => [i]
  | j :: l' =>
      if Qle_bool (nth i row 0%Q) (nth j row 0%Q) then j :: insert_desc row i l'
      else i :: l
  end.

Definition argsort_stable (row : list Q) : list nat :=
  fold_left (fun acc i => insert_desc row i acc) (seq 0 (length row)) [].

(** [idxs] ranks the positions of [row] by descending score. *)
Definition ranks_desc (row : list Q) (idxs : list nat) : Prop :=
  Permutation idxs (seq 0 (length row))
  /\ StronglySorted (fun a b => (nth b row 0 <= nth a row 0)%Q) idxs.

Section Engine.

(** The sentence encoder: its output dimension and the raw vector of a text. *)
Variable model_dim : nat.
Variable embed : pyval -> list Q.
(** One row of [a / norms], the norm clamped away from zero. *)
Variable l2_normalize_row : list Q -> list Q.
(** [np.argsort(-row)] *)
Variable argsort_desc : list Q -> list nat.

(** [model.encode(texts, convert_to_numpy=True)] *)
Definition encode (texts : list pyval) : matrix :=
  {| ncols := model_dim; rows := map embed texts |}.

Definition _l2_normalize (a : matrix) : matrix :=
  {| ncols := ncols a; rows := map l2_normalize_row (rows a) |}.

Definition add_index_new_Data (issues : list (gmap string pyval)) (cfg : config)
    : M index_summary :=
  let embed_dim := EmbedDim cfg in
  let idx_path := AnnoyIndexPath cfg in
  let meta_path := AnnoyMetaPath cfg in
  let emb_path := AnnoyEmbPath cfg in
  let n_trees := AnnoyNTrees cfg in
  let key_field := KeyField cfg in
  let! loaded := reading (_load_meta_embs meta_path emb_path embed_dim) in
  let meta := fst loaded in
  let embs := snd loaded in
  let! key_to_idx := reading (fun _ => existing_key_to_idx meta) in
  match meta with
  | [] =>
      (* first run: build from all issues *)
      let items := omap (first_build_item key_field) issues in
      let texts := map fst items in
      let metas := map snd items in
      match texts with
      | [] => ret {| summary_status := no_data; added := 0; index_size := 0 |}
      | _ :: _ =>
          let new_embs := _l2_normalize (encode texts) in
          let embs := new_embs in
          let meta := combine (seq 0 (length metas)) metas in
          let! _ := writing (_save_meta_embs meta embs meta_path emb_path) in
          let! _ := _build_and_save_annoy embs idx_path embed_dim n_trees in
          ret {| summary_status := built_from_all;
                 added := length metas;
                 index_size := nrows embs |}
      end
  | _ :: _ =>
      (* incremental run: embed only new or changed items *)
      let items := omap (incremental_item key_field key_to_idx meta) issues in
      let texts_to_embed := map fst items in
      let metas_to_add := map snd items in
      match texts_to_embed with
      | [] => ret {| summary_status := no_new_or_changed;
                     added := 0;
                     index_size := nrows embs |}
      | _ :: _ =>
          let new_embs := _l2_normalize (encode texts_to_embed) in
          let! embs :=
            if Nat.eqb (msize embs) 0 then ret new_embs
            else reading (fun _ => vstack embs new_embs) in
          let n_before := length meta in
          let meta := append_rows meta n_before 0 metas_to_add in
          let! _ := writing (_save_meta_embs meta embs meta_path emb_path) in
          let! _ := _build_and_save_annoy embs idx_path embed_dim n_trees in
          ret {| summary_status := incremental_ok;
                 added := length metas_to_add;
                 index_size := nrows embs |}
      end
  end.

(** The result of one query record on the early exits. *)
Definition early_result (key_field : string) (d : diagnostics)
    (issue : gmap string pyval) : query_result :=
  {| input_key := _safe_key issue key_field;
     input_summary := py_get_d issue "Summary" (PStr "");
     references := [];
     diag := d |}.

Definition base_diagnostics (row : list Q) (score_threshold : Q)
    : score_diagnostics :=
  {| row_size := length row;
     row_max := row_reduce qmax row;
     row_min := row_reduce qmin row;
     row_mean := row_mean_of row;
     n_above_threshold := length (filter (fun x => Qle_bool score_threshold x = true) row);
     top_candidates_before_filter := [];
     self_skips := [];
     threshold_filtered := [];
     returned_count := None |}.

(** One iteration of the scoring loop for a non-empty similarity row. *)
Definition score_issue (idx_to_meta : meta_dict) (key_field : string)
    (top_k : Z) (score_threshold : Q) (debug : bool)
    (issue : gmap string pyval) (row : list Q) : query_result :=
  let input_key := _safe_key issue key_field in
  let d := base_diagnostics row score_threshold in
  let top_idxs := py_slice_to (argsort_desc row) (top_k * 2) in
  let shown := firstn (Nat.min (length top_idxs) 10) top_idxs in
  let s := collect_refs idx_to_meta input_key row top_k score_threshold debug
             top_idxs empty_scan in
  {| input_key := input_key;
     input_summary := py_get_d issue "Summary" (PStr "");
     references := refs s;
     diag := DiagScores
       {| row_size := row_size d;
          row_max := row_max d;
          row_min := row_min d;
          row_mean := row_mean d;
          n_above_threshold := n_above_threshold d;
          top_candidates_before_filter :=
            map (fun idx => {| cand_idx := idx;
                               cand_score := nth idx row 0%Q;
                               meta_entry_sample := dict_get idx_to_meta idx |})
                shown;
          self_skips := skipped_self s;
          threshold_filtered := filtered s;
          returned_count := Some (length (refs s)) |} |}.

(** [for i, issue in enumerate(issues): ...]: an empty similarity row skips
    the assignee pick, so [potential_assignee] may never be bound. *)
Fixpoint score_loop (sims : list (list Q)) (idx_to_meta : meta_dict)
    (key_field : string) (top_k : Z) (score_threshold : Q) (debug : bool)
    (i : nat) (issues : list (gmap string pyval))
    (results : list query_result) (potential_assignee : option (option string))
    : M (list query_result * option (option string)) :=
  match issues with
  | [] => ret (results, potential_assignee)
  | issue :: rest =>
      match sims !! i with
      | None => raise (IndexError "index out of bounds")
      | Some row =>
          match row with
          | [] =>
              score_loop sims idx_to_meta key_field top_k score_threshold debug
                (S i) rest
                (results ++
                   [early_result key_field
                      (DiagScores (base_diagnostics row score_threshold)) issue])
                potential_assignee
          | _ :: _ =>
              let r := score_issue idx_to_meta key_field top_k score_threshold
                         debug issue row in
              let! a := assign_lru ASSIGNEE_JSON ASSIGNEE_CSV in
              score_loop sims idx_to_meta key_field top_k score_threshold debug
                (S i) rest (results ++ [r]) (Some a)
          end
      end
  end.

Definition find_reference_issues (issues : list (gmap string pyval))
    (embeddings_folder embeddings_file : string) (meta_files : list string)
    (key_field : string) (top_k : Z) (score_threshold : Q) (debug : bool)
    : M query_return :=
  let emb_path := path_join embeddings_folder embeddings_file in
  let! meta_path :=
    reading (fun fs =>
      Ok (List.find (exists_file fs) (map (path_join embeddings_folder) meta_files))) in
  let! emb_path_exists := reading (fun fs => Ok (exists_file fs emb_path)) in
  match emb_path_exists, meta_path with
  | true, Some meta_path =>
      let! loaded :=
        reading (fun fs =>
          match fs !! emb_path with
          | Some (FEmb a) => Ok a
          | _ => Raise (LoadError emb_path)
          end) in
      match loaded with
      | ArrND _ => raise (ValueError "embeddings.npy must be 2D")
      | Arr2 stored_embs =>
          let! meta :=
            reading (fun fs =>
              match fs !! meta_path with
              | Some (FMeta meta) => Ok meta
              | _ => Raise (LoadError meta_path)
              end) in
          let stored_dim := ncols stored_embs in
          let stored_embs := _l2_normalize stored_embs in
          let idx_to_meta := meta in
          let summaries := map (fun i => py_get_d i "Summary" (PStr "")) issues in
          match summaries with
          | [] => ret (RList [])
          | _ :: _ =>
              let q_embs := _l2_normalize (encode summaries) in
              let q_dim := ncols q_embs in
              if negb (Nat.eqb q_dim stored_dim) then
                ret (RList (map (early_result key_field
                                   (DiagDimMismatch q_dim stored_dim)) issues))
              else
                let sims := map (fun q => map (dot q) (rows stored_embs))
                                (rows q_embs) in
                let! out := score_loop sims idx_to_meta key_field top_k
                              score_threshold debug 0 issues [] None in
                match snd out with
                | None => raise (UnboundLocalError "potential_assignee")
                | Some potential_assignee =>
                    ret (RPair (fst out) potential_assignee)
                end
          end
      end
  | _, _ =>
      ret (RList (map (early_result key_field
                         (DiagMissingFiles emb_path_exists meta_path)) issues))
  end.

(** ** Definitions used to state the properties *)

(** The similarity row of one query record: the dot product of its
    normalised embedding with every normalised stored vector. *)
Definition similarity_row (stored : matrix) (issue : gmap string pyval) : list Q :=
  map (dot (l2_normalize_row (embed (py_get_d issue "Summary" (PStr "")))))
      (map l2_normalize_row (rows stored)).

(** What one iteration of the scoring loop appends for [issue]. *)
Definition one_result (idx_to_meta : meta_dict) (key_field : string)
    (top_k : Z) (score_threshold : Q) (debug : bool)
    (issue : gmap string pyval) (row : list Q) : query_result :=
  match row with
  | [] => early_result key_field
            (DiagScores (base_diagnostics row score_threshold)) issue
  | _ :: _ => score_issue idx_to_meta key_field top_k score_threshold debug
                issue row
  end.

(** A ranked row survives when it has a metadata entry, is not the query's
    own key and reaches the threshold. *)
Definition survives (idx_to_meta : meta_dict) (input_key : string)
    (row : list Q) (score_threshold : Q) (idx : nat) : bool :=
  match dict_get idx_to_meta idx with
  | None => false
  | Some e =>
      negb (bool_decide (e = ∅))
      && negb (is_self_match (candidate_key_of e) input_key)
      && negb (score_lt (nth idx row 0%Q) score_threshold)
  end.

Definition make_reference (idx_to_meta : meta_dict) (row : list Q) (idx : nat)
    : reference :=
  let e := default ∅ (dict_get idx_to_meta idx) in
  {| ref_idx := idx;
     ref_key := candidate_key_of e;
     ref_issue_id := py_get e "Issue id";
     ref_summary := py_get e "Summary";
     ref_score := nth idx row 0%Q |}.

(** The specification's selection: the first [top_k] survivors of the whole
    ranking. *)
Definition claimed_references (idx_to_meta : meta_dict) (input_key : string)
    (row : list Q) (top_k : Z) (score_threshold : Q) : list reference :=
  map (make_reference idx_to_meta row)
      (firstn (Z.to_nat top_k)
         (List.filter (survives idx_to_meta input_key row score_threshold)
            (argsort_desc row))).

(** The selection restricted to the [2 * top_k] best-ranked rows. *)
Definition windowed_references (idx_to_meta : meta_dict) (input_key : string)
    (row : list Q) (top_k : Z) (score_threshold : Q) : list reference :=
  map (make_reference idx_to_meta row)
      (firstn (Z.to_nat top_k)
         (List.filter (survives idx_to_meta input_key row score_threshold)
            (firstn (Z.to_nat (2 * top_k)) (argsort_desc row)))).

(** The last row of the metadata that carries [key]. *)
Fixpoint last_entry (meta : meta_dict) (key : pyval)
    : option (nat * gmap string pyval) :=
  match meta with
  | [] => None
  | (i, v) :: rest =>
      match last_entry rest key with
      | Some x => Some x
      | None => if bool_decide (v !! "key" = Some key) then Some (i, v) else None
      end
  end.

(** Row ids are the dense range [0, row_count), in file order. *)
Definition dense_row_ids (meta : meta_dict) : Prop :=
  map fst meta = seq 0 (length meta).

Definition paths_distinct (cfg : config) : Prop :=
  AnnoyMetaPath cfg <> AnnoyEmbPath cfg
  /\ AnnoyIndexPath cfg <> AnnoyMetaPath cfg
  /\ AnnoyIndexPath cfg <> AnnoyEmbPath cfg.

(** The content change detection compares: body and owner. *)
Definition body_of (t : gmap string pyval) : pyval := py_get_d t "Summary" (PStr "").
Definition owner_of (t : gmap string pyval) : pyval := py_get t "Assignee".

(** The incremental run gives [t] a new row: it has a key, and the last
    row stored under that key is missing, empty, or differs from it in body
    or owner. *)
Definition needs_row (key_field : string) (meta : meta_dict)
    (t : gmap string pyval) : bool :=
  negb (String.eqb (_safe_key t key_field) "")
  && match last_entry meta (PStr (_safe_key t key_field)) with
     | None => true
     | Some (_, e) =>
         bool_decide (e = ∅)
         || negb (bool_decide (py_get e "Summary" = body_of t))
         || negb (bool_decide (py_get e "Assignee" = owner_of t))
     end.

Definition key_bearing (key_field : string) (t : gmap string pyval) : bool :=
  negb (String.eqb (_safe_key t key_field) "").

(** The row either indexing path stores for a record. *)
Definition row_of (key_field : string) (t : gmap string pyval)
    : gmap string pyval :=
  mk_entry (_safe_key t key_field) t (body_of t) (owner_of t).

(** ** Theorems *)

(** C10: with exactly one of the two artifacts on disk, the load returns the
    empty snapshot (no metadata, a matrix of shape (0, D)) whatever the
    surviving file holds, and raises nothing. *)
Theorem load_one_artifact_is_empty :
  forall (fs : gmap string file) (meta_path emb_path : string) (dim : nat),
    xorb (exists_file fs meta_path) (exists_file fs emb_path) = true ->
    _load_meta_embs meta_path emb_path dim fs = Ok ([], zeros0 dim)
    /\ nrows (zeros0 dim) = 0 /\ ncols (zeros0 dim) = dim.
Proof.
  intros fs mp ep dim Hx. unfold _load_meta_embs.
  destruct (exists_file fs mp), (exists_file fs ep); simpl in *;
    try discriminate; auto.
Qed.

(** *** The candidate loop *)

Lemma collect_refs_spec (idx_to_meta : meta_dict) (input_key : string)
    (row : list Q) (top_k : Z) (thr : Q) (debug : bool) :
  forall (idxs : list nat) (acc : scan),
    length (refs acc) < Z.to_nat (Z.max 1 top_k) ->
    refs (collect_refs idx_to_meta input_key row top_k thr debug idxs acc)
    = refs acc ++
      map (make_reference idx_to_meta row)
          (firstn (Z.to_nat (Z.max 1 top_k) - length (refs acc))
             (List.filter (survives idx_to_meta input_key row thr) idxs)).
Proof.
  induction idxs as [|idx rest IH]; intros acc Hlt; simpl.
  - rewrite firstn_nil. simpl. now rewrite app_nil_r.
  - unfold survives at 1. unfold make_reference at 1.
    destruct (dict_get idx_to_meta idx) as [e|] eqn:He; simpl.
    2: { now apply IH. }
    destruct (bool_decide (e = ∅)); simpl; [now apply IH|].
    destruct (is_self_match (candidate_key_of e) input_key); simpl.
    { rewrite IH; simpl; auto. }
    destruct (score_lt (nth idx row 0%Q) thr); simpl.
    { rewrite IH; simpl; auto. }
    rewrite length_app. simpl.
    destruct (Z.leb_spec top_k (Z.of_nat (length (refs acc) + 1))) as [Hle|Hgt]; simpl.
    + replace (Z.to_nat (Z.max 1 top_k) - length (refs acc)) with 1 by lia.
      simpl. rewrite He. reflexivity.
    + rewrite IH; simpl.
      * rewrite length_app; simpl. rewrite <- app_assoc. simpl.
        replace (Z.to_nat (Z.max 1 top_k) - length (refs acc))
          with (S (Z.to_nat (Z.max 1 top_k) - (length (refs acc) + 1))) by lia.
        simpl. rewrite He. reflexivity.
      * rewrite length_app; simpl. lia.
Qed.

(** The references of a scored record, for every [top_k]. *)
Lemma score_issue_references (idx_to_meta : meta_dict) (key_field : string)
    (top_k : Z) (thr : Q) (debug : bool) (issue : gmap string pyval)
    (row : list Q) :
  references (score_issue idx_to_meta key_field top_k thr debug issue row)
  = map (make_reference idx_to_meta row)
      (firstn (Z.to_nat (Z.max 1 top_k))
         (List.filter (survives idx_to_meta (_safe_key issue key_field) row thr)
            (py_slice_to (argsort_desc row) (top_k * 2)))).
Proof.
  unfold score_issue. simpl. rewrite collect_refs_spec; simpl; [|lia].
  now rewrite Nat.sub_0_r.
Qed.

(** *** The assignee queue *)

Lemma assign_lru_runs (json csv : string) (fs : gmap string file) :
  exists a fs',
    assign_lru json csv fs = (Ok a, fs')
    /\ forall p, p <> csv -> fs' !! p = fs !! p.
Proof.
  unfold assign_lru.
  match goal with |- context [match ?l with [] => (Ok None, fs) | _ => _ end] =>
    destruct l as [|a others] end.
  - exists None, fs. auto.
  - eexists _, _. split; [reflexivity|].
    intros p Hp. now rewrite lookup_insert_ne.
Qed.

(** *** The scoring loop *)

Lemma score_loop_run (sims : list (list Q)) (idx_to_meta : meta_dict)
    (key_field : string) (top_k : Z) (thr : Q) (debug : bool) :
  forall (issues : list (gmap string pyval)) (rws : list (list Q)) (i : nat)
         (results : list query_result) (pa : option (option string))
         (fs : gmap string file),
    length rws = length issues ->
    (forall j row, rws !! j = Some row -> sims !! (i + j) = Some row) ->
    exists pa' fs',
      score_loop sims idx_to_meta key_field top_k thr debug i issues results pa fs
      = (Ok (results ++
             zip_with (one_result idx_to_meta key_field top_k thr debug) issues rws,
             pa'), fs')
      /\ (forall p, p <> ASSIGNEE_CSV -> fs' !! p = fs !! p)
      /\ (Forall (fun row => row = []) rws -> pa' = pa /\ fs' = fs)
      /\ (Forall (fun row => row <> []) rws -> issues <> [] -> pa' <> None).
Proof.
  induction issues as [|issue rest IH]; intros rws i results pa fs Hlen Hsims.
  - destruct rws; [|discriminate]. exists pa, fs. simpl.
    rewrite app_nil_r. unfold ret. repeat split; auto; congruence.
  - destruct rws as [|row rws]; [discriminate|]. simpl in Hlen.
    assert (Hrow : sims !! i = Some row).
    { specialize (Hsims 0 row eq_refl). now rewrite Nat.add_0_r in Hsims. }
    assert (Hrest : forall j r, rws !! j = Some r -> sims !! (S i + j) = Some r).
    { intros j r Hj. specialize (Hsims (S j) r Hj).
      now replace (S i + j) with (i + S j) by lia. }
    simpl. rewrite Hrow. destruct row as [|x row].
    + destruct (IH rws (S i)
                  (results ++ [early_result key_field
                     (DiagScores (base_diagnostics [] thr)) issue]) pa fs)
        as (pa' & fs' & Hrun & Hframe & Hempty & Hfull); [lia|exact Hrest|].
      exists pa', fs'. rewrite Hrun. rewrite <- app_assoc. simpl.
      split; [reflexivity|]. split; [exact Hframe|]. split.
      * intros Hall. apply Hempty. now inversion Hall.
      * intros Hall. inversion Hall; subst. congruence.
    + unfold bind.
      destruct (assign_lru_runs ASSIGNEE_JSON ASSIGNEE_CSV fs)
        as (a & fs1 & Ha & Hfr1).
      rewrite Ha.
      destruct (IH rws (S i)
                  (results ++ [score_issue idx_to_meta key_field top_k thr debug
                                 issue (x :: row)]) (Some a) fs1)
        as (pa' & fs' & Hrun & Hframe & Hempty & Hfull); [lia|exact Hrest|].
      exists pa', fs'. rewrite Hrun. rewrite <- app_assoc. simpl.
      split; [reflexivity|]. split; [|split].
      * intros p Hp. rewrite Hframe by exact Hp. now apply Hfr1.
      * intros Hall. inversion Hall; subst; discriminate.
      * intros Hall _. inversion Hall; subst.
        destruct rest as [|i2 rest].
        { destruct rws; [|discriminate]. simpl in Hrun.
          unfold ret in Hrun. congruence. }
        { apply Hfull; [assumption|congruence]. }
Qed.

(** *** The retrieval function, path by path *)

Lemma sims_are_similarity_rows (stored : matrix)
    (issues : list (gmap string pyval)) :
  map (fun q => map (dot q) (rows (_l2_normalize stored)))
      (rows (_l2_normalize
               (encode (map (fun i => py_get_d i "Summary" (PStr "")) issues))))
  = map (similarity_row stored) issues.
Proof.
  unfold _l2_normalize, encode, similarity_row. simpl.
  rewrite !map_map. reflexivity.
Qed.

Lemma similarity_row_length (stored : matrix) (issue : gmap string pyval) :
  length (similarity_row stored issue) = nrows stored.
Proof. unfold similarity_row, nrows. now rewrite !length_map. Qed.

Lemma zip_with_map_same {A B C : Type} (f : A -> B -> C) (g : A -> B)
    (l : list A) :
  zip_with f l (map g l) = map (fun a => f a (g a)) l.
Proof. induction l as [|a l IH]; simpl; [reflexivity|now rewrite IH]. Qed.

(** Either nothing is written, the outcome does not depend on [top_k] and
    the threshold, and the function raises or returns a bare list of
    reference-free results; or it went through the scoring loop. *)
Lemma find_reference_issues_cases (issues : list (gmap string pyval))
    (folder efile : string) (mfs : list string) (kf : string) (k : Z)
    (thr : Q) (dbg : bool) (fs : gmap string file) :
  let out := find_reference_issues issues folder efile mfs kf k thr dbg fs in
  (snd out = fs
   /\ (forall k' thr',
         find_reference_issues issues folder efile mfs kf k' thr' dbg fs = out)
   /\ match fst out with
      | Raise _ => True
      | Ok (RList rs) =>
          exists d, rs = map (early_result kf d) issues
                    /\ forall sd, d <> DiagScores sd
      | Ok (RPair _ _) => False
      end)
  \/ (exists mp stored meta pa,
        List.find (exists_file fs) (map (path_join folder) mfs) = Some mp
        /\ fs !! path_join folder efile = Some (FEmb (Arr2 stored))
        /\ fs !! mp = Some (FMeta meta)
        /\ model_dim = ncols stored
        /\ issues <> [] /\ rows stored <> []
        /\ fst out
           = Ok (RPair (map (fun issue =>
                               score_issue meta kf k thr dbg issue
                                 (similarity_row stored issue)) issues) pa)
        /\ forall p, p <> ASSIGNEE_CSV -> snd out !! p = fs !! p).
Proof.
  unfold find_reference_issues, bind, reading, ret, raise. simpl.
  destruct (List.find (exists_file fs) (map (path_join folder) mfs))
    as [mp|] eqn:Hfind;
    destruct (exists_file fs (path_join folder efile)) eqn:Hemb; simpl;
    try (left; split; [reflexivity|]; split; [reflexivity|];
         eexists; split; [reflexivity|]; intros sd; discriminate).
  destruct (fs !! path_join folder efile) as [[ | [stored|nd] | | | | ]|] eqn:Hfile;
    simpl; try (left; split; [reflexivity|]; split; [reflexivity|exact I]).
  destruct (fs !! mp) as [[meta| | | | | ]|] eqn:Hmeta;
    simpl; try (left; split; [reflexivity|]; split; [reflexivity|exact I]).
  destruct issues as [|issue0 rest] eqn:Hissues.
  { simpl. left. split; [reflexivity|]. split; [reflexivity|].
    exists (DiagDimMismatch 0 0). split; [reflexivity|]. intros sd; discriminate. }
  rewrite <- Hissues.
  replace (map (fun i : gmap string pyval => py_get_d i "Summary" (PStr "")) issues)
    with (py_get_d issue0 "Summary" (PStr "")
          :: map (fun i : gmap string pyval => py_get_d i "Summary" (PStr "")) rest)
    by (subst issues; reflexivity).
  cbv iota.
  replace (py_get_d issue0 "Summary" (PStr "")
          :: map (fun i : gmap string pyval => py_get_d i "Summary" (PStr "")) rest)
    with (map (fun i : gmap string pyval => py_get_d i "Summary" (PStr "")) issues)
    by (subst issues; reflexivity).
  change (ncols (_l2_normalize (encode
            (map (fun i : gmap string pyval => py_get_d i "Summary" (PStr "")) issues))))
    with model_dim.
  destruct (Nat.eqb_spec model_dim (ncols stored)) as [Hdim|Hdim]; simpl.
  2: { left. split; [reflexivity|]. split; [reflexivity|].
       eexists; split; [reflexivity|]. intros sd; discriminate. }
  pose proof (sims_are_similarity_rows stored issues) as Hsims.
  unfold _l2_normalize, encode in Hsims. simpl in Hsims. rewrite Hsims.
  assert (Hloop : forall k0 thr0, exists pa' fs',
             score_loop (map (similarity_row stored) issues) meta kf k0 thr0 dbg
               0 issues [] None fs
             = (Ok (map (fun issue => one_result meta kf k0 thr0 dbg issue
                                        (similarity_row stored issue)) issues,
                    pa'), fs')
             /\ (forall p, p <> ASSIGNEE_CSV -> fs' !! p = fs !! p)
             /\ (rows stored = [] -> pa' = None /\ fs' = fs)
             /\ (rows stored <> [] -> pa' <> None)).
  { intros k0 thr0.
    destruct (score_loop_run (map (similarity_row stored) issues) meta kf k0 thr0
                dbg issues (map (similarity_row stored) issues) 0 [] None fs)
      as (pa' & fs' & Hrun & Hframe & Hempty & Hfull).
    { now rewrite length_map. }
    { intros j row Hj. exact Hj. }
    exists pa', fs'. rewrite Hrun. simpl. rewrite zip_with_map_same.
    split; [reflexivity|]. split; [exact Hframe|]. split.
    - intros Hrows. apply Hempty.
      apply List.Forall_forall. intros row Hin. apply in_map_iff in Hin.
      destruct Hin as (t & <- & _). unfold similarity_row. now rewrite Hrows.
    - intros Hrows. apply Hfull; [|subst issues; discriminate].
      apply List.Forall_forall. intros row Hin. apply in_map_iff in Hin.
      destruct Hin as (t & <- & _). unfold similarity_row.
      destruct (rows stored); [congruence|discriminate]. }
  destruct (Hloop k thr) as (pa' & fs' & Hrun & Hframe & Hempty & Hfull).
  rewrite Hrun. simpl.
  destruct (rows stored) as [|v vs] eqn:Hrows.
  - (* no stored row: the assignee is never bound *)
    destruct (Hempty eq_refl) as [-> ->]. left. simpl.
    split; [reflexivity|]. split; [|exact I].
    intros k' thr'.
    destruct (Hloop k' thr') as (pa2 & fs2 & Hrun2 & _ & Hempty2 & _).
    rewrite Hrun2. destruct (Hempty2 eq_refl) as [-> ->]. reflexivity.
  - assert (Hne : pa' <> None) by (apply Hfull; discriminate).
    destruct pa' as [pa'|]; [|congruence]. simpl.
    right. exists mp, stored, meta, pa'. rewrite Hrows.
    repeat (split; [first [assumption|reflexivity|discriminate
                          |subst issues; discriminate]|]).
    split; [|exact Hframe].
    f_equal. f_equal. apply map_ext_in. intros t _.
    unfold one_result, similarity_row. rewrite Hrows. reflexivity.
Qed.

(** *** Facts about lists used below *)

Lemma In_firstn {A : Type} (x : A) (n : nat) :
  forall l, In x (firstn n l) -> In x l.
Proof.
  induction n as [|n IH]; intros [|y l]; simpl; try tauto.
  intros [->|H]; auto.
Qed.

Lemma StronglySorted_firstn {A : Type} (R : A -> A -> Prop) (n : nat) :
  forall l, StronglySorted R l -> StronglySorted R (firstn n l).
Proof.
  induction n as [|n IH]; intros l Hl; simpl; [constructor|].
  destruct l as [|x l]; [constructor|].
  inversion Hl; subst. constructor; [now apply IH|].
  apply List.Forall_forall. intros y Hy.
  eapply List.Forall_forall; [eassumption|]. eapply In_firstn; eauto.
Qed.

Lemma StronglySorted_filter {A : Type} (R : A -> A -> Prop) (f : A -> bool) :
  forall l, StronglySorted R l -> StronglySorted R (List.filter f l).
Proof.
  induction l as [|x l IH]; intros Hl; simpl; [constructor|].
  inversion Hl; subst. destruct (f x); [|now apply IH].
  constructor; [now apply IH|].
  apply List.Forall_forall. intros y Hy. apply filter_In in Hy.
  eapply List.Forall_forall; [eassumption|]. tauto.
Qed.

Lemma StronglySorted_map {A B : Type} (R : B -> B -> Prop) (g : A -> B) :
  forall l, StronglySorted (fun a b => R (g a) (g b)) l ->
            StronglySorted R (map g l).
Proof.
  induction l as [|x l IH]; intros Hl; simpl; [constructor|].
  inversion Hl; subst. constructor; [now apply IH|].
  apply List.Forall_forall. intros y Hy. apply in_map_iff in Hy.
  destruct Hy as (a & <- & Ha).
  eapply List.Forall_forall in Ha; [|eassumption]. exact Ha.
Qed.

Lemma filter_length_mono {A : Type} (f g : A -> bool) (n : nat) :
  (forall x, f x = true -> g x = true) ->
  forall l, length (firstn n (List.filter f l)) <= length (firstn n (List.filter g l)).
Proof.
  intros Hfg l. rewrite !length_firstn.
  assert (length (List.filter f l) <= length (List.filter g l)); [|lia].
  induction l as [|x l IH]; simpl; [lia|].
  destruct (f x) eqn:Hf.
  - rewrite (Hfg x Hf). simpl. lia.
  - destruct (g x); simpl; lia.
Qed.

Lemma survives_threshold_mono (idx_to_meta : meta_dict) (input_key : string)
    (row : list Q) (t1 t2 : Q) (idx : nat) :
  (t1 < t2)%Q ->
  survives idx_to_meta input_key row t2 idx = true ->
  survives idx_to_meta input_key row t1 idx = true.
Proof.
  intros Hlt. unfold survives, score_lt.
  destruct (dict_get idx_to_meta idx) as [e|]; [|auto].
  rewrite !negb_involutive, !andb_true_iff. intros [Hpre Hle]. split; [exact Hpre|].
  apply Qle_bool_iff. apply Qle_bool_iff in Hle.
  apply Qle_trans with t2; [now apply Qlt_le_weak|exact Hle].
Qed.

Lemma survives_not_self (idx_to_meta : meta_dict) (input_key : string)
    (row : list Q) (thr : Q) (idx : nat) :
  input_key <> "" ->
  survives idx_to_meta input_key row thr idx = true ->
  ref_key (make_reference idx_to_meta row idx) <> input_key.
Proof.
  intros Hne. unfold survives, make_reference, is_self_match. simpl.
  destruct (dict_get idx_to_meta idx) as [e|]; [|discriminate]. simpl.
  rewrite !andb_true_iff, !negb_true_iff. intros [[_ Hself] _] Heq.
  rewrite Heq in Hself.
  rewrite String.eqb_refl in Hself.
  destruct (String.eqb_spec input_key ""); [congruence|]. discriminate.
Qed.

(** *** The retrieval engine *)

(** C9: on every path that returns, the results are one per input record,
    in input order, each carrying that record's key and body summary. *)
Theorem one_result_per_input :
  forall (issues : list (gmap string pyval)) (folder efile : string)
         (mfs : list string) (kf : string) (k : Z) (thr : Q) (dbg : bool)
         (fs fs' : gmap string file) (ret : query_return),
    find_reference_issues issues folder efile mfs kf k thr dbg fs = (Ok ret, fs') ->
    length (results_of ret) = length issues
    /\ map input_key (results_of ret) = map (fun i => _safe_key i kf) issues
    /\ map input_summary (results_of ret)
       = map (fun i => py_get_d i "Summary" (PStr "")) issues.
Proof.
  intros issues folder efile mfs kf k thr dbg fs fs' ret Hrun.
  destruct (find_reference_issues_cases issues folder efile mfs kf k thr dbg fs)
    as [(_ & _ & Hout)|(mp & stored & meta & pa & _ & _ & _ & _ & _ & _ & Hout & _)];
    rewrite Hrun in Hout; simpl in Hout.
  - destruct ret as [rs|rs pa]; [|contradiction].
    destruct Hout as (d & -> & _). simpl.
    rewrite length_map, !map_map. auto.
  - injection Hout as ->. simpl. rewrite length_map, !map_map. auto.
Qed.

(** C5: when the query embedding dimension differs from the stored one, the
    call returns, without raising and without writing, one result per input
    record with no reference and the dimension-mismatch diagnostic. *)
Theorem dimension_mismatch_degrades :
  forall (issues : list (gmap string pyval)) (folder efile : string)
         (mfs : list string) (kf : string) (k : Z) (thr : Q) (dbg : bool)
         (fs : gmap string file) (mp : string) (stored : matrix)
         (meta : meta_dict),
    List.find (exists_file fs) (map (path_join folder) mfs) = Some mp ->
    fs !! path_join folder efile = Some (FEmb (Arr2 stored)) ->
    fs !! mp = Some (FMeta meta) ->
    model_dim <> ncols stored ->
    exists results,
      find_reference_issues issues folder efile mfs kf k thr dbg fs
      = (Ok (RList results), fs)
      /\ length results = length issues
      /\ Forall2 (fun issue r =>
                    input_key r = _safe_key issue kf
                    /\ references r = []
                    /\ diag r = DiagDimMismatch model_dim (ncols stored))
                 issues results.
Proof.
  intros issues folder efile mfs kf k thr dbg fs mp stored meta
         Hfind Hemb Hmeta Hdim.
  exists (map (early_result kf (DiagDimMismatch model_dim (ncols stored))) issues).
  split; [|split].
  - unfold find_reference_issues, bind, reading, ret, raise. simpl.
    rewrite Hfind.
    assert (Hex : exists_file fs (path_join folder efile) = true).
    { unfold exists_file. apply bool_decide_eq_true. rewrite Hemb. eauto. }
    rewrite Hex. simpl. rewrite Hemb. simpl. rewrite Hmeta. simpl.
    destruct issues as [|issue0 rest]; [reflexivity|]. simpl.
    destruct (Nat.eqb_spec model_dim (ncols stored)); [contradiction|].
    reflexivity.
  - now rewrite length_map.
  - induction issues as [|issue rest IH]; simpl; constructor; auto.
Qed.

(** C6: a returned reference never carries the key of the query record it
    answers, when that key is not empty, whatever the threshold and top_k. *)
Theorem no_self_reference :
  forall (issues : list (gmap string pyval)) (folder efile : string)
         (mfs : list string) (kf : string) (k : Z) (thr : Q) (dbg : bool)
         (fs fs' : gmap string file) (ret : query_return),
    find_reference_issues issues folder efile mfs kf k thr dbg fs = (Ok ret, fs') ->
    Forall (fun r =>
              input_key r <> "" ->
              Forall (fun ref => ref_key ref <> input_key r) (references r))
           (results_of ret).
Proof.
  intros issues folder efile mfs kf k thr dbg fs fs' ret Hrun.
  destruct (find_reference_issues_cases issues folder efile mfs kf k thr dbg fs)
    as [(_ & _ & Hout)|(mp & stored & meta & pa & _ & _ & _ & _ & _ & _ & Hout & _)];
    rewrite Hrun in Hout; simpl in Hout.
  - destruct ret as [rs|rs pa]; [|contradiction].
    destruct Hout as (d & -> & _). simpl.
    apply List.Forall_forall. intros r Hin. apply in_map_iff in Hin.
    destruct Hin as (t & <- & _). intros _. simpl. constructor.
  - injection Hout as ->. simpl.
    apply List.Forall_forall. intros r Hin. apply in_map_iff in Hin.
    destruct Hin as (t & <- & _). intros Hkey.
    rewrite score_issue_references.
    change (input_key (score_issue meta kf k thr dbg t (similarity_row stored t)))
      with (_safe_key t kf) in *.
    apply List.Forall_forall. intros ref Href. apply in_map_iff in Href.
    destruct Href as (idx & <- & Hidx).
    apply In_firstn in Hidx. apply filter_In in Hidx. destruct Hidx as [_ Hs].
    eapply survives_not_self; eassumption.
Qed.

(** C8: on the same store and batch, a higher threshold returns, record by
    record, at most as many references as a lower one. *)
Theorem raising_threshold_never_adds_references :
  forall (issues : list (gmap string pyval)) (folder efile : string)
         (mfs : list string) (kf : string) (k : Z) (t1 t2 : Q) (dbg : bool)
         (fs fs1 : gmap string file) (ret1 : query_return),
    (t1 < t2)%Q ->
    find_reference_issues issues folder efile mfs kf k t1 dbg fs = (Ok ret1, fs1) ->
    exists ret2 fs2,
      find_reference_issues issues folder efile mfs kf k t2 dbg fs = (Ok ret2, fs2)
      /\ Forall2 (fun r1 r2 => length (references r2) <= length (references r1))
                 (results_of ret1) (results_of ret2).
Proof.
  intros issues folder efile mfs kf k t1 t2 dbg fs fs1 ret1 Hlt Hrun.
  destruct (find_reference_issues_cases issues folder efile mfs kf k t1 dbg fs)
    as [(_ & Hind & _)|(mp & stored & meta & pa & Hf & He & Hm & _ & _ & _ & Hout & _)].
  - exists ret1, fs1. split.
    + rewrite (Hind k t2). exact Hrun.
    + clear. induction (results_of ret1); constructor; auto.
  - rewrite Hrun in Hout. simpl in Hout. injection Hout as ->.
    destruct (find_reference_issues_cases issues folder efile mfs kf k t2 dbg fs)
      as [(_ & Hind & Hbad)
         |(mp2 & stored2 & meta2 & pa2 & Hf2 & He2 & Hm2 & _ & _ & _ & Hout2 & _)].
    + rewrite <- (Hind k t1), Hrun in Hbad. contradiction.
    + rewrite Hf in Hf2. injection Hf2 as <-.
      rewrite He in He2. injection He2 as <-.
      rewrite Hm in Hm2. injection Hm2 as <-.
      destruct (find_reference_issues issues folder efile mfs kf k t2 dbg fs)
        as [r2 fs2]. simpl in Hout2. subst r2.
      eexists _, fs2. split; [reflexivity|]. simpl.
      clear -Hlt. induction issues as [|t rest IH]; simpl; constructor; [|exact IH].
      rewrite !score_issue_references, !length_map.
      apply filter_length_mono. intros idx.
      now apply survives_threshold_mono.
Qed.

Lemma Forall2_map_same {A B : Type} (P : A -> B -> Prop) (f : A -> B) :
  forall l, (forall a, In a l -> P a (f a)) -> Forall2 P l (map f l).
Proof.
  induction l as [|a l IH]; intros H; simpl; constructor.
  - apply H. now left.
  - apply IH. intros b Hb. apply H. now right.
Qed.

(** The references of one scored record: the first [top_k] survivors among
    the [2 * top_k] best-ranked rows, in rank order. *)
Lemma score_issue_windowed (idx_to_meta : meta_dict) (key_field : string)
    (top_k : Z) (thr : Q) (debug : bool) (issue : gmap string pyval)
    (row : list Q) :
  (0 <= top_k)%Z ->
  references (score_issue idx_to_meta key_field top_k thr debug issue row)
  = windowed_references idx_to_meta (_safe_key issue key_field) row top_k thr.
Proof.
  intros Hk. rewrite score_issue_references. unfold windowed_references, py_slice_to.
  destruct (Z.leb_spec 0%Z (top_k * 2)%Z) as [_|Hneg]; [|lia].
  replace (2 * top_k)%Z with (top_k * 2)%Z by lia.
  destruct (Z.eq_dec top_k 0%Z) as [->|Hpos].
  - simpl. reflexivity.
  - now replace (Z.max 1%Z top_k) with top_k by lia.
Qed.

(** C1, as the code has it: every stored vector is scored by its dot product
    with the query, and the references returned for a record are the first
    top_k survivors (metadata present, not the query's own key, score at
    least the threshold) among the 2 * top_k best-ranked rows, in rank
    order; they come out by non-increasing score and each carries the score
    of its own row. *)
Theorem references_are_first_survivors_of_window :
  forall (issues : list (gmap string pyval)) (folder efile : string)
         (mfs : list string) (kf : string) (k : Z) (thr : Q) (dbg : bool)
         (fs fs' : gmap string file) (mp : string) (stored : matrix)
         (meta : meta_dict) (rs : list query_result) (pa : option string),
    (forall row, ranks_desc row (argsort_desc row)) ->
    (0 <= k)%Z ->
    List.find (exists_file fs) (map (path_join folder) mfs) = Some mp ->
    fs !! path_join folder efile = Some (FEmb (Arr2 stored)) ->
    fs !! mp = Some (FMeta meta) ->
    find_reference_issues issues folder efile mfs kf k thr dbg fs
    = (Ok (RPair rs pa), fs') ->
    Forall2 (fun issue r =>
               references r
               = windowed_references meta (_safe_key issue kf)
                   (similarity_row stored issue) k thr
               /\ StronglySorted (fun a b => (ref_score b <= ref_score a)%Q)
                    (references r)
               /\ Forall (fun ref =>
                            ref_idx ref < nrows stored
                            /\ ref_score ref
                               = nth (ref_idx ref) (similarity_row stored issue) 0%Q)
                         (references r))
            issues rs.
Proof.
  intros issues folder efile mfs kf k thr dbg fs fs' mp stored meta rs pa
         Hrank Hk Hfind Hemb Hmeta Hrun.
  destruct (find_reference_issues_cases issues folder efile mfs kf k thr dbg fs)
    as [(_ & _ & Hout)
       |(mp2 & stored2 & meta2 & pa2 & Hf2 & He2 & Hm2 & _ & _ & _ & Hout & _)];
    rewrite Hrun in Hout; simpl in Hout; [contradiction|].
  rewrite Hfind in Hf2. injection Hf2 as <-.
  rewrite Hemb in He2. injection He2 as <-.
  rewrite Hmeta in Hm2. injection Hm2 as <-.
  injection Hout as -> ->.
  apply Forall2_map_same. intros t _.
  rewrite score_issue_windowed by exact Hk.
  destruct (Hrank (similarity_row stored t)) as [Hperm Hsorted].
  split; [reflexivity|]. split.
  - unfold windowed_references. apply StronglySorted_map. simpl.
    apply StronglySorted_firstn, StronglySorted_filter, StronglySorted_firstn.
    exact Hsorted.
  - unfold windowed_references. apply List.Forall_forall. intros ref Href.
    apply in_map_iff in Href. destruct Href as (idx & <- & Hidx). simpl.
    split; [|reflexivity].
    apply In_firstn in Hidx. apply filter_In in Hidx. destruct Hidx as [Hidx _].
    apply In_firstn in Hidx.
    eapply Permutation_in in Hidx; [|exact Hperm].
    apply in_seq in Hidx. rewrite similarity_row_length in Hidx. lia.
Qed.


(** The early exits and the failures write nothing at all. *)
Lemma query_without_scoring_writes_nothing
    (issues : list (gmap string pyval)) (folder efile : string)
    (mfs : list string) (kf : string) (k : Z) (thr : Q) (dbg : bool)
    (fs : gmap string file) :
  (forall rs pa,
     fst (find_reference_issues issues folder efile mfs kf k thr dbg fs)
     <> Ok (RPair rs pa)) ->
  snd (find_reference_issues issues folder efile mfs kf k thr dbg fs) = fs.
Proof.
  intros Hnot.
  destruct (find_reference_issues_cases issues folder efile mfs kf k thr dbg fs)
    as [(Hsame & _)|(mp & stored & meta & pa & _ & _ & _ & _ & _ & _ & Hout & _)].
  - exact Hsame.
  - exfalso. eapply Hnot. exact Hout.
Qed.

(** *** The vector store *)

Lemma load_both_present (fs : gmap string file) (meta_path emb_path : string)
    (dim : nat) (meta : meta_dict) (a : ndarray) :
  fs !! meta_path = Some (FMeta meta) ->
  fs !! emb_path = Some (FEmb a) ->
  _load_meta_embs meta_path emb_path dim fs
  = match a with
    | Arr2 embs =>
        if Nat.eqb (ncols embs) dim then Ok (meta, embs)
        else Raise (ValueError "Saved embeddings have wrong shape/dim")
    | ArrND _ => Raise (ValueError "Saved embeddings have wrong shape/dim")
    end.
Proof.
  intros Hm He. unfold _load_meta_embs, exists_file.
  rewrite Hm, He.
  rewrite !bool_decide_eq_true_2 by eauto. simpl.
  destruct a; reflexivity.
Qed.

Lemma load_ncols (fs : gmap string file) (meta_path emb_path : string)
    (dim : nat) (meta : meta_dict) (embs : matrix) :
  _load_meta_embs meta_path emb_path dim fs = Ok (meta, embs) ->
  ncols embs = dim.
Proof.
  unfold _load_meta_embs.
  destruct (exists_file fs meta_path && exists_file fs emb_path).
  - destruct (fs !! meta_path) as [[m| | | | | ]|]; try discriminate.
    destruct (fs !! emb_path) as [[ | [e|] | | | | ]|]; try discriminate.
    destruct (Nat.eqb_spec (ncols e) dim); [|discriminate].
    now intros [= <- <-].
  - now intros [= <- <-].
Qed.

(** C3, as the code has it: with both artifacts on disk the load raises
    exactly when the matrix is not two-dimensional or its column count
    differs from D; otherwise it returns the stored metadata and matrix
    whole, without comparing their row counts. *)
Theorem load_checks_shape_only :
  forall (fs : gmap string file) (meta_path emb_path : string) (dim : nat)
         (meta : meta_dict) (a : ndarray),
    fs !! meta_path = Some (FMeta meta) ->
    fs !! emb_path = Some (FEmb a) ->
    _load_meta_embs meta_path emb_path dim fs
    = match a with
      | Arr2 embs =>
          if Nat.eqb (ncols embs) dim then Ok (meta, embs)
          else Raise (ValueError "Saved embeddings have wrong shape/dim")
      | ArrND _ => Raise (ValueError "Saved embeddings have wrong shape/dim")
      end.
Proof.
  intros fs mp ep dim meta a Hm He. now apply load_both_present.
Qed.

(** *** Appending rows *)


Lemma dict_set_fresh {A : Type} (d : list (nat * A)) (k : nat) (v : A) :
  ~ In k (map fst d) -> dict_set d k v = d ++ [(k, v)].
Proof.
  induction d as [|[k' v'] d IH]; simpl; intros Hk; [reflexivity|].
  destruct (Nat.eqb_spec k k') as [->|Hne]; [tauto|].
  rewrite IH; [reflexivity|tauto].
Qed.

Lemma append_rows_from (n : nat) :
  forall (ms : list (gmap string pyval)) (meta : meta_dict) (i : nat),
    map fst meta = seq 0 (n + i) ->
    append_rows meta n i ms = meta ++ combine (seq (n + i) (length ms)) ms.
Proof.
  induction ms as [|m ms IH]; intros meta i Hd; simpl.
  - now rewrite app_nil_r.
  - rewrite dict_set_fresh.
    + rewrite IH.
      * rewrite <- app_assoc. simpl. now replace (n + S i) with (S (n + i)) by lia.
      * rewrite map_app, Hd. simpl.
        replace (n + S i) with (S (n + i)) by lia.
        now rewrite seq_S.
    + rewrite Hd, in_seq. lia.
Qed.

Lemma append_rows_dense (meta : meta_dict) (ms : list (gmap string pyval)) :
  dense_row_ids meta ->
  append_rows meta (length meta) 0 ms
  = meta ++ combine (seq (length meta) (length ms)) ms.
Proof.
  intros Hd. rewrite append_rows_from.
  - now rewrite Nat.add_0_r.
  - now rewrite Nat.add_0_r.
Qed.

Lemma combine_seq_fst {A : Type} (n : nat) (ms : list A) :
  map fst (combine (seq n (length ms)) ms) = seq n (length ms).
Proof.
  revert n. induction ms as [|m ms IH]; intros n; simpl; [reflexivity|].
  now rewrite IH.
Qed.

Lemma combine_seq_snd {A : Type} (n : nat) (ms : list A) :
  map snd (combine (seq n (length ms)) ms) = ms.
Proof.
  revert n. induction ms as [|m ms IH]; intros n; simpl; [reflexivity|].
  now rewrite IH.
Qed.

Lemma dense_after_append (meta : meta_dict) (ms : list (gmap string pyval)) :
  dense_row_ids meta ->
  dense_row_ids (meta ++ combine (seq (length meta) (length ms)) ms).
Proof.
  unfold dense_row_ids. intros Hd.
  rewrite map_app, combine_seq_fst, Hd, length_app.
  rewrite length_combine, length_seq, Nat.min_id.
  now rewrite seq_app.
Qed.

Lemma loaded_meta_dense (cfg : config) (fs : gmap string file)
    (meta0 : meta_dict) (embs0 : matrix) :
  (forall meta, fs !! AnnoyMetaPath cfg = Some (FMeta meta) -> dense_row_ids meta) ->
  _load_meta_embs (AnnoyMetaPath cfg) (AnnoyEmbPath cfg) (EmbedDim cfg) fs
  = Ok (meta0, embs0) ->
  dense_row_ids meta0.
Proof.
  intros Hd. unfold _load_meta_embs.
  destruct (exists_file fs (AnnoyMetaPath cfg) && exists_file fs (AnnoyEmbPath cfg)).
  - destruct (fs !! AnnoyMetaPath cfg) as [[meta| | | | | ]|]; try discriminate.
    destruct (fs !! AnnoyEmbPath cfg) as [[ | [embs|] | | | | ]|]; try discriminate.
    destruct (Nat.eqb (ncols embs) (EmbedDim cfg)); [|discriminate].
    intros [= <- <-]. now apply Hd.
  - intros [= <- <-]. reflexivity.
Qed.

(** What a run that returns has done, in terms of the snapshot it loaded:
    either nothing was selected and nothing written, or the selected rows
    were appended under the next row ids and both artifacts rewritten. *)
Lemma add_index_inv (issues : list (gmap string pyval)) (cfg : config)
    (fs fs' : gmap string file) (meta0 : meta_dict) (embs0 : matrix)
    (r : index_summary) :
  paths_distinct cfg ->
  _load_meta_embs (AnnoyMetaPath cfg) (AnnoyEmbPath cfg) (EmbedDim cfg) fs
  = Ok (meta0, embs0) ->
  dense_row_ids meta0 ->
  add_index_new_Data issues cfg fs = (Ok r, fs') ->
  exists key_to_idx items,
    existing_key_to_idx meta0 = Ok key_to_idx
    /\ items = match meta0 with
               | [] => omap (first_build_item (KeyField cfg)) issues
               | _ :: _ => omap (incremental_item (KeyField cfg) key_to_idx meta0) issues
               end
    /\ match items with
       | [] =>
           fs' = fs /\ added r = 0
           /\ summary_status r
              = match meta0 with [] => no_data | _ :: _ => no_new_or_changed end
       | _ :: _ =>
           exists embs1,
             fs' !! AnnoyMetaPath cfg
             = Some (FMeta (meta0 ++
                            combine (seq (length meta0) (length items))
                                    (map snd items)))
             /\ fs' !! AnnoyEmbPath cfg = Some (FEmb (Arr2 embs1))
             /\ ncols embs1 = EmbedDim cfg
             /\ rows embs1
                = match meta0 with
                  | [] => []
                  | _ :: _ => if Nat.eqb (msize embs0) 0 then [] else rows embs0
                  end ++ map l2_normalize_row (map embed (map fst items))
             /\ added r = length items
             /\ index_size r = nrows embs1
             /\ summary_status r
                = match meta0 with [] => built_from_all | _ :: _ => incremental_ok end
       end.
Proof.
  intros (Hme & Him & Hie) Hload Hdense.
  unfold add_index_new_Data, bind, reading, writing, ret. rewrite Hload. simpl.
  destruct (existing_key_to_idx meta0) as [k2i|e] eqn:Hk2i; [|discriminate].
  rewrite (append_rows_dense meta0 _ Hdense).
  intros Hrun. exists k2i. eexists. split; [reflexivity|]. split; [reflexivity|].
  revert Hrun.
  assert (Hsaved : forall meta embs (fs0 : gmap string file) r0 fs2,
            _build_and_save_annoy embs (AnnoyIndexPath cfg) (EmbedDim cfg)
              (AnnoyNTrees cfg)
              (_save_meta_embs meta embs (AnnoyMetaPath cfg) (AnnoyEmbPath cfg) fs0)
            = (Ok r0, fs2) ->
            rows embs <> [] ->
            fs2 !! AnnoyMetaPath cfg = Some (FMeta meta)
            /\ fs2 !! AnnoyEmbPath cfg = Some (FEmb (Arr2 embs))
            /\ ncols embs = EmbedDim cfg).
  { intros meta embs fs0 r0 fs2. unfold _build_and_save_annoy, nrows, writing, raise.
    intros Hb Hrows.
    destruct (rows embs) as [|v vs] eqn:Hr; [congruence|]. simpl in Hb.
    destruct (Nat.eqb_spec (ncols embs) (EmbedDim cfg)) as [Hc|Hc]; [|discriminate].
    injection Hb as _ <-. unfold _save_meta_embs.
    rewrite lookup_insert_ne by congruence.
    rewrite lookup_insert_ne by congruence.
    rewrite lookup_insert_eq.
    rewrite lookup_insert_ne by congruence.
    rewrite lookup_insert_eq. auto. }
  destruct meta0 as [|row0 meta0'].
  - (* first run *)
    destruct (omap (first_build_item (KeyField cfg)) issues) as [|it its] eqn:Hitems;
      simpl.
    + intros [= <- <-]. auto.
    + match goal with |- context [_build_and_save_annoy ?e ?a ?b ?c ?f] =>
        destruct (_build_and_save_annoy e a b c f) as [[u|ex] fs2] eqn:Hb end;
        [|discriminate].
      intros [= <- <-].
      apply Hsaved in Hb; [|discriminate]. destruct Hb as (Hm & He & Hc).
      eexists. split; [simpl in Hm |- *; rewrite ?length_map in Hm; exact Hm|].
      split; [exact He|]. split; [exact Hc|].
      simpl. rewrite !length_map. auto.
  - (* incremental run *)
    destruct (omap (incremental_item (KeyField cfg) k2i (row0 :: meta0')) issues)
      as [|it its] eqn:Hitems; simpl.
    + intros [= <- <-]. auto.
    + destruct (Nat.eqb (msize embs0) 0) eqn:Hsize.
      * match goal with |- context [_build_and_save_annoy ?e ?a ?b ?c ?f] =>
          destruct (_build_and_save_annoy e a b c f) as [[u|ex] fs2] eqn:Hb end;
          [|discriminate].
        intros [= <- <-].
        apply Hsaved in Hb; [|discriminate]. destruct Hb as (Hm & He & Hc).
        eexists. split; [simpl in Hm |- *; rewrite ?length_map in Hm; exact Hm|].
        split; [exact He|]. split; [exact Hc|].
        simpl. rewrite !length_map. auto.
      * unfold vstack. simpl.
        destruct (Nat.eqb (ncols embs0) model_dim) eqn:Hcols; [|discriminate].
        match goal with |- context [_build_and_save_annoy ?e ?a ?b ?c ?f] =>
          destruct (_build_and_save_annoy e a b c f) as [[u|ex] fs2] eqn:Hb end;
          [|discriminate].
        intros [= <- <-].
        apply Hsaved in Hb.
        2: { simpl. destruct (rows embs0); discriminate. }
        destruct Hb as (Hm & He & Hc).
        eexists. split; [simpl in Hm |- *; rewrite ?length_map in Hm; exact Hm|].
        split; [exact He|]. split; [exact Hc|].
        simpl. rewrite !length_map. auto.
Qed.

(** A store that was never written loads as a dense, aligned snapshot. *)
Lemma fresh_store_loads_empty (fs : gmap string file)
    (meta_path emb_path : string) (dim : nat) :
  fs !! meta_path = None ->
  exists meta embs,
    _load_meta_embs meta_path emb_path dim fs = Ok (meta, embs)
    /\ dense_row_ids meta /\ nrows embs = length meta.
Proof.
  intros Hnone. exists [], (zeros0 dim). unfold _load_meta_embs, exists_file.
  rewrite Hnone. rewrite bool_decide_eq_false_2 by (intros [x Hx]; discriminate).
  simpl. repeat split.
Qed.


(** *** The key map and the row it designates *)

Lemma key_to_idx_from_spec :
  forall (items : meta_dict) (acc m : gmap pyval nat),
    key_to_idx_from items acc = Ok m ->
    forall key,
      m !! key = match last_entry items key with
                 | Some (i, _) => Some i
                 | None => acc !! key
                 end.
Proof.
  induction items as [|[k v] rest IH]; intros acc m Hm key; simpl in *.
  - now injection Hm as ->.
  - destruct (v !! "key") as [kk|] eqn:Hv; [|discriminate].
    rewrite (IH _ _ Hm key).
    destruct (last_entry rest key) as [[i e]|]; [reflexivity|].
    destruct (decide (kk = key)) as [->|Hne].
    + rewrite bool_decide_eq_true_2 by reflexivity. now rewrite lookup_insert_eq.
    + rewrite bool_decide_eq_false_2 by congruence.
      now rewrite lookup_insert_ne.
Qed.

Lemma key_to_idx_from_keyed :
  forall (items : meta_dict) (acc : gmap pyval nat),
    (exists m, key_to_idx_from items acc = Ok m)
    <-> Forall (fun kv => is_Some (snd kv !! "key")) items.
Proof.
  induction items as [|[k v] rest IH]; intros acc; simpl.
  - split; [constructor|eauto].
  - destruct (v !! "key") as [kk|] eqn:Hv.
    + rewrite IH. split.
      * intros H. constructor; [simpl; rewrite Hv; eauto|exact H].
      * intros H. now inversion H.
    + split.
      * intros [m Hm]. discriminate.
      * intros H. inversion H as [|? ? [x Hx] ?]; subst. simpl in Hx. congruence.
Qed.

Lemma last_entry_app (l1 l2 : meta_dict) (key : pyval) :
  last_entry (l1 ++ l2) key
  = match last_entry l2 key with
    | Some x => Some x
    | None => last_entry l1 key
    end.
Proof.
  induction l1 as [|[i v] l1 IH]; simpl.
  - destruct (last_entry l2 key); reflexivity.
  - rewrite IH. destruct (last_entry l2 key); reflexivity.
Qed.

Lemma last_entry_in (l : meta_dict) (key : pyval) (i : nat)
    (e : gmap string pyval) :
  last_entry l key = Some (i, e) -> In (i, e) l /\ e !! "key" = Some key.
Proof.
  induction l as [|[j v] l IH]; simpl; [discriminate|].
  destruct (last_entry l key) as [x|].
  - intros [= ->]. destruct IH as [Hin Hk]; [reflexivity|]. auto.
  - destruct (bool_decide (v !! "key" = Some key)) eqn:Hb; [|discriminate].
    apply bool_decide_eq_true in Hb. intros [= -> ->]. auto.
Qed.

Lemma last_entry_none (l : meta_dict) (key : pyval) :
  last_entry l key = None ->
  forall i e, In (i, e) l -> e !! "key" <> Some key.
Proof.
  induction l as [|[j v] l IH]; simpl; [intros _ i e []|].
  destruct (last_entry l key) as [x|]; [discriminate|].
  destruct (bool_decide (v !! "key" = Some key)) eqn:Hb; [discriminate|].
  apply bool_decide_eq_false in Hb.
  intros _ i e [[= <- <-]|Hin]; [exact Hb|]. now apply (IH eq_refl i e).
Qed.

Lemma dict_get_in {A : Type} (l : list (nat * A)) (i : nat) (e : A) :
  NoDup (map fst l) -> In (i, e) l -> dict_get l i = Some e.
Proof.
  induction l as [|[j v] l IH]; simpl; [tauto|].
  intros Hnd [[= -> ->]|Hin].
  - now rewrite Nat.eqb_refl.
  - apply NoDup_cons in Hnd. destruct Hnd as [Hj Hnd].
    destruct (Nat.eqb_spec i j) as [->|Hne]; [|now apply IH].
    exfalso. apply Hj. apply list_elem_of_In.
    apply in_map_iff. exists (j, e). auto.
Qed.

Lemma dense_NoDup (meta : meta_dict) :
  dense_row_ids meta -> NoDup (map fst meta).
Proof. unfold dense_row_ids. intros ->. apply NoDup_seq. Qed.

Lemma mk_entry_key (key : string) (t : gmap string pyval) (s a : pyval) :
  mk_entry key t s a !! "key" = Some (PStr key).
Proof. unfold mk_entry. now rewrite lookup_insert_eq. Qed.

Lemma mk_entry_fields (key : string) (t : gmap string pyval) (s a : pyval) :
  py_get (mk_entry key t s a) "Summary" = s
  /\ py_get (mk_entry key t s a) "Assignee" = a
  /\ mk_entry key t s a <> ∅.
Proof.
  split; [reflexivity|]. split; [reflexivity|].
  intros H. apply (f_equal (fun m => m !! "key")) in H.
  rewrite mk_entry_key, lookup_empty in H. discriminate.
Qed.

(** The incremental loop drops a key-bearing record exactly when the last
    row stored under its key has its body and its owner. *)
Lemma incremental_item_none (kf : string) (meta : meta_dict)
    (k2i : gmap pyval nat) (t : gmap string pyval) :
  existing_key_to_idx meta = Ok k2i ->
  NoDup (map fst meta) ->
  _safe_key t kf <> "" ->
  incremental_item kf k2i meta t = None
  <-> exists i e,
        last_entry meta (PStr (_safe_key t kf)) = Some (i, e)
        /\ e <> ∅
        /\ py_get e "Summary" = body_of t
        /\ py_get e "Assignee" = owner_of t.
Proof.
  intros Hk2i Hnd Hkey. unfold incremental_item.
  destruct (String.eqb_spec (_safe_key t kf) "") as [|_]; [contradiction|].
  rewrite (key_to_idx_from_spec _ _ _ Hk2i), lookup_empty.
  destruct (last_entry meta (PStr (_safe_key t kf))) as [[i e]|] eqn:Hlast.
  - apply last_entry_in in Hlast. destruct Hlast as [Hin _].
    rewrite (dict_get_in _ _ _ Hnd Hin). unfold entry_changed, body_of, owner_of.
    destruct (decide (e = ∅)) as [->|He].
    + rewrite bool_decide_eq_true_2 by reflexivity. simpl.
      split; [discriminate|]. intros (i' & e' & [= <- <-] & Hne & _). congruence.
    + rewrite bool_decide_eq_false_2 by exact He. simpl.
      destruct (decide (py_get e "Summary" = py_get_d t "Summary" (PStr "")))
        as [Hs|Hs].
      * rewrite (bool_decide_eq_true_2 _ Hs). simpl.
        destruct (decide (py_get e "Assignee" = py_get t "Assignee")) as [Ha|Ha].
        -- rewrite (bool_decide_eq_true_2 _ Ha). simpl.
           split; [|reflexivity]. intros _. exists i, e. auto.
        -- rewrite (bool_decide_eq_false_2 _ Ha). simpl.
           split; [discriminate|]. intros (i' & e' & [= <- <-] & _ & _ & Ha').
           contradiction.
      * rewrite (bool_decide_eq_false_2 _ Hs). simpl.
        split; [discriminate|]. intros (i' & e' & [= <- <-] & _ & Hs' & _).
        contradiction.
  - split; [discriminate|]. intros (i & e & [=] & _).
Qed.

Lemma omap_all_none {A B : Type} (f : A -> option B) (l : list A) :
  (forall x, In x l -> f x = None) -> omap f l = [].
Proof.
  induction l as [|x l IH]; intros H; simpl; [reflexivity|].
  rewrite (H x) by now left. apply IH. intros y Hy. apply H. now right.
Qed.

Lemma in_omap {A B : Type} (f : A -> option B) (l : list A) (y : B) :
  In y (omap f l) <-> exists x, In x l /\ f x = Some y.
Proof.
  induction l as [|x l IH]; simpl.
  - split; [tauto|]. intros (x & [] & _).
  - destruct (f x) as [z|] eqn:Hz; simpl; rewrite IH; split.
    + intros [<-|(x' & Hin & Hf)]; eauto.
    + intros (x' & [<-|Hin] & Hf); [left; congruence|right; eauto].
    + intros (x' & Hin & Hf); eauto.
    + intros (x' & [<-|Hin] & Hf); [congruence|eauto].
Qed.

(** *** Running the indexer twice *)

Lemma add_index_loaded (issues : list (gmap string pyval)) (cfg : config)
    (fs fs' : gmap string file) (r : index_summary) :
  add_index_new_Data issues cfg fs = (Ok r, fs') ->
  exists meta0 embs0,
    _load_meta_embs (AnnoyMetaPath cfg) (AnnoyEmbPath cfg) (EmbedDim cfg) fs
    = Ok (meta0, embs0).
Proof.
  unfold add_index_new_Data, bind, reading.
  destruct (_load_meta_embs (AnnoyMetaPath cfg) (AnnoyEmbPath cfg) (EmbedDim cfg) fs)
    as [[meta0 embs0]|e]; [eauto|discriminate].
Qed.

Lemma add_index_nothing_to_do (issues : list (gmap string pyval)) (cfg : config)
    (fs : gmap string file) (meta : meta_dict) (embs : matrix)
    (k2i : gmap pyval nat) :
  _load_meta_embs (AnnoyMetaPath cfg) (AnnoyEmbPath cfg) (EmbedDim cfg) fs
  = Ok (meta, embs) ->
  meta <> [] ->
  existing_key_to_idx meta = Ok k2i ->
  omap (incremental_item (KeyField cfg) k2i meta) issues = [] ->
  add_index_new_Data issues cfg fs
  = (Ok {| summary_status := no_new_or_changed;
           added := 0;
           index_size := nrows embs |}, fs).
Proof.
  intros Hload Hne Hk2i Hitems.
  unfold add_index_new_Data, bind, reading, ret. rewrite Hload. simpl.
  rewrite Hk2i. destruct meta as [|row0 meta']; [congruence|].
  rewrite Hitems. reflexivity.
Qed.

Lemma first_build_item_shape (kf : string) (t : gmap string pyval)
    (txt : pyval) (e : gmap string pyval) :
  is_Some (t !! "Summary") ->
  first_build_item kf t = Some (txt, e) ->
  _safe_key t kf <> ""
  /\ e = mk_entry (_safe_key t kf) t (body_of t) (owner_of t).
Proof.
  intros [v Hv]. unfold first_build_item.
  destruct (String.eqb_spec (_safe_key t kf) ""); [discriminate|].
  intros [= <- <-]. split; [assumption|].
  unfold body_of, owner_of, py_get, py_get_d. now rewrite Hv.
Qed.

Lemma incremental_item_shape (kf : string) (k2i : gmap pyval nat)
    (meta : meta_dict) (t : gmap string pyval) (txt : pyval)
    (e : gmap string pyval) :
  incremental_item kf k2i meta t = Some (txt, e) ->
  _safe_key t kf <> ""
  /\ e = mk_entry (_safe_key t kf) t (body_of t) (owner_of t).
Proof.
  unfold incremental_item.
  destruct (String.eqb_spec (_safe_key t kf) ""); [discriminate|].
  destruct (k2i !! PStr (_safe_key t kf)) as [idx|].
  - destruct (entry_changed _ _ _); [|discriminate].
    intros [= <- <-]. auto.
  - intros [= <- <-]. auto.
Qed.

Lemma in_combine_seq {A : Type} (n : nat) (ms : list A) (e : A) :
  In e ms -> exists i, In (i, e) (combine (seq n (length ms)) ms).
Proof.
  intros He. rewrite <- (combine_seq_snd n ms) in He at 1.
  apply in_map_iff in He. destruct He as ([i e'] & Heq & Hin).
  simpl in Heq. subst e'. eauto.
Qed.

(** C4, as the code has it: with a matrix path that ends in ".npy", after
    a run that returned on a batch of key-bearing records which all carry a
    Summary field and in which records sharing a key agree on body and
    owner, a second run on the same batch returns no_new_or_changed with
    nothing added and writes nothing. *)
Theorem second_run_adds_nothing :
  forall (issues : list (gmap string pyval)) (cfg : config)
         (fs fs1 : gmap string file) (r1 : index_summary),
    paths_distinct cfg ->
    npy_suffixed (AnnoyEmbPath cfg) = true ->
    (forall meta, fs !! AnnoyMetaPath cfg = Some (FMeta meta) ->
                  dense_row_ids meta) ->
    issues <> [] ->
    Forall (fun t => _safe_key t (KeyField cfg) <> ""
                     /\ is_Some (t !! "Summary")) issues ->
    (forall t t', In t issues -> In t' issues ->
       _safe_key t (KeyField cfg) = _safe_key t' (KeyField cfg) ->
       body_of t = body_of t' /\ owner_of t = owner_of t') ->
    add_index_new_Data issues cfg fs = (Ok r1, fs1) ->
    exists n,
      add_index_new_Data issues cfg fs1
      = (Ok {| summary_status := no_new_or_changed; added := 0; index_size := n |},
         fs1).
Proof.
  intros issues cfg fs fs1 r1 Hpaths _ Hfile Hnonempty Hkeyed Hagree Hrun.
  destruct (add_index_loaded _ _ _ _ _ Hrun) as (meta0 & embs0 & Hload).
  pose proof (loaded_meta_dense cfg fs meta0 embs0 Hfile Hload) as Hdense.
  destruct (add_index_inv issues cfg fs fs1 meta0 embs0 r1 Hpaths Hload Hdense Hrun)
    as (k2i & items & Hk2i & Hitems & Hcase).
  rewrite List.Forall_forall in Hkeyed.
  (* every selected row is the row of a record of the batch *)
  assert (Hshape : forall txt e, In (txt, e) items ->
            exists t, In t issues /\ _safe_key t (KeyField cfg) <> ""
                      /\ e = mk_entry (_safe_key t (KeyField cfg)) t
                                (body_of t) (owner_of t)).
  { intros txt e Hin. rewrite Hitems in Hin.
    destruct meta0; apply in_omap in Hin; destruct Hin as (t & Ht & Hf);
      exists t; (split; [exact Ht|]).
    - eapply first_build_item_shape; [|exact Hf]. now apply Hkeyed.
    - eapply incremental_item_shape; exact Hf. }
  destruct items as [|it its].
  - (* nothing was selected: the store already held the batch *)
    destruct Hcase as (-> & Hadded & Hstatus).
    destruct meta0 as [|row0 meta0'].
    + exfalso. destruct issues as [|t rest]; [congruence|].
      simpl in Hitems. unfold first_build_item in Hitems at 1.
      destruct (Hkeyed t (or_introl eq_refl)) as [Hk _].
      destruct (String.eqb_spec (_safe_key t (KeyField cfg)) ""); [contradiction|].
      discriminate.
    + exists (index_size r1). rewrite Hrun. destruct r1; simpl in *. now subst.
  - destruct Hcase as (embs1 & Hm & He & Hc & _).
    set (items := it :: its) in *.
    set (new := combine (seq (length meta0) (length items)) (map snd items)) in *.
    assert (Hload1 : _load_meta_embs (AnnoyMetaPath cfg) (AnnoyEmbPath cfg)
                       (EmbedDim cfg) fs1 = Ok (meta0 ++ new, embs1)).
    { rewrite (load_both_present _ _ _ _ _ _ Hm He). now rewrite Hc, Nat.eqb_refl. }
    assert (Hnew : forall i e, In (i, e) new ->
              exists t, In t issues /\ _safe_key t (KeyField cfg) <> ""
                        /\ e = mk_entry (_safe_key t (KeyField cfg)) t
                                  (body_of t) (owner_of t)).
    { intros i e Hin. apply in_combine_r in Hin. apply in_map_iff in Hin.
      destruct Hin as ([txt e'] & Heq & Hin). simpl in Heq. subst e'.
      eapply Hshape; exact Hin. }
    assert (Hdense1 : dense_row_ids (meta0 ++ new)).
    { pose proof (dense_after_append meta0 (map snd items) Hdense) as Hd.
      now rewrite length_map in Hd. }
    assert (Hkeys1 : exists k2i1, existing_key_to_idx (meta0 ++ new) = Ok k2i1).
    { unfold existing_key_to_idx.
      apply (proj2 (key_to_idx_from_keyed _ _)). apply Forall_app. split.
      - apply (proj1 (key_to_idx_from_keyed meta0 ∅)). eauto.
      - apply List.Forall_forall. intros [i e] Hin. simpl.
        destruct (Hnew i e Hin) as (t & _ & _ & ->).
        rewrite mk_entry_key. eauto. }
    destruct Hkeys1 as [k2i1 Hk2i1].
    exists (nrows embs1).
    apply (add_index_nothing_to_do issues cfg fs1 (meta0 ++ new) embs1 k2i1 Hload1);
      [subst new items; destruct meta0; discriminate|exact Hk2i1|].
    apply omap_all_none. intros t Ht.
    destruct (Hkeyed t Ht) as [Hk Hsum].
    apply (incremental_item_none _ _ _ _ Hk2i1 (dense_NoDup _ Hdense1) Hk).
    rewrite last_entry_app.
    destruct (last_entry new (PStr (_safe_key t (KeyField cfg)))) as [[i e]|] eqn:Hlast.
    + (* the last row under this key was written by the first run *)
      apply last_entry_in in Hlast. destruct Hlast as [Hin Hkey].
      destruct (Hnew i e Hin) as (t' & Ht' & _ & ->).
      rewrite mk_entry_key in Hkey. injection Hkey as Hkey.
      destruct (Hagree t t' Ht Ht' (eq_sym Hkey)) as [Hb Ho].
      exists i. eexists. split; [reflexivity|].
      destruct (mk_entry_fields (_safe_key t' (KeyField cfg)) t'
                  (body_of t') (owner_of t')) as (Hs & Ha & Hne).
      rewrite Hs, Ha. auto.
    + (* the first run left this record out: its row was already there *)
      assert (Hout : forall txt e,
                match meta0 with
                | [] => first_build_item (KeyField cfg) t
                | _ :: _ => incremental_item (KeyField cfg) k2i meta0 t
                end <> Some (txt, e)).
      { intros txt e Hf.
        assert (Hin : In (txt, e) items).
        { rewrite Hitems. destruct meta0; apply in_omap; eauto. }
        destruct (Hshape txt e Hin) as (t' & Ht' & _ & He').
        assert (He'' : e = mk_entry (_safe_key t (KeyField cfg)) t
                             (body_of t) (owner_of t)).
        { destruct meta0.
          - eapply first_build_item_shape; eauto.
          - eapply incremental_item_shape; eauto. }
        destruct (in_combine_seq (length meta0) (map snd items) e) as [i Hi].
        { apply in_map_iff. exists (txt, e). auto. }
        rewrite length_map in Hi.
        apply (last_entry_none _ _ Hlast i e Hi).
        rewrite He''. apply mk_entry_key. }
      destruct meta0 as [|row0 meta0'].
      * exfalso. unfold first_build_item in Hout.
        destruct (String.eqb_spec (_safe_key t (KeyField cfg)) ""); [contradiction|].
        eapply Hout. reflexivity.
      * apply (incremental_item_none _ _ _ _ Hk2i (dense_NoDup _ Hdense) Hk).
        destruct (incremental_item (KeyField cfg) k2i (row0 :: meta0') t)
          as [[txt e]|]; [|reflexivity].
        exfalso. eapply Hout. reflexivity.
Qed.


(** *** More on the indexer *)

Lemma omap_filter_none {A B : Type} (f : A -> option B) (P : A -> bool)
    (l : list A) :
  (forall x, P x = false -> f x = None) ->
  omap f (List.filter P l) = omap f l.
Proof.
  intros Hf. induction l as [|x l IH]; simpl; [reflexivity|].
  destruct (P x) eqn:HP.
  - change (omap f (x :: List.filter P l) = omap f (x :: l)).
    change (match f x with Some y => y :: omap f (List.filter P l)
                         | None => omap f (List.filter P l) end
            = match f x with Some y => y :: omap f l | None => omap f l end).
    now rewrite IH.
  - rewrite IH.
    change (omap f l = match f x with Some y => y :: omap f l | None => omap f l end).
    now rewrite (Hf x HP).
Qed.

Lemma first_build_item_keyless (kf : string) (t : gmap string pyval) :
  key_bearing kf t = false -> first_build_item kf t = None.
Proof.
  unfold key_bearing, first_build_item.
  destruct (String.eqb (_safe_key t kf) ""); [reflexivity|discriminate].
Qed.

Lemma incremental_item_keyless (kf : string) (k2i : gmap pyval nat)
    (meta : meta_dict) (t : gmap string pyval) :
  key_bearing kf t = false -> incremental_item kf k2i meta t = None.
Proof.
  unfold key_bearing, incremental_item.
  destruct (String.eqb (_safe_key t kf) ""); [reflexivity|discriminate].
Qed.

(** X1: records from which no key can be derived change nothing: a run on
    a batch and a run on its key-bearing records have the same outcome and
    leave the same files. *)
Theorem keyless_records_are_ignored :
  forall (issues : list (gmap string pyval)) (cfg : config)
         (fs : gmap string file),
    add_index_new_Data (List.filter (key_bearing (KeyField cfg)) issues) cfg fs
    = add_index_new_Data issues cfg fs.
Proof.
  intros issues cfg fs. unfold add_index_new_Data, bind, reading.
  destruct (_load_meta_embs (AnnoyMetaPath cfg) (AnnoyEmbPath cfg) (EmbedDim cfg) fs)
    as [[meta0 embs0]|e]; [|reflexivity].
  simpl. destruct (existing_key_to_idx meta0) as [k2i|e]; [|reflexivity].
  rewrite (omap_filter_none (first_build_item (KeyField cfg)))
    by (intros x; apply first_build_item_keyless).
  rewrite (omap_filter_none (incremental_item (KeyField cfg) k2i meta0))
    by (intros x; apply incremental_item_keyless).
  reflexivity.
Qed.

(** X2: on a store without metadata, a batch in which no record has a
    derivable key returns no_data with nothing added and writes nothing. *)
Theorem cold_batch_without_keys_is_no_data :
  forall (issues : list (gmap string pyval)) (cfg : config)
         (fs : gmap string file) (embs0 : matrix),
    _load_meta_embs (AnnoyMetaPath cfg) (AnnoyEmbPath cfg) (EmbedDim cfg) fs
    = Ok ([], embs0) ->
    Forall (fun t => _safe_key t (KeyField cfg) = "") issues ->
    add_index_new_Data issues cfg fs
    = (Ok {| summary_status := no_data; added := 0; index_size := 0 |}, fs).
Proof.
  intros issues cfg fs embs0 Hload Hkeyless.
  unfold add_index_new_Data, bind, reading, ret. rewrite Hload. simpl.
  rewrite omap_all_none; [reflexivity|].
  intros t Ht. rewrite List.Forall_forall in Hkeyless.
  unfold first_build_item. now rewrite (Hkeyless t Ht).
Qed.

(** Every outcome of a run: nothing written; or both store files written
    and the ANN artifact rebuilt from the whole new matrix; or both store
    files written and the ANN build refused. *)
Lemma add_index_outcome (issues : list (gmap string pyval)) (cfg : config)
    (fs : gmap string file) :
  let out := add_index_new_Data issues cfg fs in
  (snd out = fs
   /\ match fst out with
      | Ok r => added r = 0
                /\ (summary_status r = no_data \/ summary_status r = no_new_or_changed)
      | Raise _ => True
      end)
  \/ (exists meta1 embs1,
        rows embs1 <> []
        /\ ((ncols embs1 = EmbedDim cfg
             /\ snd out
                = <[AnnoyIndexPath cfg :=
                      FAnn (EmbedDim cfg) (AnnoyNTrees cfg) (rows embs1)]>
                    (_save_meta_embs meta1 embs1 (AnnoyMetaPath cfg)
                       (AnnoyEmbPath cfg) fs)
             /\ exists r, fst out = Ok r /\ 0 < added r
                          /\ index_size r = nrows embs1
                          /\ (summary_status r = built_from_all
                              \/ summary_status r = incremental_ok))
            \/ (ncols embs1 <> EmbedDim cfg
                /\ snd out
                   = _save_meta_embs meta1 embs1 (AnnoyMetaPath cfg)
                       (AnnoyEmbPath cfg) fs
                /\ fst out = Raise (IndexError "Vector has wrong length")))).
Proof.
  unfold add_index_new_Data, bind, reading, writing, ret.
  destruct (_load_meta_embs (AnnoyMetaPath cfg) (AnnoyEmbPath cfg) (EmbedDim cfg) fs)
    as [[meta0 embs0]|e]; simpl; [|left; auto].
  destruct (existing_key_to_idx meta0) as [k2i|e]; simpl; [|left; auto].
  assert (Hbuild : forall meta1 embs1 r,
            rows embs1 <> [] -> 0 < added r -> index_size r = nrows embs1 ->
            summary_status r = built_from_all \/ summary_status r = incremental_ok ->
            let out := (let (r0, fs') :=
                          _build_and_save_annoy embs1 (AnnoyIndexPath cfg)
                            (EmbedDim cfg) (AnnoyNTrees cfg)
                            (_save_meta_embs meta1 embs1 (AnnoyMetaPath cfg)
                               (AnnoyEmbPath cfg) fs) in
                        match r0 with
                        | Ok _ => (Ok r, fs')
                        | Raise e => (Raise e, fs')
                        end) in
            exists meta1 embs1,
              rows embs1 <> []
              /\ ((ncols embs1 = EmbedDim cfg
                   /\ snd out
                      = <[AnnoyIndexPath cfg :=
                            FAnn (EmbedDim cfg) (AnnoyNTrees cfg) (rows embs1)]>
                          (_save_meta_embs meta1 embs1 (AnnoyMetaPath cfg)
                             (AnnoyEmbPath cfg) fs)
                   /\ exists r, fst out = Ok r /\ 0 < added r
                                /\ index_size r = nrows embs1
                                /\ (summary_status r = built_from_all
                                    \/ summary_status r = incremental_ok))
                  \/ (ncols embs1 <> EmbedDim cfg
                      /\ snd out
                         = _save_meta_embs meta1 embs1 (AnnoyMetaPath cfg)
                             (AnnoyEmbPath cfg) fs
                      /\ fst out = Raise (IndexError "Vector has wrong length")))).
  { intros meta1 embs1 r Hrows Hadded Hsize Hstatus.
    unfold _build_and_save_annoy, nrows, writing, raise.
    destruct (rows embs1) as [|v vs] eqn:Hr; [congruence|]. simpl.
    exists meta1, embs1. rewrite Hr. split; [discriminate|].
    destruct (Nat.eqb_spec (ncols embs1) (EmbedDim cfg)) as [Hc|Hc]; simpl.
    - left. split; [exact Hc|]. split; [reflexivity|]. exists r.
      split; [reflexivity|]. split; [exact Hadded|]. split; [|exact Hstatus].
      rewrite Hsize. unfold nrows. now rewrite Hr.
    - right. auto. }
  destruct meta0 as [|row0 meta0'].
  - destruct (omap (first_build_item (KeyField cfg)) issues) as [|it its];
      simpl; [left; auto|].
    right. apply Hbuild; simpl; [discriminate|lia|reflexivity|auto].
  - destruct (omap (incremental_item (KeyField cfg) k2i (row0 :: meta0')) issues)
      as [|it its]; simpl; [left; auto|].
    destruct (Nat.eqb (msize embs0) 0); simpl.
    + right. apply Hbuild; simpl; [discriminate|lia|reflexivity|auto].
    + unfold vstack.
      destruct (Nat.eqb (ncols embs0) (ncols (_l2_normalize (encode (it.1 :: map fst its)))));
        simpl; [|left; auto].
      right. apply Hbuild; simpl; [|lia|reflexivity|auto].
      destruct (rows embs0); discriminate.
Qed.

(** X3: with a matrix path that ends in ".npy", whatever the outcome, a run
    leaves every file other than the metadata file, the matrix file and the
    ANN artifact as it found it. *)
Theorem index_writes_only_its_artifacts :
  forall (issues : list (gmap string pyval)) (cfg : config)
         (fs : gmap string file) (p : string),
    npy_suffixed (AnnoyEmbPath cfg) = true ->
    p <> AnnoyMetaPath cfg -> p <> AnnoyEmbPath cfg -> p <> AnnoyIndexPath cfg ->
    snd (add_index_new_Data issues cfg fs) !! p = fs !! p.
Proof.
  intros issues cfg fs p _ Hm He Hi.
  destruct (add_index_outcome issues cfg fs)
    as [[Hsame _]|(meta1 & embs1 & _ & [(_ & Hfs & _)|(_ & Hfs & _)])];
    rewrite ?Hsame, ?Hfs; unfold _save_meta_embs;
    rewrite ?lookup_insert_ne by congruence; reflexivity.
Qed.

(** X4: with a matrix path that ends in ".npy", a run that returns after
    adding rows leaves an ANN artifact built with the configured dimension
    and tree count from every row of the matrix it persisted. *)
Theorem ann_artifact_follows_matrix :
  forall (issues : list (gmap string pyval)) (cfg : config)
         (fs fs' : gmap string file) (r : index_summary),
    paths_distinct cfg ->
    npy_suffixed (AnnoyEmbPath cfg) = true ->
    add_index_new_Data issues cfg fs = (Ok r, fs') ->
    0 < added r ->
    exists embs1,
      fs' !! AnnoyEmbPath cfg = Some (FEmb (Arr2 embs1))
      /\ fs' !! AnnoyIndexPath cfg
         = Some (FAnn (EmbedDim cfg) (AnnoyNTrees cfg) (rows embs1))
      /\ ncols embs1 = EmbedDim cfg
      /\ 0 < nrows embs1.
Proof.
  intros issues cfg fs fs' r (Hme & Him & Hie) _ Hrun Hadded.
  destruct (add_index_outcome issues cfg fs)
    as [[_ Hnoop]|(meta1 & embs1 & Hrows & [(Hc & Hfs & _)|(_ & _ & Hraise)])];
    rewrite Hrun in *; simpl in *.
  - destruct Hnoop as [Hz _]. lia.
  - exists embs1. subst fs'. unfold _save_meta_embs.
    rewrite lookup_insert_eq.
    rewrite lookup_insert_ne by congruence. rewrite lookup_insert_eq.
    repeat split; auto. unfold nrows. destruct (rows embs1); simpl; [congruence|lia].
  - discriminate.
Qed.

Lemma first_build_items (kf : string) (issues : list (gmap string pyval)) :
  omap (first_build_item kf) issues
  = map (fun t => (body_of t,
                   mk_entry (_safe_key t kf) t (py_get t "Summary") (owner_of t)))
        (List.filter (key_bearing kf) issues).
Proof.
  induction issues as [|t rest IH]; [reflexivity|].
  change (match first_build_item kf t with
          | Some y => y :: omap (first_build_item kf) rest
          | None => omap (first_build_item kf) rest
          end = map (fun t => (body_of t,
                               mk_entry (_safe_key t kf) t (py_get t "Summary")
                                 (owner_of t)))
                    (List.filter (key_bearing kf) (t :: rest))).
  simpl. unfold first_build_item at 1, key_bearing at 1.
  destruct (String.eqb (_safe_key t kf) ""); simpl; now rewrite IH.
Qed.

(** X5: the first build.  With a matrix path that ends in ".npy", no
    metadata on disk and an encoder of the configured dimension, a batch with at least one key-bearing record
    returns built_from_all, counts one added row per key-bearing record, and
    persists those rows in batch order under the ids 0, 1, 2, ..., each with
    the record's derived key and the normalised embedding of its body,
    together with an ANN artifact of all of them. *)
Theorem first_build_indexes_every_keyed_record :
  forall (issues : list (gmap string pyval)) (cfg : config)
         (fs : gmap string file) (embs0 : matrix),
    paths_distinct cfg ->
    npy_suffixed (AnnoyEmbPath cfg) = true ->
    model_dim = EmbedDim cfg ->
    _load_meta_embs (AnnoyMetaPath cfg) (AnnoyEmbPath cfg) (EmbedDim cfg) fs
    = Ok ([], embs0) ->
    existsb (key_bearing (KeyField cfg)) issues = true ->
    let keyed := List.filter (key_bearing (KeyField cfg)) issues in
    exists fs' meta1 embs1,
      add_index_new_Data issues cfg fs
      = (Ok {| summary_status := built_from_all;
               added := length keyed;
               index_size := length keyed |}, fs')
      /\ fs' !! AnnoyMetaPath cfg = Some (FMeta meta1)
      /\ fs' !! AnnoyEmbPath cfg = Some (FEmb (Arr2 embs1))
      /\ fs' !! AnnoyIndexPath cfg
         = Some (FAnn (EmbedDim cfg) (AnnoyNTrees cfg) (rows embs1))
      /\ map fst meta1 = seq 0 (length keyed)
      /\ map (fun kv => snd kv !! "key") meta1
         = map (fun t => Some (PStr (_safe_key t (KeyField cfg)))) keyed
      /\ ncols embs1 = EmbedDim cfg
      /\ rows embs1 = map (fun t => l2_normalize_row (embed (body_of t))) keyed.
Proof.
  intros issues cfg fs embs0 (Hme & Him & Hie) _ Hdim Hload Hsome keyed.
  unfold add_index_new_Data, bind, reading, writing, ret. rewrite Hload. simpl.
  rewrite first_build_items. fold keyed.
  assert (Hne : keyed <> []).
  { unfold keyed. apply existsb_exists in Hsome. destruct Hsome as (t & Hin & Ht).
    intros Hnil. assert (Hf : In t (List.filter (key_bearing (KeyField cfg)) issues))
      by (apply filter_In; auto).
    rewrite Hnil in Hf. exact Hf. }
  destruct keyed as [|t0 keyed'] eqn:Hkeyed; [congruence|].
  rewrite <- Hkeyed. clear Hne.
  replace (map fst (map (fun t => (body_of t,
             mk_entry (_safe_key t (KeyField cfg)) t (py_get t "Summary")
               (owner_of t))) keyed))
    with (map body_of keyed) by (now rewrite map_map).
  replace (map body_of keyed) with (body_of t0 :: map body_of keyed')
    by (now rewrite Hkeyed).
  cbv iota.
  replace (body_of t0 :: map body_of keyed') with (map body_of keyed)
    by (now rewrite Hkeyed).
  unfold _build_and_save_annoy, nrows, _l2_normalize, encode, writing, raise.
  cbn [rows ncols].
  rewrite !length_map.
  replace (Nat.eqb (length keyed) 0) with false
    by (rewrite Hkeyed; reflexivity).
  rewrite Hdim, Nat.eqb_refl. simpl.
  eexists _, _, _. split; [reflexivity|].
  unfold _save_meta_embs.
  split.
  { rewrite lookup_insert_ne by congruence.
    rewrite lookup_insert_ne by congruence. now rewrite lookup_insert_eq. }
  split.
  { rewrite lookup_insert_ne by congruence. now rewrite lookup_insert_eq. }
  split; [now rewrite lookup_insert_eq|].
  split.
  { pose proof (combine_seq_fst 0 (map snd (map (fun t => (body_of t,
             mk_entry (_safe_key t (KeyField cfg)) t (py_get t "Summary")
               (owner_of t))) keyed))) as H.
    rewrite !length_map in H. exact H. }
  split.
  { rewrite <- (map_map snd (fun e : gmap string pyval => e !! "key")).
    pose proof (combine_seq_snd 0 (map snd (map (fun t => (body_of t,
             mk_entry (_safe_key t (KeyField cfg)) t (py_get t "Summary")
               (owner_of t))) keyed))) as H.
    rewrite !length_map in H. rewrite H.
    rewrite !map_map. apply map_ext. intros t. simpl. apply mk_entry_key. }
  split; [reflexivity|].
  cbn [rows]. now rewrite !map_map.
Qed.


(** X7: with a matrix path that ends in ".npy", a first build with an
    encoder of the wrong dimension is not rolled back: the metadata and the
    matrix are written before the ANN build refuses the vectors, and every
    later run fails to load the store. *)
Theorem failed_first_build_leaves_unloadable_store :
  forall (issues later : list (gmap string pyval)) (cfg : config)
         (fs : gmap string file) (embs0 : matrix),
    paths_distinct cfg ->
    npy_suffixed (AnnoyEmbPath cfg) = true ->
    model_dim <> EmbedDim cfg ->
    _load_meta_embs (AnnoyMetaPath cfg) (AnnoyEmbPath cfg) (EmbedDim cfg) fs
    = Ok ([], embs0) ->
    existsb (key_bearing (KeyField cfg)) issues = true ->
    exists e fs1 meta1 embs1,
      add_index_new_Data issues cfg fs = (Raise e, fs1)
      /\ fs1 !! AnnoyMetaPath cfg = Some (FMeta meta1)
      /\ fs1 !! AnnoyEmbPath cfg = Some (FEmb (Arr2 embs1))
      /\ fs1 !! AnnoyIndexPath cfg = fs !! AnnoyIndexPath cfg
      /\ add_index_new_Data later cfg fs1
         = (Raise (ValueError "Saved embeddings have wrong shape/dim"), fs1).
Proof.
  intros issues later cfg fs embs0 (Hme & Him & Hie) _ Hdim Hload Hsome.
  assert (Hrun : exists meta1 embs1,
            add_index_new_Data issues cfg fs
            = (Raise (IndexError "Vector has wrong length"),
               _save_meta_embs meta1 embs1 (AnnoyMetaPath cfg) (AnnoyEmbPath cfg) fs)
            /\ ncols embs1 = model_dim).
  { unfold add_index_new_Data, bind, reading, writing, ret. rewrite Hload. simpl.
    rewrite first_build_items.
    apply existsb_exists in Hsome. destruct Hsome as (t & Hin & Ht).
    assert (Hf : In t (List.filter (key_bearing (KeyField cfg)) issues))
      by (apply filter_In; auto).
    destruct (List.filter (key_bearing (KeyField cfg)) issues) as [|t0 keyed'];
      [destruct Hf|].
    simpl. unfold _build_and_save_annoy, raise. simpl.
    destruct (Nat.eqb_spec model_dim (EmbedDim cfg)) as [|_]; [contradiction|].
    eexists _, _. split; reflexivity. }
  destruct Hrun as (meta1 & embs1 & Hrun & Hcols).
  exists (IndexError "Vector has wrong length"),
         (_save_meta_embs meta1 embs1 (AnnoyMetaPath cfg) (AnnoyEmbPath cfg) fs),
         meta1, embs1.
  assert (Hm : _save_meta_embs meta1 embs1 (AnnoyMetaPath cfg) (AnnoyEmbPath cfg) fs
               !! AnnoyMetaPath cfg = Some (FMeta meta1)).
  { unfold _save_meta_embs. rewrite lookup_insert_ne by congruence.
    now rewrite lookup_insert_eq. }
  assert (He : _save_meta_embs meta1 embs1 (AnnoyMetaPath cfg) (AnnoyEmbPath cfg) fs
               !! AnnoyEmbPath cfg = Some (FEmb (Arr2 embs1))).
  { unfold _save_meta_embs. now rewrite lookup_insert_eq. }
  split; [exact Hrun|]. split; [exact Hm|]. split; [exact He|]. split.
  { unfold _save_meta_embs. now rewrite !lookup_insert_ne by congruence. }
  unfold add_index_new_Data, bind, reading.
  rewrite (load_both_present _ _ _ _ _ _ Hm He). rewrite Hcols.
  destruct (Nat.eqb_spec model_dim (EmbedDim cfg)) as [|_]; [contradiction|].
  reflexivity.
Qed.

Lemma omap_length_le {A B : Type} (f : A -> option B) (l : list A) :
  length (omap f l) <= length l.
Proof.
  induction l as [|x l IH]; [reflexivity|].
  change (length (match f x with Some y => y :: omap f l | None => omap f l end)
          <= S (length l)).
  destruct (f x); simpl; lia.
Qed.

(** X8: on a dense, aligned store the summary of a run that returns adds
    up: the reported index size is the previous row count plus the rows
    added, and no more rows are added than records were passed. *)
Theorem index_summary_adds_up :
  forall (issues : list (gmap string pyval)) (cfg : config)
         (fs fs' : gmap string file) (meta0 : meta_dict) (embs0 : matrix)
         (r : index_summary),
    paths_distinct cfg ->
    0 < EmbedDim cfg ->
    _load_meta_embs (AnnoyMetaPath cfg) (AnnoyEmbPath cfg) (EmbedDim cfg) fs
    = Ok (meta0, embs0) ->
    dense_row_ids meta0 ->
    nrows embs0 = length meta0 ->
    add_index_new_Data issues cfg fs = (Ok r, fs') ->
    index_size r = length meta0 + added r
    /\ added r <= length issues.
Proof.
  intros issues cfg fs fs' meta0 embs0 r Hpaths Hdim Hload Hdense Halign Hrun.
  assert (Hnoop : add_index_new_Data issues cfg fs = (Ok r, fs') ->
                  forall k2i, existing_key_to_idx meta0 = Ok k2i ->
                  match meta0 with
                  | [] => omap (first_build_item (KeyField cfg)) issues
                  | _ :: _ => omap (incremental_item (KeyField cfg) k2i meta0) issues
                  end = [] ->
                  index_size r = length meta0).
  { unfold add_index_new_Data, bind, reading, ret. rewrite Hload. simpl.
    intros Hr k2i Hk2i Hnil. rewrite Hk2i in Hr.
    destruct meta0; rewrite Hnil in Hr; simpl in Hr;
      injection Hr as <- _; simpl; [reflexivity|exact Halign]. }
  destruct (add_index_inv issues cfg fs fs' meta0 embs0 r Hpaths Hload Hdense Hrun)
    as (k2i & items & Hk2i & Hitems & Hcase).
  assert (Hle : length items <= length issues).
  { rewrite Hitems. destruct meta0; apply omap_length_le. }
  destruct items as [|it its].
  - destruct Hcase as (_ & Hadded & _). rewrite Hadded.
    split; [|lia]. rewrite Nat.add_0_r.
    apply (Hnoop Hrun k2i Hk2i). now rewrite <- Hitems.
  - destruct Hcase as (embs1 & _ & _ & _ & Hrows & Hadded & Hsize & _).
    rewrite Hadded. split; [|exact Hle].
    rewrite Hsize. unfold nrows. rewrite Hrows, length_app, !length_map.
    f_equal.
    assert (Hnc : ncols embs0 = EmbedDim cfg) by (eapply load_ncols; eauto).
    destruct meta0 as [|row0 meta0']; [reflexivity|].
    destruct (Nat.eqb_spec (msize embs0) 0) as [Hz|_]; [|exact Halign].
    unfold msize in Hz. rewrite Hnc, Halign in Hz. simpl in Hz. lia.
Qed.

Lemma incremental_item_needs_row (kf : string) (meta : meta_dict)
    (k2i : gmap pyval nat) (t : gmap string pyval) :
  existing_key_to_idx meta = Ok k2i ->
  NoDup (map fst meta) ->
  incremental_item kf k2i meta t
  = if needs_row kf meta t then Some (body_of t, row_of kf t) else None.
Proof.
  intros Hk2i Hnd. unfold incremental_item, needs_row.
  destruct (String.eqb (_safe_key t kf) ""); simpl; [reflexivity|].
  rewrite (key_to_idx_from_spec _ _ _ Hk2i), lookup_empty.
  destruct (last_entry meta (PStr (_safe_key t kf))) as [[i e]|] eqn:Hlast;
    [|reflexivity].
  apply last_entry_in in Hlast. destruct Hlast as [Hin _].
  rewrite (dict_get_in _ _ _ Hnd Hin). unfold entry_changed.
  fold (body_of t). fold (owner_of t).
  destruct (bool_decide (e = ∅) || negb (bool_decide (py_get e "Summary" = body_of t))
            || negb (bool_decide (py_get e "Assignee" = owner_of t)));
    reflexivity.
Qed.

Lemma incremental_items (kf : string) (meta : meta_dict) (k2i : gmap pyval nat)
    (issues : list (gmap string pyval)) :
  existing_key_to_idx meta = Ok k2i ->
  NoDup (map fst meta) ->
  omap (incremental_item kf k2i meta) issues
  = map (fun t => (body_of t, row_of kf t)) (List.filter (needs_row kf meta) issues).
Proof.
  intros Hk2i Hnd. induction issues as [|t rest IH]; [reflexivity|].
  change (match incremental_item kf k2i meta t with
          | Some y => y :: omap (incremental_item kf k2i meta) rest
          | None => omap (incremental_item kf k2i meta) rest
          end = map (fun t => (body_of t, row_of kf t))
                    (List.filter (needs_row kf meta) (t :: rest))).
  rewrite IH, (incremental_item_needs_row _ _ _ _ Hk2i Hnd). simpl.
  destruct (needs_row kf meta t); reflexivity.
Qed.



(** X9: which records an incremental run embeds.  On a non-empty store
    with dense row ids, a run that returns has added exactly the records
    that have a key and whose last stored row under that key is empty or
    differs in body or owner, or is missing; their rows are appended in
    batch order, each with the record's key, body and owner. *)
Theorem incremental_run_adds_new_or_changed :
  forall (issues : list (gmap string pyval)) (cfg : config)
         (fs fs' : gmap string file) (meta0 : meta_dict) (embs0 : matrix)
         (r : index_summary),
    paths_distinct cfg ->
    _load_meta_embs (AnnoyMetaPath cfg) (AnnoyEmbPath cfg) (EmbedDim cfg) fs
    = Ok (meta0, embs0) ->
    meta0 <> [] ->
    dense_row_ids meta0 ->
    add_index_new_Data issues cfg fs = (Ok r, fs') ->
    let selected := List.filter (needs_row (KeyField cfg) meta0) issues in
    added r = length selected
    /\ (selected = [] -> fs' = fs /\ summary_status r = no_new_or_changed)
    /\ (selected <> [] ->
        summary_status r = incremental_ok
        /\ exists meta1,
             fs' !! AnnoyMetaPath cfg = Some (FMeta meta1)
             /\ map snd meta1
                = map snd meta0 ++ map (row_of (KeyField cfg)) selected).
Proof.
  intros issues cfg fs fs' meta0 embs0 r Hpaths Hload Hne Hdense Hrun selected.
  destruct (add_index_inv issues cfg fs fs' meta0 embs0 r Hpaths Hload Hdense Hrun)
    as (k2i & items & Hk2i & Hitems & Hcase).
  destruct meta0 as [|row0 meta0']; [congruence|].
  rewrite (incremental_items _ _ _ _ Hk2i (dense_NoDup _ Hdense)) in Hitems.
  fold selected in Hitems.
  destruct selected as [|t0 sel'] eqn:Hsel; simpl in Hitems; subst items.
  - destruct Hcase as (-> & Hadded & Hstatus).
    split; [exact Hadded|]. split; [auto|]. congruence.
  - destruct Hcase as (embs1 & Hm & _ & _ & _ & Hadded & _ & Hstatus).
    simpl in Hadded. rewrite length_map in Hadded.
    split; [exact Hadded|]. split; [discriminate|]. intros _.
    split; [exact Hstatus|].
    eexists. split; [exact Hm|].
    rewrite map_app. f_equal.
    pose proof (combine_seq_snd (length (row0 :: meta0'))
                  (map snd ((body_of t0, row_of (KeyField cfg) t0)
                            :: map (fun t => (body_of t, row_of (KeyField cfg) t)) sel')))
      as H.
    rewrite length_map in H. rewrite H. simpl. now rewrite map_map.
Qed.

(** X10: saving a snapshot and loading it back, with distinct paths, a
    matrix path that ends in ".npy" and a matrix of the configured width,
    returns the metadata and the matrix that were saved; with another width
    the load raises. *)
Theorem save_then_load :
  forall (fs : gmap string file) (meta_path emb_path : string) (dim : nat)
         (meta : meta_dict) (embs : matrix),
    meta_path <> emb_path ->
    npy_suffixed emb_path = true ->
    _load_meta_embs meta_path emb_path dim
      (_save_meta_embs meta embs meta_path emb_path fs)
    = if Nat.eqb (ncols embs) dim then Ok (meta, embs)
      else Raise (ValueError "Saved embeddings have wrong shape/dim").
Proof.
  intros fs mp ep dim meta embs Hne _.
  apply (load_both_present _ mp ep dim meta (Arr2 embs)); unfold _save_meta_embs.
  - rewrite lookup_insert_ne by congruence. apply lookup_insert_eq.
  - apply lookup_insert_eq.
Qed.

(** X11: after an ANN build that returns, the ANN artifact exists exactly
    when the matrix has at least one row, and no other file has changed. *)
Theorem ann_artifact_iff_rows :
  forall (embs : matrix) (idx_path : string) (dim : nat) (n_trees : Z)
         (fs fs' : gmap string file),
    _build_and_save_annoy embs idx_path dim n_trees fs = (Ok tt, fs') ->
    (exists_file fs' idx_path = true <-> 0 < nrows embs)
    /\ forall p, p <> idx_path -> fs' !! p = fs !! p.
Proof.
  intros embs ip dim nt fs fs'. unfold _build_and_save_annoy, writing, raise.
  destruct (Nat.eqb_spec (nrows embs) 0) as [Hz|Hnz].
  - intros [= <-]. split.
    + unfold exists_file. rewrite lookup_delete_eq.
      rewrite bool_decide_eq_false_2 by (intros [x Hx]; discriminate).
      split; [discriminate|lia].
    + intros p Hp. now rewrite lookup_delete_ne.
  - destruct (Nat.eqb (ncols embs) dim); [|discriminate].
    intros [= <-]. split.
    + unfold exists_file. rewrite lookup_insert_eq.
      rewrite bool_decide_eq_true_2 by eauto. split; [lia|reflexivity].
    + intros p Hp. now rewrite lookup_insert_ne.
Qed.

(** *** More on the retrieval engine *)

(** X12: with the matrix file missing, or none of the metadata file names
    present, the query neither raises nor writes: it returns a bare list
    with one result per input record, each without references and with the
    missing-files diagnostic. *)
Theorem missing_files_degrade :
  forall (issues : list (gmap string pyval)) (folder efile : string)
         (mfs : list string) (kf : string) (k : Z) (thr : Q) (dbg : bool)
         (fs : gmap string file),
    exists_file fs (path_join folder efile) = false
    \/ List.find (exists_file fs) (map (path_join folder) mfs) = None ->
    exists results,
      find_reference_issues issues folder efile mfs kf k thr dbg fs
      = (Ok (RList results), fs)
      /\ Forall2 (fun issue r =>
                    input_key r = _safe_key issue kf
                    /\ input_summary r = py_get_d issue "Summary" (PStr "")
                    /\ references r = []
                    /\ diag r
                       = DiagMissingFiles
                           (exists_file fs (path_join folder efile))
                           (List.find (exists_file fs)
                              (map (path_join folder) mfs)))
                 issues results.
Proof.
  intros issues folder efile mfs kf k thr dbg fs Hmissing.
  exists (map (early_result kf
                 (DiagMissingFiles (exists_file fs (path_join folder efile))
                    (List.find (exists_file fs) (map (path_join folder) mfs))))
              issues).
  split.
  - unfold find_reference_issues, bind, reading, ret. simpl.
    destruct Hmissing as [He|Hf].
    + rewrite He.
      destruct (List.find (exists_file fs) (map (path_join folder) mfs));
        reflexivity.
    + rewrite Hf.
      destruct (exists_file fs (path_join folder efile)); reflexivity.
  - apply Forall2_map_same. intros t _. simpl. auto.
Qed.

(** X13: with a matrix of the query's width but without any row, a
    non-empty batch makes the query raise UnboundLocalError on
    [potential_assignee], after the whole loop, having written nothing. *)
Theorem rowless_store_raises :
  forall (issues : list (gmap string pyval)) (folder efile : string)
         (mfs : list string) (kf : string) (k : Z) (thr : Q) (dbg : bool)
         (fs : gmap string file) (mp : string) (stored : matrix)
         (meta : meta_dict),
    List.find (exists_file fs) (map (path_join folder) mfs) = Some mp ->
    fs !! path_join folder efile = Some (FEmb (Arr2 stored)) ->
    fs !! mp = Some (FMeta meta) ->
    rows stored = [] ->
    ncols stored = model_dim ->
    issues <> [] ->
    find_reference_issues issues folder efile mfs kf k thr dbg fs
    = (Raise (UnboundLocalError "potential_assignee"), fs).
Proof.
  intros issues folder efile mfs kf k thr dbg fs mp stored meta
         Hfind Hemb Hmeta Hrows Hcols Hne.
  destruct (find_reference_issues_cases issues folder efile mfs kf k thr dbg fs)
    as [(Hsame & _ & Hout)
       |(mp2 & stored2 & meta2 & pa2 & _ & He2 & _ & _ & _ & Hr2 & _)].
  2: { rewrite Hemb in He2. injection He2 as <-. contradiction. }
  destruct (find_reference_issues issues folder efile mfs kf k thr dbg fs)
    as [r fs'] eqn:Hrun.
  simpl in Hsame, Hout. subst fs'. f_equal.
  revert Hrun. unfold find_reference_issues, bind, reading, ret, raise. simpl.
  rewrite Hfind.
  assert (Hex : exists_file fs (path_join folder efile) = true).
  { unfold exists_file. apply bool_decide_eq_true. rewrite Hemb. eauto. }
  rewrite Hex, Hemb. simpl. rewrite Hmeta. simpl.
  destruct issues as [|issue0 rest] eqn:Hissues; [congruence|].
  rewrite <- Hissues.
  replace (map (fun i : gmap string pyval => py_get_d i "Summary" (PStr "")) issues)
    with (py_get_d issue0 "Summary" (PStr "")
          :: map (fun i : gmap string pyval => py_get_d i "Summary" (PStr "")) rest)
    by (subst issues; reflexivity).
  cbv iota.
  replace (py_get_d issue0 "Summary" (PStr "")
          :: map (fun i : gmap string pyval => py_get_d i "Summary" (PStr "")) rest)
    with (map (fun i : gmap string pyval => py_get_d i "Summary" (PStr "")) issues)
    by (subst issues; reflexivity).
  change (ncols (_l2_normalize (encode
            (map (fun i : gmap string pyval => py_get_d i "Summary" (PStr "")) issues))))
    with model_dim.
  rewrite Hcols, Nat.eqb_refl. simpl.
  pose proof (sims_are_similarity_rows stored issues) as Hsims.
  unfold _l2_normalize, encode in Hsims. simpl in Hsims. rewrite Hsims.
  destruct (score_loop_run (map (similarity_row stored) issues) meta kf k thr dbg
              issues (map (similarity_row stored) issues) 0 [] None fs)
    as (pa' & fs' & Hloop & _ & Hempty & _).
  { now rewrite length_map. }
  { intros j row Hj. exact Hj. }
  destruct Hempty as [-> ->].
  { apply List.Forall_forall. intros row Hin. apply in_map_iff in Hin.
    destruct Hin as (t & <- & _). unfold similarity_row. now rewrite Hrows. }
  rewrite Hloop. simpl. now intros [= <-].
Qed.

(** X14: a result never holds more references than top_k when top_k is not
    negative (none at all for top_k = 0), and never more than one when
    top_k is negative. *)
Theorem reference_count_is_bounded :
  forall (issues : list (gmap string pyval)) (folder efile : string)
         (mfs : list string) (kf : string) (k : Z) (thr : Q) (dbg : bool)
         (fs fs' : gmap string file) (ret : query_return),
    find_reference_issues issues folder efile mfs kf k thr dbg fs = (Ok ret, fs') ->
    Forall (fun r =>
              ((0 <= k)%Z -> length (references r) <= Z.to_nat k)
              /\ ((k < 0)%Z -> length (references r) <= 1))
           (results_of ret).
Proof.
  intros issues folder efile mfs kf k thr dbg fs fs' ret Hrun.
  destruct (find_reference_issues_cases issues folder efile mfs kf k thr dbg fs)
    as [(_ & _ & Hout)|(mp & stored & meta & pa & _ & _ & _ & _ & _ & _ & Hout & _)];
    rewrite Hrun in Hout; simpl in Hout.
  - destruct ret as [rs|rs pa]; [|contradiction].
    destruct Hout as (d & -> & _). simpl.
    apply List.Forall_forall. intros r Hin. apply in_map_iff in Hin.
    destruct Hin as (t & <- & _). simpl. split; intros _; lia.
  - injection Hout as ->. simpl.
    apply List.Forall_forall. intros r Hin. apply in_map_iff in Hin.
    destruct Hin as (t & <- & _). split.
    + intros Hk. rewrite score_issue_windowed by exact Hk.
      unfold windowed_references. rewrite length_map, length_firstn. lia.
    + intros Hk. rewrite score_issue_references, length_map, length_firstn. lia.
Qed.

(** X15: every reference returned has a score at least the threshold. *)
Theorem references_meet_threshold :
  forall (issues : list (gmap string pyval)) (folder efile : string)
         (mfs : list string) (kf : string) (k : Z) (thr : Q) (dbg : bool)
         (fs fs' : gmap string file) (ret : query_return),
    find_reference_issues issues folder efile mfs kf k thr dbg fs = (Ok ret, fs') ->
    Forall (fun r => Forall (fun ref => (thr <= ref_score ref)%Q) (references r))
           (results_of ret).
Proof.
  intros issues folder efile mfs kf k thr dbg fs fs' ret Hrun.
  destruct (find_reference_issues_cases issues folder efile mfs kf k thr dbg fs)
    as [(_ & _ & Hout)|(mp & stored & meta & pa & _ & _ & _ & _ & _ & _ & Hout & _)];
    rewrite Hrun in Hout; simpl in Hout.
  - destruct ret as [rs|rs pa]; [|contradiction].
    destruct Hout as (d & -> & _). simpl.
    apply List.Forall_forall. intros r Hin. apply in_map_iff in Hin.
    destruct Hin as (t & <- & _). simpl. constructor.
  - injection Hout as ->. simpl.
    apply List.Forall_forall. intros r Hin. apply in_map_iff in Hin.
    destruct Hin as (t & <- & _).
    rewrite score_issue_references.
    apply List.Forall_forall. intros ref Href. apply in_map_iff in Href.
    destruct Href as (idx & <- & Hidx). simpl.
    apply In_firstn in Hidx. apply filter_In in Hidx. destruct Hidx as [_ Hs].
    unfold survives, score_lt in Hs.
    destruct (dict_get meta idx) as [e|]; [|discriminate].
    rewrite !andb_true_iff, negb_involutive in Hs.
    destruct Hs as [_ Hs]. now apply Qle_bool_iff.
Qed.

(** Two runs of the scoring loop that differ only in the key field, top_k,
    the threshold and the debug flag: same files, same assignee, same
    failure, results related pairwise. *)
Lemma score_loop_rel (R : query_result -> query_result -> Prop)
    (sims : list (list Q)) (meta : meta_dict)
    (kf kf' : string) (k k' : Z) (thr thr' : Q) (dbg dbg' : bool) :
  (forall issue row,
     R (one_result meta kf k thr dbg issue row)
       (one_result meta kf' k' thr' dbg' issue row)) ->
  forall (issues : list (gmap string pyval)) (i : nat)
         (results results' : list query_result) (pa : option (option string))
         (fs : gmap string file),
    Forall2 R results results' ->
    snd (score_loop sims meta kf k thr dbg i issues results pa fs)
    = snd (score_loop sims meta kf' k' thr' dbg' i issues results' pa fs)
    /\ match fst (score_loop sims meta kf k thr dbg i issues results pa fs),
             fst (score_loop sims meta kf' k' thr' dbg' i issues results' pa fs)
       with
       | Ok (rs, p), Ok (rs', p') => Forall2 R rs rs' /\ p = p'
       | Raise e, Raise e' => e = e'
       | _, _ => False
       end.
Proof.
  intros HR. induction issues as [|issue rest IH];
    intros i results results' pa fs Hres; simpl.
  - auto.
  - destruct (sims !! i) as [row|]; [|simpl; auto].
    destruct row as [|x row].
    + apply IH. apply Forall2_app; [exact Hres|]. constructor; [|constructor].
      exact (HR issue []).
    + unfold bind.
      destruct (assign_lru ASSIGNEE_JSON ASSIGNEE_CSV fs) as [[a|e] fs1];
        [|simpl; auto].
      apply IH. apply Forall2_app; [exact Hres|]. constructor; [|constructor].
      exact (HR issue (x :: row)).
Qed.

Lemma find_reference_issues_rel (R : query_result -> query_result -> Prop)
    (issues : list (gmap string pyval)) (folder efile : string)
    (mfs : list string) (kf kf' : string) (k k' : Z) (thr thr' : Q)
    (dbg dbg' : bool) (fs : gmap string file) :
  (forall meta issue row,
     R (one_result meta kf k thr dbg issue row)
       (one_result meta kf' k' thr' dbg' issue row)) ->
  (forall d issue, R (early_result kf d issue) (early_result kf' d issue)) ->
  snd (find_reference_issues issues folder efile mfs kf k thr dbg fs)
  = snd (find_reference_issues issues folder efile mfs kf' k' thr' dbg' fs)
  /\ match fst (find_reference_issues issues folder efile mfs kf k thr dbg fs),
           fst (find_reference_issues issues folder efile mfs kf' k' thr' dbg' fs)
     with
     | Ok (RList rs), Ok (RList rs') => Forall2 R rs rs'
     | Ok (RPair rs p), Ok (RPair rs' p') => Forall2 R rs rs' /\ p = p'
     | Raise e, Raise e' => e = e'
     | _, _ => False
     end.
Proof.
  intros HR Hearly.
  assert (Hmap : forall d, Forall2 R (map (early_result kf d) issues)
                                     (map (early_result kf' d) issues)).
  { intros d. induction issues; simpl; constructor; auto. }
  unfold find_reference_issues, bind, reading, ret, raise. simpl.
  destruct (List.find (exists_file fs) (map (path_join folder) mfs)) as [mp|];
    destruct (exists_file fs (path_join folder efile)); simpl; auto.
  destruct (fs !! path_join folder efile) as [[ | [stored|nd] | | | | ]|];
    simpl; auto.
  destruct (fs !! mp) as [[meta| | | | | ]|]; simpl; auto.
  destruct (map (fun i : gmap string pyval => py_get_d i "Summary" (PStr "")) issues)
    as [|s0 ss]; simpl; [split; [reflexivity|constructor]|].
  destruct (negb (Nat.eqb model_dim (ncols stored))); simpl; [auto|].
  match goal with
  | |- context [score_loop ?sims meta kf k thr dbg 0 issues [] None fs] =>
      destruct (score_loop_rel R sims meta kf kf' k k' thr thr' dbg dbg'
                  (HR meta) issues 0 [] [] None fs (List.Forall2_nil R)) as [Hfs Hout];
      destruct (score_loop sims meta kf k thr dbg 0 issues [] None fs)
        as [[[rs p]|e] fs1];
      destruct (score_loop sims meta kf' k' thr' dbg' 0 issues [] None fs)
        as [[[rs' p']|e'] fs2]
  end; simpl in *; try contradiction.
  - destruct Hout as [Hrs ->]. subst fs2.
    destruct p' as [p'|]; simpl; auto.
  - subst. auto.
Qed.

(** X16: what a query leaves behind does not depend on how it is tuned.
    For the same store and batch, runs with different key fields, top_k,
    thresholds and debug flags leave the same files, take the same exit
    (bare list, pair, or the same exception), return as many results, and on
    the scoring path report the same assignee. *)
Theorem query_effects_ignore_tuning :
  forall (issues : list (gmap string pyval)) (folder efile : string)
         (mfs : list string) (kf kf' : string) (k k' : Z) (thr thr' : Q)
         (dbg dbg' : bool) (fs : gmap string file),
    snd (find_reference_issues issues folder efile mfs kf k thr dbg fs)
    = snd (find_reference_issues issues folder efile mfs kf' k' thr' dbg' fs)
    /\ match fst (find_reference_issues issues folder efile mfs kf k thr dbg fs),
             fst (find_reference_issues issues folder efile mfs kf' k' thr' dbg' fs)
       with
       | Ok (RList rs), Ok (RList rs') => length rs = length rs'
       | Ok (RPair rs p), Ok (RPair rs' p') => length rs = length rs' /\ p = p'
       | Raise e, Raise e' => e = e'
       | _, _ => False
       end.
Proof.
  intros issues folder efile mfs kf kf' k k' thr thr' dbg dbg' fs.
  destruct (find_reference_issues_rel (fun _ _ => True) issues folder efile mfs
              kf kf' k k' thr thr' dbg dbg' fs) as [Hfs Hout]; [auto|auto|].
  split; [exact Hfs|].
  destruct (fst (find_reference_issues issues folder efile mfs kf k thr dbg fs))
    as [[rs|rs p]|e];
    destruct (fst (find_reference_issues issues folder efile mfs kf' k' thr' dbg' fs))
      as [[rs'|rs' p']|e']; try contradiction; try exact Hout.
  - eapply Forall2_length; eauto.
  - destruct Hout as [Hrs Hp]. split; [eapply Forall2_length; eauto|exact Hp].
Qed.

(** X17: the debug flag changes diagnostics only.  With everything else
    equal, a run with debug on and a run with debug off leave the same files
    and return, record by record, the same key, summary and references. *)
Theorem debug_changes_diagnostics_only :
  forall (issues : list (gmap string pyval)) (folder efile : string)
         (mfs : list string) (kf : string) (k : Z) (thr : Q)
         (fs : gmap string file),
    snd (find_reference_issues issues folder efile mfs kf k thr true fs)
    = snd (find_reference_issues issues folder efile mfs kf k thr false fs)
    /\ match fst (find_reference_issues issues folder efile mfs kf k thr true fs),
             fst (find_reference_issues issues folder efile mfs kf k thr false fs)
       with
       | Ok r, Ok r' =>
           Forall2 (fun a b => input_key a = input_key b
                               /\ input_summary a = input_summary b
                               /\ references a = references b)
                   (results_of r) (results_of r')
       | Raise e, Raise e' => e = e'
       | _, _ => False
       end.
Proof.
  intros issues folder efile mfs kf k thr fs.
  destruct (find_reference_issues_rel
              (fun a b => input_key a = input_key b
                          /\ input_summary a = input_summary b
                          /\ references a = references b)
              issues folder efile mfs kf kf k k thr thr true false fs)
    as [Hfs Hout].
  - intros meta issue [|x row]; [simpl; auto|].
    unfold one_result. split; [reflexivity|]. split; [reflexivity|].
    now rewrite !score_issue_references.
  - intros d issue. simpl. auto.
  - split; [exact Hfs|].
    destruct (fst (find_reference_issues issues folder efile mfs kf k thr true fs))
      as [[rs|rs p]|e];
      destruct (fst (find_reference_issues issues folder efile mfs kf k thr false fs))
        as [[rs'|rs' p']|e']; simpl; try contradiction; try exact Hout.
    destruct Hout as [Hrs _]. exact Hrs.
Qed.

Lemma NoDup_firstn {A : Type} (n : nat) (l : list A) :
  NoDup l -> NoDup (firstn n l).
Proof.
  revert l. induction n as [|n IH]; intros [|x l] H; simpl; try constructor.
  - inversion H; subst. intros Hin. apply list_elem_of_In in Hin.
    apply In_firstn in Hin. apply list_elem_of_In in Hin. contradiction.
  - inversion H; subst. now apply IH.
Qed.

Lemma NoDup_py_slice_to {A : Type} (l : list A) (n : Z) :
  NoDup l -> NoDup (py_slice_to l n).
Proof. unfold py_slice_to. destruct (Z.leb 0 n); apply NoDup_firstn. Qed.

Lemma In_py_slice_to {A : Type} (x : A) (l : list A) (n : Z) :
  In x (py_slice_to l n) -> In x l.
Proof. unfold py_slice_to. destruct (Z.leb 0 n); apply In_firstn. Qed.

Lemma ranks_desc_NoDup (row : list Q) (idxs : list nat) :
  ranks_desc row idxs -> NoDup idxs.
Proof.
  intros [Hperm _]. rewrite Hperm. apply NoDup_seq.
Qed.

Lemma NoDup_list_filter {A : Type} (f : A -> bool) (l : list A) :
  NoDup l -> NoDup (List.filter f l).
Proof.
  intros H. apply NoDup_ListNoDup. apply List.NoDup_filter.
  now apply NoDup_ListNoDup.
Qed.

(** The row ids a scored record refers to, in the order returned. *)
Lemma score_issue_ref_idxs (idx_to_meta : meta_dict) (key_field : string)
    (top_k : Z) (thr : Q) (debug : bool) (issue : gmap string pyval)
    (row : list Q) :
  map ref_idx
      (references (score_issue idx_to_meta key_field top_k thr debug issue row))
  = firstn (Z.to_nat (Z.max 1 top_k))
      (List.filter (survives idx_to_meta (_safe_key issue key_field) row thr)
         (py_slice_to (argsort_desc row) (top_k * 2))).
Proof.
  rewrite score_issue_references, map_map. simpl. apply map_id.
Qed.

(** X18: no stored row is returned twice for one query record. *)
Theorem references_are_distinct_rows :
  forall (issues : list (gmap string pyval)) (folder efile : string)
         (mfs : list string) (kf : string) (k : Z) (thr : Q) (dbg : bool)
         (fs fs' : gmap string file) (ret : query_return),
    (forall row, ranks_desc row (argsort_desc row)) ->
    find_reference_issues issues folder efile mfs kf k thr dbg fs = (Ok ret, fs') ->
    Forall (fun r => NoDup (map ref_idx (references r))) (results_of ret).
Proof.
  intros issues folder efile mfs kf k thr dbg fs fs' ret Hrank Hrun.
  destruct (find_reference_issues_cases issues folder efile mfs kf k thr dbg fs)
    as [(_ & _ & Hout)|(mp & stored & meta & pa & _ & _ & _ & _ & _ & _ & Hout & _)];
    rewrite Hrun in Hout; simpl in Hout.
  - destruct ret as [rs|rs pa]; [|contradiction].
    destruct Hout as (d & -> & _). simpl.
    apply List.Forall_forall. intros r Hin. apply in_map_iff in Hin.
    destruct Hin as (t & <- & _). simpl. constructor.
  - injection Hout as ->. simpl.
    apply List.Forall_forall. intros r Hin. apply in_map_iff in Hin.
    destruct Hin as (t & <- & _).
    rewrite score_issue_ref_idxs.
    apply NoDup_firstn, NoDup_list_filter, NoDup_py_slice_to.
    eapply ranks_desc_NoDup. apply Hrank.
Qed.

Lemma stdpp_filter_length (f : Q -> bool) (l : list Q) :
  length (filter (fun x => f x = true) l) = length (List.filter f l).
Proof.
  induction l as [|x l IH]; [reflexivity|].
  rewrite filter_cons. simpl.
  destruct (decide (f x = true)) as [Hx|Hx].
  - rewrite Hx. simpl. now rewrite IH.
  - destruct (f x); [congruence|exact IH].
Qed.

Lemma filter_map_length {A B : Type} (f : B -> bool) (g : A -> B) (l : list A) :
  length (List.filter f (map g l)) = length (List.filter (fun a => f (g a)) l).
Proof.
  induction l as [|a l IH]; simpl; [reflexivity|].
  destruct (f (g a)); simpl; now rewrite IH.
Qed.

Lemma filter_positions_length (f : Q -> bool) (row : list Q) :
  length (List.filter (fun i => f (nth i row 0%Q)) (seq 0 (length row)))
  = length (List.filter f row).
Proof.
  induction row as [|x row IH]; [reflexivity|].
  change (length (List.filter (fun i => f (nth i (x :: row) 0%Q))
                    (0 :: seq 1 (length row)))
          = length (List.filter f (x :: row))).
  rewrite <- seq_shift.
  change (length (if f x
                  then 0 :: List.filter (fun i => f (nth i (x :: row) 0%Q))
                              (map S (seq 0 (length row)))
                  else List.filter (fun i => f (nth i (x :: row) 0%Q))
                         (map S (seq 0 (length row))))
          = length (if f x then x :: List.filter f row else List.filter f row)).
  pose proof (filter_map_length (fun i => f (nth i (x :: row) 0%Q)) S
                (seq 0 (length row))) as H.
  simpl in H. destruct (f x); simpl; rewrite H, IH; reflexivity.
Qed.

(** X19: the diagnostics of a scored record agree with its result: the row
    size is the number of stored vectors, the returned count is the number
    of references, and the references are no more than the rows counted at
    or above the threshold, which are no more than the rows scored. *)
Theorem score_diagnostics_agree :
  forall (issues : list (gmap string pyval)) (folder efile : string)
         (mfs : list string) (kf : string) (k : Z) (thr : Q) (dbg : bool)
         (fs fs' : gmap string file) (stored : matrix)
         (rs : list query_result) (pa : option string),
    (forall row, ranks_desc row (argsort_desc row)) ->
    fs !! path_join folder efile = Some (FEmb (Arr2 stored)) ->
    find_reference_issues issues folder efile mfs kf k thr dbg fs
    = (Ok (RPair rs pa), fs') ->
    Forall (fun r =>
              exists d,
                diag r = DiagScores d
                /\ row_size d = nrows stored
                /\ returned_count d = Some (length (references r))
                /\ length (references r) <= n_above_threshold d
                /\ n_above_threshold d <= row_size d)
           rs.
Proof.
  intros issues folder efile mfs kf k thr dbg fs fs' stored rs pa Hrank Hemb Hrun.
  destruct (find_reference_issues_cases issues folder efile mfs kf k thr dbg fs)
    as [(_ & _ & Hout)
       |(mp & stored2 & meta & pa2 & _ & He2 & _ & _ & _ & _ & Hout & _)];
    rewrite Hrun in Hout; simpl in Hout; [contradiction|].
  rewrite Hemb in He2. injection He2 as <-. injection Hout as -> ->.
  apply List.Forall_forall. intros r Hin. apply in_map_iff in Hin.
  destruct Hin as (t & <- & _).
  set (row := similarity_row stored t).
  eexists. split; [reflexivity|]. cbn [row_size returned_count n_above_threshold].
  unfold base_diagnostics. cbn [row_size n_above_threshold].
  split; [apply similarity_row_length|]. split; [reflexivity|].
  rewrite (stdpp_filter_length (Qle_bool thr) row).
  split.
  - fold (references (score_issue meta kf k thr dbg t row)).
    rewrite <- (length_map ref_idx), score_issue_ref_idxs.
    rewrite <- filter_positions_length.
    apply NoDup_incl_length.
    + apply NoDup_ListNoDup.
      apply NoDup_firstn, NoDup_list_filter, NoDup_py_slice_to.
      eapply ranks_desc_NoDup. apply Hrank.
    + intros idx Hidx. apply In_firstn in Hidx. apply filter_In in Hidx.
      destruct Hidx as [Hidx Hs]. apply In_py_slice_to in Hidx.
      apply filter_In. split.
      * destruct (Hrank row) as [Hperm _].
        eapply Permutation_in; [exact Hperm|exact Hidx].
      * unfold survives, score_lt in Hs.
        destruct (dict_get meta idx) as [e|]; [|discriminate].
        rewrite !andb_true_iff, negb_involutive in Hs. tauto.
  - clear. induction row as [|x row IH]; simpl; [lia|].
    destruct (Qle_bool thr x); simpl; lia.
Qed.

(** On the way to the scoring loop: with the artifacts in place, widths
    equal and a batch that is not empty, the query is its scoring loop
    followed by the final [return]. *)
Lemma find_reference_issues_scoring (issues : list (gmap string pyval))
    (folder efile : string) (mfs : list string) (kf : string) (k : Z)
    (thr : Q) (dbg : bool) (fs : gmap string file) (mp : string)
    (stored : matrix) (meta : meta_dict) :
  List.find (exists_file fs) (map (path_join folder) mfs) = Some mp ->
  fs !! path_join folder efile = Some (FEmb (Arr2 stored)) ->
  fs !! mp = Some (FMeta meta) ->
  ncols stored = model_dim ->
  issues <> [] ->
  find_reference_issues issues folder efile mfs kf k thr dbg fs
  = match score_loop (map (similarity_row stored) issues) meta kf k thr dbg
            0 issues [] None fs with
    | (Ok out, fs') =>
        match snd out with
        | None => (Raise (UnboundLocalError "potential_assignee"), fs')
        | Some pa => (Ok (RPair (fst out) pa), fs')
        end
    | (Raise e, fs') => (Raise e, fs')
    end.
Proof.
  intros Hfind Hemb Hmeta Hcols Hne.
  unfold find_reference_issues, bind, reading, ret, raise. simpl.
  rewrite Hfind.
  assert (Hex : exists_file fs (path_join folder efile) = true).
  { unfold exists_file. apply bool_decide_eq_true. rewrite Hemb. eauto. }
  rewrite Hex, Hemb. simpl. rewrite Hmeta. simpl.
  destruct issues as [|issue0 rest] eqn:Hissues; [congruence|].
  rewrite <- Hissues.
  replace (map (fun i : gmap string pyval => py_get_d i "Summary" (PStr "")) issues)
    with (py_get_d issue0 "Summary" (PStr "")
          :: map (fun i : gmap string pyval => py_get_d i "Summary" (PStr "")) rest)
    by (subst issues; reflexivity).
  cbv iota.
  replace (py_get_d issue0 "Summary" (PStr "")
          :: map (fun i : gmap string pyval => py_get_d i "Summary" (PStr "")) rest)
    with (map (fun i : gmap string pyval => py_get_d i "Summary" (PStr "")) issues)
    by (subst issues; reflexivity).
  change (ncols (_l2_normalize (encode
            (map (fun i : gmap string pyval => py_get_d i "Summary" (PStr "")) issues))))
    with model_dim.
  rewrite Hcols, Nat.eqb_refl. simpl.
  pose proof (sims_are_similarity_rows stored issues) as Hsims.
  unfold _l2_normalize, encode in Hsims. simpl in Hsims. rewrite Hsims.
  destruct (score_loop (map (similarity_row stored) issues) meta kf k thr dbg 0
              issues [] None fs) as [[[rs pa]|e] fs']; simpl; [|reflexivity].
  destruct pa; reflexivity.
Qed.

(** The scoring loop over rows that are all non-empty picks an assignee
    once per record. *)
Lemma score_loop_assigns (sims : list (list Q)) (idx_to_meta : meta_dict)
    (key_field : string) (top_k : Z) (thr : Q) (debug : bool) :
  forall (issues : list (gmap string pyval)) (rws : list (list Q)) (i : nat)
         (results : list query_result) (pa : option (option string))
         (fs : gmap string file),
    length rws = length issues ->
    (forall j row, rws !! j = Some row -> sims !! (i + j) = Some row) ->
    Forall (fun row => row <> []) rws ->
    score_loop sims idx_to_meta key_field top_k thr debug i issues results pa fs
    = (Ok (results ++
           zip_with (one_result idx_to_meta key_field top_k thr debug) issues rws,
           match last (fst (assign_lru_times (length issues) ASSIGNEE_JSON
                              ASSIGNEE_CSV fs)) with
           | Some a => Some a
           | None => pa
           end),
       snd (assign_lru_times (length issues) ASSIGNEE_JSON ASSIGNEE_CSV fs)).
Proof.
  induction issues as [|issue rest IH]; intros rws i results pa fs Hlen Hsims Hfull.
  - destruct rws; [|discriminate]. simpl. now rewrite app_nil_r.
  - destruct rws as [|row rws]; [discriminate|]. simpl in Hlen.
    assert (Hrow : sims !! i = Some row).
    { specialize (Hsims 0 row eq_refl). now rewrite Nat.add_0_r in Hsims. }
    assert (Hrest : forall j r, rws !! j = Some r -> sims !! (S i + j) = Some r).
    { intros j r Hj. specialize (Hsims (S j) r Hj).
      now replace (S i + j) with (i + S j) by lia. }
    inversion Hfull as [|? ? Hrow_ne Hfull']; subst.
    simpl. rewrite Hrow. destruct row as [|x row]; [congruence|].
    unfold bind.
    destruct (assign_lru_runs ASSIGNEE_JSON ASSIGNEE_CSV fs) as (a & fs1 & Ha & _).
    rewrite Ha. simpl.
    rewrite (IH rws (S i) _ (Some a) fs1) by (first [lia|assumption]).
    rewrite <- app_assoc. simpl. rewrite last_cons.
    destruct (last (fst (assign_lru_times (length rest) ASSIGNEE_JSON
                           ASSIGNEE_CSV fs1))); reflexivity.
Qed.

Lemma assign_lru_times_length (n : nat) (json csv : string) :
  forall fs, length (fst (assign_lru_times n json csv fs)) = n.
Proof.
  induction n as [|n IH]; intros fs; simpl; [reflexivity|].
  destruct (assign_lru_runs json csv fs) as (a & fs1 & Ha & _).
  rewrite Ha. simpl. now rewrite IH.
Qed.

Lemma scored_query_returns (issues : list (gmap string pyval))
    (folder efile : string) (mfs : list string) (kf : string) (k : Z)
    (thr : Q) (dbg : bool) (fs : gmap string file) (mp : string)
    (stored : matrix) (meta : meta_dict) :
  List.find (exists_file fs) (map (path_join folder) mfs) = Some mp ->
  fs !! path_join folder efile = Some (FEmb (Arr2 stored)) ->
  fs !! mp = Some (FMeta meta) ->
  ncols stored = model_dim ->
  rows stored <> [] ->
  issues <> [] ->
  exists pa fs2,
    find_reference_issues issues folder efile mfs kf k thr dbg fs
    = (Ok (RPair (map (fun q => score_issue meta kf k thr dbg q
                                  (similarity_row stored q)) issues) pa), fs2).
Proof.
  intros Hfind Hemb Hmeta Hcols Hrows Hne.
  destruct (find_reference_issues_cases issues folder efile mfs kf k thr dbg fs)
    as [(Hsame & _ & Hout)
       |(mp2 & stored2 & meta2 & pa2 & Hf2 & He2 & Hm2 & _ & _ & _ & Hout & _)].
  - exfalso. revert Hout.
    rewrite (find_reference_issues_scoring issues folder efile mfs kf k thr dbg fs
               mp stored meta Hfind Hemb Hmeta Hcols Hne).
    destruct (score_loop_run (map (similarity_row stored) issues) meta kf k thr dbg
                issues (map (similarity_row stored) issues) 0 [] None fs)
      as (pa' & fs' & Hloop & _ & _ & Hfull).
    { now rewrite length_map. }
    { intros j row Hj. exact Hj. }
    rewrite Hloop. simpl.
    destruct pa' as [pa'|]; simpl; [intros []|]. intros _.
    apply Hfull; [|exact Hne|reflexivity].
    apply List.Forall_forall. intros row Hin. apply in_map_iff in Hin.
    destruct Hin as (t & <- & _). unfold similarity_row.
    destruct (rows stored); [congruence|discriminate].
  - rewrite Hfind in Hf2. injection Hf2 as <-.
    rewrite Hemb in He2. injection He2 as <-.
    rewrite Hmeta in Hm2. injection Hm2 as <-.
    destruct (find_reference_issues issues folder efile mfs kf k thr dbg fs)
      as [o fs2]. simpl in Hout. subst o. eauto.
Qed.

(** X20: a scored query consumes one assignee per query record.  A query
    on a non-empty store that returns has returned a pair, has left the
    files exactly as calling the assignee picker once per record would, and
    reports the last of those picks. *)
Theorem query_picks_one_assignee_per_record :
  forall (issues : list (gmap string pyval)) (folder efile : string)
         (mfs : list string) (kf : string) (k : Z) (thr : Q) (dbg : bool)
         (fs fs' : gmap string file) (mp : string) (stored : matrix)
         (meta : meta_dict) (ret : query_return),
    List.find (exists_file fs) (map (path_join folder) mfs) = Some mp ->
    fs !! path_join folder efile = Some (FEmb (Arr2 stored)) ->
    fs !! mp = Some (FMeta meta) ->
    ncols stored = model_dim ->
    rows stored <> [] ->
    issues <> [] ->
    find_reference_issues issues folder efile mfs kf k thr dbg fs = (Ok ret, fs') ->
    exists rs pa,
      ret = RPair rs pa
      /\ fs' = snd (assign_lru_times (length issues) ASSIGNEE_JSON ASSIGNEE_CSV fs)
      /\ last (fst (assign_lru_times (length issues) ASSIGNEE_JSON ASSIGNEE_CSV fs))
         = Some pa
      /\ length (fst (assign_lru_times (length issues) ASSIGNEE_JSON ASSIGNEE_CSV fs))
         = length issues.
Proof.
  intros issues folder efile mfs kf k thr dbg fs fs' mp stored meta ret
         Hfind Hemb Hmeta Hcols Hrows Hne Hrun.
  rewrite (find_reference_issues_scoring issues folder efile mfs kf k thr dbg fs
             mp stored meta Hfind Hemb Hmeta Hcols Hne) in Hrun.
  rewrite (score_loop_assigns _ meta kf k thr dbg issues
             (map (similarity_row stored) issues) 0 [] None fs) in Hrun.
  - simpl in Hrun.
    pose proof (assign_lru_times_length (length issues) ASSIGNEE_JSON ASSIGNEE_CSV fs)
      as Hlen.
    destruct (last (fst (assign_lru_times (length issues) ASSIGNEE_JSON
                           ASSIGNEE_CSV fs))) as [pa|] eqn:Hlast.
    + injection Hrun as <- <-.
      eexists _, pa. split; [reflexivity|]. split; [reflexivity|].
      split; [reflexivity|exact Hlen].
    + discriminate Hrun.
  - now rewrite length_map.
  - intros j row Hj. exact Hj.
  - apply List.Forall_forall. intros row Hin. apply in_map_iff in Hin.
    destruct Hin as (t & <- & _). unfold similarity_row.
    destruct (rows stored); [congruence|discriminate].
Qed.

(** X21: indexing then querying.  With a matrix path that ends in ".npy"
    and an encoder of the configured dimension, after an indexer run that
    returned having added rows, a query that returns, and whose matrix path
    and first metadata candidate are the indexer's files, has gone through
    scoring: it returns a pair with one result per query record, and every
    result reports as row size the index size the indexer returned. *)
Theorem query_scores_what_was_indexed :
  forall (issues queries : list (gmap string pyval)) (cfg : config)
         (folder efile : string) (mfs others : list string) (kf : string)
         (k : Z) (thr : Q) (dbg : bool) (fs fs1 fs2 : gmap string file)
         (r : index_summary) (ret : query_return),
    paths_distinct cfg ->
    npy_suffixed (AnnoyEmbPath cfg) = true ->
    model_dim = EmbedDim cfg ->
    path_join folder efile = AnnoyEmbPath cfg ->
    map (path_join folder) mfs = AnnoyMetaPath cfg :: others ->
    add_index_new_Data issues cfg fs = (Ok r, fs1) ->
    0 < added r ->
    queries <> [] ->
    find_reference_issues queries folder efile mfs kf k thr dbg fs1 = (Ok ret, fs2) ->
    exists rs pa,
      ret = RPair rs pa
      /\ length rs = length queries
      /\ Forall (fun q => exists d, diag q = DiagScores d
                                    /\ row_size d = index_size r) rs.
Proof.
  intros issues queries cfg folder efile mfs others kf k thr dbg fs fs1 fs2 r ret
         (Hme & Him & Hie) _ Hdim Hepath Hmpath Hrun Hadded Hne Hquery.
  destruct (add_index_outcome issues cfg fs)
    as [[_ Hnoop]|(meta1 & embs1 & Hrows & [(Hc & Hfs & r' & Hr' & _ & Hsize & _)
                                           |(_ & _ & Hraise)])];
    rewrite Hrun in *; simpl in *.
  - destruct Hnoop as [Hz _]. lia.
  - injection Hr' as <-.
    assert (Hm : fs1 !! AnnoyMetaPath cfg = Some (FMeta meta1)).
    { subst fs1. unfold _save_meta_embs.
      rewrite lookup_insert_ne by congruence.
      rewrite lookup_insert_ne by congruence. apply lookup_insert_eq. }
    assert (He : fs1 !! path_join folder efile = Some (FEmb (Arr2 embs1))).
    { rewrite Hepath. subst fs1. unfold _save_meta_embs.
      rewrite lookup_insert_ne by congruence. apply lookup_insert_eq. }
    assert (Hfind : List.find (exists_file fs1) (map (path_join folder) mfs)
                    = Some (AnnoyMetaPath cfg)).
    { rewrite Hmpath. simpl. unfold exists_file at 1.
      rewrite bool_decide_eq_true_2 by (rewrite Hm; eauto). reflexivity. }
    destruct (scored_query_returns queries folder efile mfs kf k
                thr dbg fs1 (AnnoyMetaPath cfg) embs1 meta1 Hfind He Hm)
      as (pa & fs2' & Hq); [congruence|exact Hrows|exact Hne|].
    rewrite Hq in Hquery. injection Hquery as <- <-.
    exists (map (fun q => score_issue meta1 kf k thr dbg q (similarity_row embs1 q))
                queries), pa.
    split; [reflexivity|]. split; [now rewrite length_map|].
    apply List.Forall_forall. intros q Hin. apply in_map_iff in Hin.
    destruct Hin as (t & <- & _). eexists. split; [reflexivity|]. simpl.
    rewrite similarity_row_length. now rewrite Hsize.
  - discriminate.
Qed.

End Engine.

(** ** The stable ranking meets the contract of [argsort] *)

Lemma insert_desc_perm (row : list Q) (i : nat) :
  forall l, Permutation (insert_desc row i l) (i :: l).
Proof.
  induction l as [|j l IH]; simpl; [reflexivity|].
  destruct (Qle_bool (nth i row 0%Q) (nth j row 0%Q)); [|reflexivity].
  rewrite IH. apply perm_swap.
Qed.

Lemma insert_desc_sorted (row : list Q) (i : nat) :
  forall l,
    StronglySorted (fun a b => (nth b row 0 <= nth a row 0)%Q) l ->
    StronglySorted (fun a b => (nth b row 0 <= nth a row 0)%Q) (insert_desc row i l).
Proof.
  induction l as [|j l IH]; intros Hl; simpl.
  - repeat constructor.
  - inversion Hl as [|? ? Hl' Hj]; subst.
    destruct (Qle_bool (nth i row 0%Q) (nth j row 0%Q)) eqn:Hle.
    + constructor; [now apply IH|].
      apply List.Forall_forall. intros x Hx.
      eapply Permutation_in in Hx; [|apply insert_desc_perm].
      destruct Hx as [<-|Hx].
      * now apply Qle_bool_iff.
      * eapply List.Forall_forall in Hj; eauto.
    + assert (Hji : (nth j row 0 <= nth i row 0)%Q).
      { apply Qlt_le_weak. apply Qnot_le_lt. intros H.
        apply Qle_bool_iff in H. congruence. }
      constructor; [exact Hl|].
      constructor; [exact Hji|].
      apply List.Forall_forall. intros x Hx.
      eapply List.Forall_forall in Hj; [|exact Hx]. simpl in Hj.
      eapply Qle_trans; eassumption.
Qed.

Lemma argsort_stable_ranks : forall row, ranks_desc row (argsort_stable row).
Proof.
  intros row. unfold ranks_desc, argsort_stable.
  assert (H : forall l acc,
            StronglySorted (fun a b => (nth b row 0 <= nth a row 0)%Q) acc ->
            Permutation (fold_left (fun acc i => insert_desc row i acc) l acc)
                        (acc ++ l)
            /\ StronglySorted (fun a b => (nth b row 0 <= nth a row 0)%Q)
                 (fold_left (fun acc i => insert_desc row i acc) l acc)).
  { induction l as [|i l IH]; intros acc Hacc; simpl.
    - rewrite app_nil_r. split; [reflexivity|exact Hacc].
    - destruct (IH (insert_desc row i acc) (insert_desc_sorted row i acc Hacc))
        as [Hp Hs].
      split; [|exact Hs].
      rewrite Hp, insert_desc_perm. simpl. apply Permutation_middle. }
  destruct (H (seq 0 (length row)) [] (SSorted_nil _)) as [Hp Hs].
  split; [exact Hp|exact Hs].
Qed.

(** ** The assignee queue (core/Pot_Assignee.py) *)

Lemma lstrip_idem : forall cs, lstrip (lstrip cs) = lstrip cs.
Proof.
  induction cs as [|c cs IH]; simpl; [reflexivity|].
  destruct (is_space c) eqn:Hc; [exact IH|].
  simpl. now rewrite Hc.
Qed.

Lemma lstrip_app_last : forall cs c,
  is_space c = false -> lstrip (cs ++ [c]) = lstrip cs ++ [c].
Proof.
  induction cs as [|d cs IH]; intros c Hc; simpl.
  - now rewrite Hc.
  - destruct (is_space d); [now apply IH|reflexivity].
Qed.

Lemma lstrip_head : forall cs,
  match lstrip cs with [] => True | c :: _ => is_space c = false end.
Proof.
  induction cs as [|c cs IH]; simpl; [exact I|].
  destruct (is_space c) eqn:Hc; [exact IH|exact Hc].
Qed.

Lemma strip_chars_idem : forall cs,
  rev (lstrip (rev (lstrip (rev (lstrip (rev (lstrip cs)))))))
  = rev (lstrip (rev (lstrip cs))).
Proof.
  intros cs.
  assert (Hkeep : lstrip (rev (lstrip (rev (lstrip cs))))
                  = rev (lstrip (rev (lstrip cs)))).
  { pose proof (lstrip_head cs) as Hhead.
    destruct (lstrip cs) as [|c l]; [reflexivity|].
    change (rev (c :: l)) with (rev l ++ [c]).
    rewrite (lstrip_app_last (rev l) c Hhead).
    rewrite rev_app_distr. simpl. now rewrite Hhead. }
  rewrite Hkeep, rev_involutive. now rewrite lstrip_idem.
Qed.

Lemma py_strip_idem : forall s, py_strip (py_strip s) = py_strip s.
Proof.
  intros s. unfold py_strip.
  rewrite list_ascii_of_string_of_list_ascii.
  now rewrite strip_chars_idem.
Qed.

Lemma existsb_eqb_false : forall (a : string) l,
  existsb (String.eqb a) l = false -> a ∉ l.
Proof.
  intros a l H Hin. apply list_elem_of_In in Hin.
  assert (Hex : existsb (String.eqb a) l = true).
  { apply existsb_exists. exists a. split; [exact Hin|apply String.eqb_refl]. }
  congruence.
Qed.

Lemma existsb_eqb_true : forall (a : string) l,
  existsb (String.eqb a) l = true -> a ∈ l.
Proof.
  intros a l H. apply existsb_exists in H as (x & Hin & Heq).
  apply String.eqb_eq in Heq. subst x. now apply list_elem_of_In.
Qed.

Lemma lru_add_NoDup : forall lru a, NoDup lru -> NoDup (lru_add lru a).
Proof.
  intros lru a Hnd. unfold lru_add.
  destruct (existsb (String.eqb a) lru) eqn:Hex; [exact Hnd|].
  apply NoDup_app. split; [exact Hnd|]. split.
  - intros x Hx Hxa. apply list_elem_of_singleton in Hxa. subst x.
    exact (existsb_eqb_false _ _ Hex Hx).
  - apply NoDup_singleton.
Qed.

Lemma lru_add_Forall (P : string -> Prop) : forall lru a,
  Forall P lru -> P a -> Forall P (lru_add lru a).
Proof.
  intros lru a Hall Ha. unfold lru_add.
  destruct (existsb (String.eqb a) lru); [exact Hall|].
  apply Forall_app. split; [exact Hall|]. now constructor.
Qed.

Lemma lru_add_fresh : forall lru a, a ∉ lru -> lru_add lru a = lru ++ [a].
Proof.
  intros lru a Hnin. unfold lru_add.
  destruct (existsb (String.eqb a) lru) eqn:Hex; [|reflexivity].
  exfalso. apply Hnin. now apply existsb_eqb_true.
Qed.

Lemma fold_left_invariant {A B : Type} (P : A -> Prop) (f : A -> B -> A) :
  (forall a b, P a -> P (f a b)) ->
  forall l a, P a -> P (fold_left f l a).
Proof.
  intros Hstep. induction l as [|b l IH]; intros a Ha; simpl; [exact Ha|].
  apply IH. now apply Hstep.
Qed.

Lemma keeps_name_spec : forall a,
  keeps_name a = true <->
  py_strip a = a /\ a <> ""
  /\ existsb (String.eqb (py_lower a)) placeholder_names = false.
Proof.
  intros a. unfold keeps_name.
  rewrite !andb_true_iff, !negb_true_iff, String.eqb_eq, String.eqb_neq.
  intuition.
Qed.

Lemma read_csv_lru_invariant : forall col,
  NoDup (read_csv_lru col) /\ Forall (fun a => keeps_name a = true) (read_csv_lru col).
Proof.
  intros col. unfold read_csv_lru.
  apply (fold_left_invariant
           (fun lru => NoDup lru /\ Forall (fun a => keeps_name a = true) lru)).
  - intros lru cell [Hnd Hall].
    destruct (negb (String.eqb (py_strip cell) "")
              && negb (existsb (String.eqb (py_lower (py_strip cell)))
                         placeholder_names)) eqn:Hc.
    + split; [now apply lru_add_NoDup|].
      apply lru_add_Forall; [exact Hall|].
      apply andb_true_iff in Hc as [Hne Hph].
      apply negb_true_iff in Hne, Hph. apply String.eqb_neq in Hne.
      apply keeps_name_spec. split; [apply py_strip_idem|]. now split.
    + now split.
  - split; [apply NoDup_nil_2|constructor].
Qed.

Lemma read_csv_lru_keeps : forall q2 acc,
  NoDup (acc ++ q2) -> Forall (fun a => keeps_name a = true) q2 ->
  fold_left
    (fun lru cell =>
       let a := py_strip cell in
       if negb (String.eqb a "")
          && negb (existsb (String.eqb (py_lower a)) placeholder_names)
       then lru_add lru a else lru)
    q2 acc
  = acc ++ q2.
Proof.
  induction q2 as [|c q2 IH]; intros acc Hnd Hall.
  - simpl. now rewrite app_nil_r.
  - inversion Hall as [|? ? Hc Hall']; subst.
    apply keeps_name_spec in Hc as (Hstrip & Hne & Hph).
    cbn [fold_left]. rewrite Hstrip, Hph.
    apply String.eqb_neq in Hne. rewrite Hne. cbn [negb andb].
    assert (Hfresh : c ∉ acc).
    { apply NoDup_app in Hnd as (_ & Hdis & _).
      intros Hin. apply (Hdis c Hin). now left. }
    rewrite (lru_add_fresh acc c Hfresh).
    rewrite IH; [now rewrite <- app_assoc| |exact Hall'].
    now rewrite <- app_assoc.
Qed.

Lemma read_csv_lru_clean_queue : forall q,
  NoDup q -> Forall (fun a => keeps_name a = true) q -> read_csv_lru q = q.
Proof.
  intros q Hnd Hall. exact (read_csv_lru_keeps q [] Hnd Hall).
Qed.

(** X22: whatever the rows of the CSV hold, the queue the reader builds
    names nobody twice, holds only names that are stripped, not blank and
    not a placeholder, and is read back unchanged: reading is idempotent. *)
Theorem csv_queue_is_clean_and_stable : forall col,
  NoDup (read_csv_lru col)
  /\ forallb keeps_name (read_csv_lru col) = true
  /\ read_csv_lru (read_csv_lru col) = read_csv_lru col.
Proof.
  intros col. destruct (read_csv_lru_invariant col) as [Hnd Hall].
  split; [exact Hnd|]. split.
  - apply forallb_forall. intros a Ha.
    eapply List.Forall_forall in Hall; [exact Hall|exact Ha].
  - now apply read_csv_lru_clean_queue.
Qed.

Lemma json_queue_invariant : forall json fs,
  NoDup (_load_assignees_from_json json fs)
  /\ Forall (fun a => a <> "") (_load_assignees_from_json json fs).
Proof.
  intros json fs. unfold _load_assignees_from_json.
  destruct (negb (exists_file fs json)); [split; [apply NoDup_nil_2|constructor]|].
  destruct (fs !! json) as [[]|];
    try (split; [apply NoDup_nil_2|constructor]).
  apply (fold_left_invariant
           (fun lru => NoDup lru /\ Forall (fun a => a <> "") lru)).
  - intros lru [a|] [Hnd Hall]; [|now split].
    destruct (negb (String.eqb a "")) eqn:Hne; [|now split].
    apply negb_true_iff, String.eqb_neq in Hne.
    split; [now apply lru_add_NoDup|now apply lru_add_Forall].
  - split; [apply NoDup_nil_2|constructor].
Qed.

Lemma keeps_name_not_blank : forall q,
  Forall (fun a => keeps_name a = true) q -> Forall (fun a => a <> "") q.
Proof.
  intros q. apply List.Forall_impl. intros a Ha.
  now apply keeps_name_spec in Ha as (_ & Hne & _).
Qed.

(** X23: what a call of the picker that returns has done.  When it returns
    [None] it has left the file system as it was; when it returns a name,
    the name is not blank and only the CSV has changed, which now holds a
    queue that ends with the name returned, names nobody twice and holds no
    blank name. *)
Theorem picker_returns_and_requeues_last : forall json csv fs pick fs',
  assign_lru json csv fs = (Ok pick, fs') ->
  match pick with
  | None => fs' = fs
  | Some a =>
      exists others,
        fs' = <[csv := FCsv (others ++ [a])]> fs
        /\ NoDup (others ++ [a])
        /\ Forall (fun x => x <> "") (others ++ [a])
  end.
Proof.
  intros json csv fs pick fs' Hrun. unfold assign_lru in Hrun.
  set (lru := if exists_file fs csv then _ else _) in Hrun.
  assert (Hinv : NoDup lru /\ Forall (fun a => a <> "") lru).
  { subst lru.
    destruct (exists_file fs csv); [|apply json_queue_invariant].
    assert (Hcsv : forall l : list string,
               l = match fs !! csv with
                   | Some (FCsv col) => read_csv_lru col
                   | _ => []
                   end ->
               NoDup l /\ Forall (fun a => a <> "") l).
    { intros l ->. destruct (fs !! csv) as [[| | |col| |]|];
        try (split; [apply NoDup_nil_2|constructor]).
      destruct (read_csv_lru_invariant col) as [Hnd Hall].
      split; [exact Hnd|now apply keeps_name_not_blank]. }
    specialize (Hcsv _ eq_refl).
    destruct (match fs !! csv with
              | Some (FCsv col) => read_csv_lru col
              | _ => []
              end) as [|a l] eqn:Hread; [|exact Hcsv].
    destruct (exists_file fs json); [apply json_queue_invariant|exact Hcsv]. }
  destruct lru as [|a others]; injection Hrun as <- <-; [reflexivity|].
  destruct Hinv as [Hnd Hall].
  exists others. split; [reflexivity|]. split.
  - eapply NoDup_Permutation_proper; [|exact Hnd].
    symmetry. apply Permutation_cons_append.
  - apply Forall_app. inversion Hall; subst. split; [assumption|now constructor].
Qed.



(** ** The JSON store (core/ingest.py) *)

Lemma append_step_cases : forall kf st it,
  append_step kf st it =
  match item_key kf it with
  | None =>
      {| as_items := as_items st ++ [it];
         as_by_key := as_by_key st;
         as_added := as_added st + 1;
         as_skipped := as_skipped st |}
  | Some ks =>
      if bool_decide (is_Some (as_by_key st !! ks)) then
        {| as_items := as_items st;
           as_by_key := as_by_key st;
           as_added := as_added st;
           as_skipped := as_skipped st + 1 |}
      else
        {| as_items := as_items st ++ [it];
           as_by_key := <[ks := it]> (as_by_key st);
           as_added := as_added st + 1;
           as_skipped := as_skipped st |}
  end.
Proof.
  intros kf st it. unfold append_step, item_key.
  destruct (py_get it kf); reflexivity.
Qed.

Lemma store_keys_cons : forall kf it items,
  store_keys kf (it :: items) =
  match item_key kf it with
  | Some k => k :: store_keys kf items
  | None => store_keys kf items
  end.
Proof. reflexivity. Qed.

Lemma store_keys_app : forall kf l1 l2,
  store_keys kf (l1 ++ l2) = store_keys kf l1 ++ store_keys kf l2.
Proof. intros. unfold store_keys. apply omap_app. Qed.

Lemma store_keys_snoc : forall kf items it,
  store_keys kf (items ++ [it]) =
  store_keys kf items ++ match item_key kf it with
                         | Some k => [k]
                         | None => []
                         end.
Proof.
  intros. rewrite store_keys_app, store_keys_cons.
  now destruct (item_key kf it).
Qed.

Lemma keyless_items_cons : forall kf it items,
  keyless_items kf (it :: items) =
  match item_key kf it with
  | Some _ => keyless_items kf items
  | None => it :: keyless_items kf items
  end.
Proof.
  intros. unfold keyless_items. simpl.
  destruct (item_key kf it); reflexivity.
Qed.

Lemma index_by_key_dom : forall kf items ks,
  is_Some (index_by_key kf items !! ks) <-> ks ∈ store_keys kf items.
Proof.
  intros kf items ks. unfold index_by_key.
  assert (H : forall acc : gmap string (gmap string pyval),
            is_Some (fold_left
                       (fun by_key item =>
                          match py_get item kf with
                          | PNone => by_key
                          | k => <[py_str k := item]> by_key
                          end) items acc !! ks)
            <-> is_Some (acc !! ks) \/ ks ∈ store_keys kf items).
  { induction items as [|it items IH]; intros acc.
    - simpl. split; [now left|].
      intros [H|H]; [exact H|]. now apply not_elem_of_nil in H.
    - cbn [fold_left]. rewrite IH, store_keys_cons. unfold item_key.
      destruct (py_get it kf) as [|s|z].
      + reflexivity.
      + rewrite lookup_insert_is_Some, elem_of_cons.
        destruct (decide (py_str (PStr s) = ks)) as [->|Hne]; [tauto|].
        split; intros [H|H]; try tauto; destruct H; try congruence; tauto.
      + rewrite lookup_insert_is_Some, elem_of_cons.
        destruct (decide (py_str (PInt z) = ks)) as [->|Hne]; [tauto|].
        split; intros [H|H]; try tauto; destruct H; try congruence; tauto. }
  rewrite H. rewrite lookup_empty. split; [|now right].
  intros [[x Hx]|Hin]; [discriminate|exact Hin].
Qed.

Lemma append_loop : forall kf new st,
  (forall ks, is_Some (as_by_key st !! ks) <-> ks ∈ store_keys kf (as_items st)) ->
  exists added,
    as_items (fold_left (append_step kf) new st) = as_items st ++ added
    /\ as_added (fold_left (append_step kf) new st) = as_added st + length added
    /\ as_added (fold_left (append_step kf) new st)
       + as_skipped (fold_left (append_step kf) new st)
       = as_added st + as_skipped st + length new
    /\ sublist added new
    /\ (forall ks,
          ks ∈ store_keys kf (as_items (fold_left (append_step kf) new st))
          <-> ks ∈ store_keys kf (as_items st) \/ ks ∈ store_keys kf new)
    /\ keyless_items kf added = keyless_items kf new
    /\ (NoDup (store_keys kf (as_items st)) ->
        NoDup (store_keys kf (as_items (fold_left (append_step kf) new st)))).
Proof.
  intros kf. induction new as [|it new IH]; intros st Hdom.
  - exists []. simpl. rewrite app_nil_r.
    repeat split; try lia; try tauto; try constructor.
    intros [H|H]; [exact H|]. now apply not_elem_of_nil in H.
  - cbn [fold_left]. rewrite append_step_cases.
    destruct (item_key kf it) as [k|] eqn:Hk.
    + destruct (bool_decide (is_Some (as_by_key st !! k))) eqn:Hknown.
      * (* the key is known: the item is skipped *)
        apply bool_decide_eq_true in Hknown.
        match goal with |- context [fold_left _ new ?s] => set (st1 := s) end.
        destruct (IH st1 Hdom) as (added & Hitems & Hadd & Hsum & Hsub & Hkeys & Hkl & Hnd).
        exists added. subst st1.
        cbn [as_items as_by_key as_added as_skipped] in *.
        split; [exact Hitems|]. split; [exact Hadd|].
        split; [cbn [length]; lia|].
        split; [now apply sublist_cons|]. split.
        { intros ks. rewrite Hkeys, store_keys_cons, Hk, elem_of_cons.
          split; [tauto|]. intros [H|[->|H]]; [tauto| |tauto].
          left. now apply Hdom. }
        split; [now rewrite keyless_items_cons, Hk|exact Hnd].
      * (* a new key: the item is appended and remembered *)
        apply bool_decide_eq_false in Hknown.
        match goal with |- context [fold_left _ new ?s] => set (st1 := s) end.
        assert (Hkeys1 : store_keys kf (as_items st1) = store_keys kf (as_items st) ++ [k]).
        { subst st1. simpl. now rewrite store_keys_snoc, Hk. }
        assert (Hdom1 : forall ks, is_Some (as_by_key st1 !! ks)
                                   <-> ks ∈ store_keys kf (as_items st1)).
        { intros ks. rewrite Hkeys1. subst st1. simpl.
          rewrite lookup_insert_is_Some, elem_of_app, list_elem_of_singleton, Hdom.
          destruct (decide (k = ks)) as [->|Hne]; [tauto|].
          split; intros [H|H]; try tauto; try congruence. }
        destruct (IH st1 Hdom1) as (added & Hitems & Hadd & Hsum & Hsub & Hkeys & Hkl & Hnd).
        exists (it :: added).
        split. { rewrite Hitems. subst st1. simpl. now rewrite <- app_assoc. }
        split. { rewrite Hadd. subst st1. simpl. lia. }
        split. { rewrite Hsum. subst st1. simpl. lia. }
        split; [now apply sublist_skip|]. split.
        { intros ks. rewrite Hkeys, Hkeys1, store_keys_cons, Hk.
          rewrite elem_of_app, list_elem_of_singleton, elem_of_cons. tauto. }
        split; [now rewrite !keyless_items_cons, Hk|].
        intros Hnd0. apply Hnd. rewrite Hkeys1.
        apply NoDup_app. split; [exact Hnd0|]. split; [|apply NoDup_singleton].
        intros x Hx Hxk. apply list_elem_of_singleton in Hxk. subst x.
        apply Hknown. now apply Hdom.
    + (* no key: the item is always appended *)
      match goal with |- context [fold_left _ new ?s] => set (st1 := s) end.
      assert (Hkeys1 : store_keys kf (as_items st1) = store_keys kf (as_items st)).
      { subst st1. simpl. now rewrite store_keys_snoc, Hk, app_nil_r. }
      assert (Hdom1 : forall ks, is_Some (as_by_key st1 !! ks)
                                 <-> ks ∈ store_keys kf (as_items st1)).
      { intros ks. rewrite Hkeys1. subst st1. simpl. apply Hdom. }
      destruct (IH st1 Hdom1) as (added & Hitems & Hadd & Hsum & Hsub & Hkeys & Hkl & Hnd).
      exists (it :: added).
      split. { rewrite Hitems. subst st1. simpl. now rewrite <- app_assoc. }
      split. { rewrite Hadd. subst st1. simpl. lia. }
      split. { rewrite Hsum. subst st1. simpl. lia. }
      split; [now apply sublist_skip|]. split.
      { intros ks. now rewrite Hkeys, Hkeys1, store_keys_cons, Hk. }
      split; [now rewrite !keyless_items_cons, Hk, Hkl|].
      intros Hnd0. apply Hnd. now rewrite Hkeys1.
Qed.

Lemma append_loop_all_known : forall kf new st,
  (forall it, In it new ->
     exists ks, item_key kf it = Some ks /\ is_Some (as_by_key st !! ks)) ->
  fold_left (append_step kf) new st
  = {| as_items := as_items st;
       as_by_key := as_by_key st;
       as_added := as_added st;
       as_skipped := as_skipped st + length new |}.
Proof.
  intros kf. induction new as [|it new IH]; intros st Hknown.
  - destruct st. simpl. f_equal. lia.
  - cbn [fold_left]. rewrite append_step_cases.
    destruct (Hknown it (or_introl eq_refl)) as (ks & Hk & Hsome).
    rewrite Hk, (bool_decide_eq_true_2 _ Hsome).
    rewrite IH.
    + simpl. f_equal. lia.
    + intros it' Hin. simpl. apply Hknown. now right.
Qed.

Lemma keyless_items_app : forall kf l1 l2,
  keyless_items kf (l1 ++ l2) = keyless_items kf l1 ++ keyless_items kf l2.
Proof. intros. unfold keyless_items. apply List.filter_app. Qed.

(** X25: the summary adds up. Every record of the batch is either loaded
    or skipped as a duplicate; the list written back is the list that was
    on disk, untouched and in its order, followed by the loaded records in
    batch order; and [existing] is the old length plus [loaded]. *)
Theorem append_keeps_store_and_counts : forall new on_disk kf,
  let out := append_to_json_store new on_disk kf in
  loaded (snd out) + skipped_duplicates (snd out) = length new
  /\ existing (snd out) = length (default [] on_disk) + loaded (snd out)
  /\ exists added,
       fst out = default [] on_disk ++ added
       /\ length added = loaded (snd out)
       /\ sublist added new.
Proof.
  intros new on_disk kf. unfold append_to_json_store. cbn zeta.
  match goal with |- context [fold_left _ new ?s] => set (st0 := s) end.
  destruct (append_loop kf new st0) as (added & Hitems & Hadd & Hsum & Hsub & _).
  { intros ks. subst st0. simpl. apply index_by_key_dom. }
  subst st0. simpl in *.
  split; [exact Hsum|]. split.
  - rewrite Hitems, length_app, Hadd. reflexivity.
  - exists added. split; [exact Hitems|]. split; [now rewrite Hadd|exact Hsub].
Qed.

(** X26: appending the same batch again changes nothing. When every record
    of the batch carries the key field, a second call on what the first one
    wrote writes the same list back, loads nothing and reports the whole
    batch as duplicates. *)
Theorem append_again_skips_everything : forall new on_disk kf,
  Forall (fun it => py_get it kf <> PNone) new ->
  let first := append_to_json_store new on_disk kf in
  append_to_json_store new (Some (fst first)) kf
  = (fst first,
     {| loaded := 0;
        skipped_duplicates := length new;
        existing := length (fst first) |}).
Proof.
  intros new on_disk kf Hkeyed. cbn zeta.
  set (items1 := fst (append_to_json_store new on_disk kf)).
  assert (Hcover : forall ks, ks ∈ store_keys kf new -> ks ∈ store_keys kf items1).
  { intros ks Hin. subst items1. unfold append_to_json_store. cbn zeta.
    match goal with |- context [fold_left _ new ?s] => set (st0 := s) end.
    destruct (append_loop kf new st0) as (_ & _ & _ & _ & _ & Hkeys & _).
    { intros k. subst st0. simpl. apply index_by_key_dom. }
    simpl. apply Hkeys. now right. }
  unfold append_to_json_store at 1. cbn zeta. simpl default.
  rewrite append_loop_all_known.
  - reflexivity.
  - intros it Hin. simpl.
    eapply List.Forall_forall in Hkeyed; [|exact Hin].
    destruct (item_key kf it) as [ks|] eqn:Hk.
    + exists ks. split; [reflexivity|].
      apply index_by_key_dom, Hcover.
      unfold store_keys. apply list_elem_of_omap.
      exists it. split; [now apply list_elem_of_In|exact Hk].
    + exfalso. unfold item_key in Hk.
      destruct (py_get it kf); [now apply Hkeyed|discriminate|discriminate].
Qed.

(** X27: keys stay unique. If no two items on disk share a key, no two
    items of the list written back do. *)
Theorem append_keeps_keys_unique : forall new on_disk kf,
  NoDup (store_keys kf (default [] on_disk)) ->
  NoDup (store_keys kf (fst (append_to_json_store new on_disk kf))).
Proof.
  intros new on_disk kf Hnd. unfold append_to_json_store. cbn zeta.
  match goal with |- context [fold_left _ new ?s] => set (st0 := s) end.
  destruct (append_loop kf new st0) as (_ & _ & _ & _ & _ & _ & _ & Hkeep).
  { intros ks. subst st0. simpl. apply index_by_key_dom. }
  simpl. apply Hkeep. subst st0. exact Hnd.
Qed.

(** X28: nothing is lost. The keys in the list written back are exactly
    the keys that were on disk together with the keys of the batch, and its
    records without a key are those on disk followed by every such record
    of the batch: records without a key are never deduplicated. *)
Theorem append_covers_batch : forall new on_disk kf,
  let items' := fst (append_to_json_store new on_disk kf) in
  (forall ks, ks ∈ store_keys kf items'
              <-> ks ∈ store_keys kf (default [] on_disk) \/ ks ∈ store_keys kf new)
  /\ keyless_items kf items'
     = keyless_items kf (default [] on_disk) ++ keyless_items kf new.
Proof.
  intros new on_disk kf. unfold append_to_json_store. cbn zeta.
  match goal with |- context [fold_left _ new ?s] => set (st0 := s) end.
  destruct (append_loop kf new st0) as (added & Hitems & _ & _ & _ & Hkeys & Hkl & _).
  { intros ks. subst st0. simpl. apply index_by_key_dom. }
  simpl. split.
  - intros ks. rewrite Hkeys. subst st0. reflexivity.
  - rewrite Hitems, keyless_items_app, Hkl. subst st0. reflexivity.
Qed.

Lemma py_strip_blank : py_strip "" = "".
Proof. reflexivity. Qed.

(** X29: a row the CSV loader keeps is never ignored downstream. If the
    mandatory fields of a row are populated and its issue key is the string
    [s], then [s] is not blank, the indexer derives exactly [s] as the key
    of the row and treats it as key-bearing, and the JSON store
    deduplicates it under [s]. *)
Theorem populated_row_is_key_bearing : forall row s,
  mandatory_populated row = true ->
  row !! "Issue key" = Some (PStr s) ->
  s <> ""
  /\ _safe_key row "Issue key" = s
  /\ key_bearing "Issue key" row = true
  /\ item_key "Issue key" row = Some s.
Proof.
  intros row s Hpop Hkey. unfold mandatory_populated in Hpop.
  assert (Hf : match row !! "Issue key" with
               | None => false
               | Some PNone => false
               | Some v => negb (existsb (String.eqb (py_strip (py_str v))) PLACEHOLDERS)
               end = true).
  { eapply forallb_forall in Hpop; [exact Hpop|]. unfold REQUIRED. simpl. tauto. }
  rewrite Hkey in Hf. simpl py_str in Hf.
  assert (Hne : s <> "").
  { intros ->. rewrite py_strip_blank in Hf. discriminate. }
  assert (Hsafe : _safe_key row "Issue key" = s).
  { unfold _safe_key, py_get. rewrite Hkey. simpl default.
    apply String.eqb_neq in Hne.
    unfold py_or. simpl. rewrite !Hne. simpl. rewrite !Hne. simpl.
    now rewrite ?Hne. }
  split; [exact Hne|]. split; [exact Hsafe|]. split.
  - unfold key_bearing. rewrite Hsafe.
    apply String.eqb_neq in Hne. now rewrite Hne.
  - unfold item_key, py_get. now rewrite Hkey.
Qed.

(** ** Recommended actions over the JSON store *)

Lemma find_app_found {A : Type} (f : A -> bool) : forall l1 l2 x,
  In x l1 -> f x = true -> List.find f (l1 ++ l2) = List.find f l1.
Proof.
  induction l1 as [|a l1 IH]; intros l2 x Hin Hfx; [destruct Hin|].
  simpl. destruct (f a) eqn:Hfa; [reflexivity|].
  destruct Hin as [->|Hin]; [congruence|]. now apply (IH l2 x).
Qed.

(** X30: an append never changes the recommended action of an issue that
    is already stored. If some item on disk is stored under [issue_key],
    the lookup on the list written back returns what the lookup on the old
    list returned, whatever the batch holds: a record submitted again does
    not replace the comments of the stored one. *)
Theorem stored_action_survives_append : forall issue_key new old kf,
  existsb (names_issue issue_key) old = true ->
  find_recommended_actions issue_key
    (fst (append_to_json_store new (Some old) kf))
  = find_recommended_actions issue_key old.
Proof.
  intros issue_key new old kf Hstored.
  apply existsb_exists in Hstored as (it & Hin & Hit).
  unfold append_to_json_store. cbn zeta.
  match goal with |- context [fold_left _ new ?s] => set (st0 := s) end.
  destruct (append_loop kf new st0) as (added & Hitems & _).
  { intros ks. subst st0. simpl. apply index_by_key_dom. }
  simpl fst. rewrite Hitems. subst st0. simpl as_items.
  unfold find_recommended_actions.
  now rewrite (find_app_found (names_issue issue_key) old added it Hin Hit).
Qed.

(** ** Sample runs *)

Lemma load_one_artifact_is_empty_witness :
  xorb (exists_file meta_only_fs "emb/annoy_meta.json")
       (exists_file meta_only_fs "emb/embeddings.npy") = true
  /\ _load_meta_embs "emb/annoy_meta.json" "emb/embeddings.npy" 2 meta_only_fs
     = Ok ([], zeros0 2).
Proof.
  split; [reflexivity|].
  apply (load_one_artifact_is_empty meta_only_fs). reflexivity.
Defined.

(** C3, as stated, fails: two metadata rows beside a one-row matrix of the
    right width load without any error. *)
Lemma load_accepts_row_count_mismatch :
  length (firstn 2 dup_meta) <> nrows short_stored
  /\ _load_meta_embs "emb/annoy_meta.json" "emb/embeddings.npy" 2 torn_fs
     = Ok (firstn 2 dup_meta, short_stored).
Proof. split; [discriminate|reflexivity]. Qed.

Lemma load_checks_shape_only_witness :
  torn_fs !! "emb/annoy_meta.json" = Some (FMeta (firstn 2 dup_meta))
  /\ torn_fs !! "emb/embeddings.npy" = Some (FEmb (Arr2 short_stored))
  /\ _load_meta_embs "emb/annoy_meta.json" "emb/embeddings.npy" 3 torn_fs
     = Raise (ValueError "Saved embeddings have wrong shape/dim").
Proof.
  split; [reflexivity|]. split; [reflexivity|].
  apply (load_checks_shape_only torn_fs "emb/annoy_meta.json"
           "emb/embeddings.npy" 3 (firstn 2 dup_meta) (Arr2 short_stored));
    reflexivity.
Defined.

Ltac run_sample := vm_compute; reflexivity.

Lemma pair_of_fst {A B : Type} (x : A * B) (a : A) :
  fst x = a -> x = (a, snd x).
Proof. destruct x. simpl. now intros ->. Qed.

(** Evaluates the value a sample run returns, leaving the file system it
    produces as [snd] of the run. *)
Ltac run_to_pair := apply pair_of_fst; run_sample.

Lemma dimension_mismatch_degrades_witness :
  List.find (exists_file wide_fs) (map (path_join "emb") ["annoy_meta.json"])
  = Some "emb/annoy_meta.json"
  /\ wide_fs !! path_join "emb" "embeddings.npy" = Some (FEmb (Arr2 wide_stored))
  /\ wide_fs !! "emb/annoy_meta.json" = Some (FMeta (firstn 1 dup_meta))
  /\ 2 <> ncols wide_stored
  /\ exists results,
       find_reference_issues 2 demo_embed demo_normalize argsort_stable
         batch_AB "emb" "embeddings.npy" ["annoy_meta.json"] "Issue key" 3 (1#2)
         false wide_fs
       = (Ok (RList results), wide_fs)
       /\ length results = length batch_AB
       /\ Forall2 (fun issue r =>
                     input_key r = _safe_key issue "Issue key"
                     /\ references r = []
                     /\ diag r = DiagDimMismatch 2 (ncols wide_stored))
                  batch_AB results.
Proof.
  split; [reflexivity|]. split; [reflexivity|]. split; [reflexivity|].
  split; [discriminate|].
  apply (dimension_mismatch_degrades 2 demo_embed demo_normalize argsort_stable
           batch_AB "emb" "embeddings.npy" ["annoy_meta.json"] "Issue key" 3 (1#2)
           false wide_fs "emb/annoy_meta.json" wide_stored (firstn 1 dup_meta));
    first [reflexivity|discriminate].
Defined.

Lemma no_self_reference_witness :
  exists ret fs',
    find_reference_issues 2 demo_embed demo_normalize argsort_stable
      [query_A] "emb" "embeddings.npy" ["annoy_meta.json"] "Issue key" 3 (1#2)
      false dup_fs
    = (Ok ret, fs')
    /\ Forall (fun r => input_key r <> "" ->
                 Forall (fun ref => ref_key ref <> input_key r) (references r))
              (results_of ret).
Proof.
  assert (Hrun : exists ret fs',
            find_reference_issues 2 demo_embed demo_normalize argsort_stable
              [query_A] "emb" "embeddings.npy" ["annoy_meta.json"] "Issue key" 3
              (1#2) false dup_fs
            = (Ok ret, fs')).
  { eexists _, _. run_to_pair. }
  destruct Hrun as (ret & fs' & Hrun).
  exists ret, fs'. split; [exact Hrun|].
  exact (no_self_reference 2 demo_embed demo_normalize argsort_stable
           [query_A] "emb" "embeddings.npy" ["annoy_meta.json"] "Issue key"
           3 (1#2) false dup_fs fs' ret Hrun).
Defined.

Lemma raising_threshold_never_adds_references_witness :
  ((1#2) < (9#10))%Q
  /\ exists ret1 fs1 ret2 fs2,
       find_reference_issues 2 demo_embed demo_normalize argsort_stable
         [query_A] "emb" "embeddings.npy" ["annoy_meta.json"] "Issue key" 3 (1#2)
         false dup_fs
       = (Ok ret1, fs1)
       /\ find_reference_issues 2 demo_embed demo_normalize argsort_stable
            [query_A] "emb" "embeddings.npy" ["annoy_meta.json"] "Issue key" 3
            (9#10) false dup_fs
          = (Ok ret2, fs2)
       /\ Forall2 (fun r1 r2 => length (references r2) <= length (references r1))
                  (results_of ret1) (results_of ret2).
Proof.
  split; [reflexivity|].
  assert (Hrun : exists ret1 fs1,
            find_reference_issues 2 demo_embed demo_normalize argsort_stable
              [query_A] "emb" "embeddings.npy" ["annoy_meta.json"] "Issue key" 3
              (1#2) false dup_fs
            = (Ok ret1, fs1)).
  { eexists _, _. run_to_pair. }
  destruct Hrun as (ret1 & fs1 & Hrun).
  destruct (raising_threshold_never_adds_references 2 demo_embed demo_normalize
              argsort_stable [query_A] "emb" "embeddings.npy" ["annoy_meta.json"]
              "Issue key" 3 (1#2) (9#10) false dup_fs fs1 ret1 eq_refl Hrun)
    as (ret2 & fs2 & Hrun2 & Hmono).
  exists ret1, fs1, ret2, fs2. auto.
Defined.

Lemma one_result_per_input_witness :
  exists ret fs',
    find_reference_issues 2 demo_embed demo_normalize argsort_stable
      batch_AB "emb" "embeddings.npy" ["annoy_meta.json"] "Issue key" 3 (1#2)
      false dup_fs
    = (Ok ret, fs')
    /\ length (results_of ret) = length batch_AB
    /\ map input_key (results_of ret) = map (fun i => _safe_key i "Issue key") batch_AB
    /\ map input_summary (results_of ret)
       = map (fun i => py_get_d i "Summary" (PStr "")) batch_AB.
Proof.
  assert (Hrun : exists ret fs',
            find_reference_issues 2 demo_embed demo_normalize argsort_stable
              batch_AB "emb" "embeddings.npy" ["annoy_meta.json"] "Issue key" 3
              (1#2) false dup_fs
            = (Ok ret, fs')).
  { eexists _, _. run_to_pair. }
  destruct Hrun as (ret & fs' & Hrun).
  exists ret, fs'. split; [exact Hrun|].
  exact (one_result_per_input 2 demo_embed demo_normalize argsort_stable
           batch_AB "emb" "embeddings.npy" ["annoy_meta.json"] "Issue key"
           3 (1#2) false dup_fs fs' ret Hrun).
Defined.

(** C1, as stated, fails: with top_k = 1 the two best-ranked rows both carry
    the query's own key, so nothing is returned, although row 2 survives and
    no better-ranked row does. *)
Lemma window_hides_survivor :
  exists ret,
    fst (find_reference_issues 2 demo_embed demo_normalize argsort_stable
           [query_A] "emb" "embeddings.npy" ["annoy_meta.json"] "Issue key" 1
           (1#2) false dup_fs)
    = Ok ret
    /\ map (fun r => map ref_idx (references r)) (results_of ret) = [[]]
    /\ map ref_idx
         (claimed_references argsort_stable dup_meta "A"
            (similarity_row demo_embed demo_normalize dup_stored query_A)
            1 (1#2))
       = [2].
Proof.
  eexists. split; [run_sample|]. split; run_sample.
Qed.

Lemma references_are_first_survivors_of_window_witness :
  (forall row, ranks_desc row (argsort_stable row))
  /\ (0 <= 3)%Z
  /\ exists rs pa fs',
       find_reference_issues 2 demo_embed demo_normalize argsort_stable
         [query_A] "emb" "embeddings.npy" ["annoy_meta.json"] "Issue key" 3 (1#2)
         false dup_fs
       = (Ok (RPair rs pa), fs')
       /\ Forall2 (fun issue r =>
                     references r
                     = windowed_references argsort_stable dup_meta
                         (_safe_key issue "Issue key")
                         (similarity_row demo_embed demo_normalize dup_stored issue)
                         3 (1#2)
                     /\ StronglySorted (fun a b => (ref_score b <= ref_score a)%Q)
                          (references r)
                     /\ Forall (fun ref =>
                                  ref_idx ref < nrows dup_stored
                                  /\ ref_score ref
                                     = nth (ref_idx ref)
                                         (similarity_row demo_embed demo_normalize
                                            dup_stored issue) 0%Q)
                               (references r))
                  [query_A] rs.
Proof.
  split; [exact argsort_stable_ranks|]. split; [lia|].
  assert (Hrun : exists rs pa fs',
            find_reference_issues 2 demo_embed demo_normalize argsort_stable
              [query_A] "emb" "embeddings.npy" ["annoy_meta.json"] "Issue key" 3
              (1#2) false dup_fs
            = (Ok (RPair rs pa), fs')).
  { eexists _, _, _. run_to_pair. }
  destruct Hrun as (rs & pa & fs' & Hrun).
  exists rs, pa, fs'. split; [exact Hrun|].
  apply (references_are_first_survivors_of_window 2 demo_embed demo_normalize
           argsort_stable [query_A] "emb" "embeddings.npy" ["annoy_meta.json"]
           "Issue key" 3 (1#2) false dup_fs fs' "emb/annoy_meta.json"
           dup_stored dup_meta rs pa).
  - exact argsort_stable_ranks.
  - lia.
  - reflexivity.
  - reflexivity.
  - reflexivity.
  - exact Hrun.
Defined.

(** With a matrix of no rows every iteration of the scoring loop skips the
    assignee pick, and the final [return] finds [potential_assignee]
    unbound. *)
Lemma query_on_rowless_store_raises :
  find_reference_issues 2 demo_embed demo_normalize argsort_stable
    [query_A] "emb" "embeddings.npy" ["annoy_meta.json"] "Issue key" 3 (1#2)
    false rowless_fs
  = (Raise (UnboundLocalError "potential_assignee"), rowless_fs).
Proof. run_to_pair. Qed.



Lemma demo_paths_distinct : paths_distinct demo_cfg.
Proof. repeat split; discriminate. Qed.

(** C4, as stated, fails: a batch that carries one key twice with different
    bodies is indexed whole by the first run on an empty store, and the
    second run on the same batch appends the first wording again. *)
Lemma second_run_readds_superseded_record :
  Forall (fun t => _safe_key t "Issue key" <> "") twice_K
  /\ fst (add_index_new_Data 2 demo_embed demo_normalize twice_K demo_cfg ∅)
     = Ok {| summary_status := built_from_all; added := 2; index_size := 2 |}
  /\ fst (add_index_new_Data 2 demo_embed demo_normalize twice_K demo_cfg
            (snd (add_index_new_Data 2 demo_embed demo_normalize twice_K
                    demo_cfg ∅)))
     = Ok {| summary_status := incremental_ok; added := 1; index_size := 3 |}.
Proof.
  split; [|split; run_sample].
  repeat constructor; vm_compute; discriminate.
Qed.

(** The first build stores a missing Summary as [None] while the incremental
    path compares against the empty string, so such a record is added once
    more by the run that follows its first build. *)
Lemma missing_summary_is_added_twice :
  fst (add_index_new_Data 2 demo_embed demo_normalize [no_summary] demo_cfg ∅)
  = Ok {| summary_status := built_from_all; added := 1; index_size := 1 |}
  /\ fst (add_index_new_Data 2 demo_embed demo_normalize [no_summary] demo_cfg
            (snd (add_index_new_Data 2 demo_embed demo_normalize [no_summary]
                    demo_cfg ∅)))
     = Ok {| summary_status := incremental_ok; added := 1; index_size := 2 |}.
Proof. split; run_sample. Qed.

Lemma second_run_adds_nothing_witness :
  paths_distinct demo_cfg
  /\ npy_suffixed (AnnoyEmbPath demo_cfg) = true
  /\ changed_A_new_C <> []
  /\ Forall (fun t => _safe_key t (KeyField demo_cfg) <> ""
                      /\ is_Some (t !! "Summary")) changed_A_new_C
  /\ exists r1 fs1 n,
       add_index_new_Data 2 demo_embed demo_normalize changed_A_new_C demo_cfg dup_fs
       = (Ok r1, fs1)
       /\ added r1 = 2
       /\ add_index_new_Data 2 demo_embed demo_normalize changed_A_new_C demo_cfg fs1
          = (Ok {| summary_status := no_new_or_changed; added := 0; index_size := n |},
             fs1).
Proof.
  assert (Hkeyed : Forall (fun t => _safe_key t (KeyField demo_cfg) <> ""
                                    /\ is_Some (t !! "Summary")) changed_A_new_C).
  { repeat constructor; try (vm_compute; discriminate); eexists; reflexivity. }
  split; [exact demo_paths_distinct|]. split; [reflexivity|].
  split; [discriminate|]. split; [exact Hkeyed|].
  assert (Hrun : exists fs1,
            add_index_new_Data 2 demo_embed demo_normalize changed_A_new_C
              demo_cfg dup_fs
            = (Ok {| summary_status := incremental_ok; added := 2; index_size := 5 |},
               fs1)).
  { eexists. run_to_pair. }
  destruct Hrun as (fs1 & Hrun).
  destruct (second_run_adds_nothing 2 demo_embed demo_normalize changed_A_new_C
              demo_cfg dup_fs fs1
              {| summary_status := incremental_ok; added := 2; index_size := 5 |}
              demo_paths_distinct eq_refl) as [n Hsecond].
  - intros meta Hmeta.
    assert (Hfile : dup_fs !! AnnoyMetaPath demo_cfg = Some (FMeta dup_meta))
      by reflexivity.
    rewrite Hfile in Hmeta. injection Hmeta as <-. reflexivity.
  - discriminate.
  - exact Hkeyed.
  - intros t t' [<-|[<-|[]]] [<-|[<-|[]]] Hkey;
      try (vm_compute in Hkey; discriminate Hkey); split; reflexivity.
  - exact Hrun.
  - eexists _, fs1, n. split; [exact Hrun|]. split; [reflexivity|exact Hsecond].
Defined.



(** ** Sample runs of the indexer, the query, the picker and the store *)

Lemma cold_batch_without_keys_is_no_data_witness :
  _load_meta_embs (AnnoyMetaPath demo_cfg) (AnnoyEmbPath demo_cfg)
    (EmbedDim demo_cfg) ∅ = Ok ([], zeros0 2)
  /\ Forall (fun t => _safe_key t (KeyField demo_cfg) = "") keyless_batch
  /\ add_index_new_Data 2 demo_embed demo_normalize keyless_batch demo_cfg ∅
     = (Ok {| summary_status := no_data; added := 0; index_size := 0 |}, ∅).
Proof.
  assert (Hkeyless : Forall (fun t => _safe_key t (KeyField demo_cfg) = "")
                            keyless_batch).
  { repeat constructor. }
  split; [reflexivity|]. split; [exact Hkeyless|].
  apply (cold_batch_without_keys_is_no_data 2 demo_embed demo_normalize
           keyless_batch demo_cfg ∅ (zeros0 2)); [reflexivity|exact Hkeyless].
Defined.

Lemma index_writes_only_its_artifacts_witness :
  npy_suffixed (AnnoyEmbPath demo_cfg) = true
  /\ ASSIGNEE_CSV <> AnnoyMetaPath demo_cfg
  /\ ASSIGNEE_CSV <> AnnoyEmbPath demo_cfg
  /\ ASSIGNEE_CSV <> AnnoyIndexPath demo_cfg
  /\ snd (add_index_new_Data 2 demo_embed demo_normalize changed_A_new_C
            demo_cfg dup_fs) !! ASSIGNEE_CSV
     = dup_fs !! ASSIGNEE_CSV.
Proof.
  split; [reflexivity|].
  split; [discriminate|]. split; [discriminate|]. split; [discriminate|].
  apply (index_writes_only_its_artifacts 2 demo_embed demo_normalize
           changed_A_new_C demo_cfg dup_fs ASSIGNEE_CSV);
    first [reflexivity|discriminate].
Defined.

Lemma ann_artifact_follows_matrix_witness :
  paths_distinct demo_cfg
  /\ npy_suffixed (AnnoyEmbPath demo_cfg) = true
  /\ exists r fs',
       add_index_new_Data 2 demo_embed demo_normalize changed_A_new_C demo_cfg dup_fs
       = (Ok r, fs')
       /\ 0 < added r
       /\ exists embs1,
            fs' !! AnnoyEmbPath demo_cfg = Some (FEmb (Arr2 embs1))
            /\ fs' !! AnnoyIndexPath demo_cfg
               = Some (FAnn (EmbedDim demo_cfg) (AnnoyNTrees demo_cfg) (rows embs1))
            /\ ncols embs1 = EmbedDim demo_cfg
            /\ 0 < nrows embs1.
Proof.
  split; [exact demo_paths_distinct|]. split; [reflexivity|].
  assert (Hrun : exists fs',
            add_index_new_Data 2 demo_embed demo_normalize changed_A_new_C
              demo_cfg dup_fs
            = (Ok {| summary_status := incremental_ok; added := 2; index_size := 5 |},
               fs')).
  { eexists. run_to_pair. }
  destruct Hrun as (fs' & Hrun).
  eexists _, fs'. split; [exact Hrun|].
  assert (Hadded : 0 < 2) by lia.
  split; [exact Hadded|].
  exact (ann_artifact_follows_matrix 2 demo_embed demo_normalize changed_A_new_C
           demo_cfg dup_fs fs'
           {| summary_status := incremental_ok; added := 2; index_size := 5 |}
           demo_paths_distinct eq_refl Hrun Hadded).
Defined.

Lemma first_build_indexes_every_keyed_record_witness :
  paths_distinct demo_cfg
  /\ npy_suffixed (AnnoyEmbPath demo_cfg) = true
  /\ 2 = EmbedDim demo_cfg
  /\ _load_meta_embs (AnnoyMetaPath demo_cfg) (AnnoyEmbPath demo_cfg)
       (EmbedDim demo_cfg) ∅ = Ok ([], zeros0 2)
  /\ existsb (key_bearing (KeyField demo_cfg)) (keyless_batch ++ batch_AB) = true
  /\ let keyed := List.filter (key_bearing (KeyField demo_cfg))
                    (keyless_batch ++ batch_AB) in
     exists fs' meta1 embs1,
       add_index_new_Data 2 demo_embed demo_normalize (keyless_batch ++ batch_AB)
         demo_cfg ∅
       = (Ok {| summary_status := built_from_all;
                added := length keyed;
                index_size := length keyed |}, fs')
       /\ fs' !! AnnoyMetaPath demo_cfg = Some (FMeta meta1)
       /\ fs' !! AnnoyEmbPath demo_cfg = Some (FEmb (Arr2 embs1))
       /\ fs' !! AnnoyIndexPath demo_cfg
          = Some (FAnn (EmbedDim demo_cfg) (AnnoyNTrees demo_cfg) (rows embs1))
       /\ map fst meta1 = seq 0 (length keyed)
       /\ map (fun kv => snd kv !! "key") meta1
          = map (fun t => Some (PStr (_safe_key t (KeyField demo_cfg)))) keyed
       /\ ncols embs1 = EmbedDim demo_cfg
       /\ rows embs1 = map (fun t => demo_normalize (demo_embed (body_of t))) keyed.
Proof.
  split; [exact demo_paths_distinct|]. split; [reflexivity|].
  split; [reflexivity|]. split; [reflexivity|]. split; [reflexivity|].
  apply (first_build_indexes_every_keyed_record 2 demo_embed demo_normalize
           (keyless_batch ++ batch_AB) demo_cfg ∅ (zeros0 2));
    first [exact demo_paths_distinct|reflexivity].
Defined.


Lemma failed_first_build_leaves_unloadable_store_witness :
  paths_distinct demo_cfg
  /\ npy_suffixed (AnnoyEmbPath demo_cfg) = true
  /\ 3 <> EmbedDim demo_cfg
  /\ _load_meta_embs (AnnoyMetaPath demo_cfg) (AnnoyEmbPath demo_cfg)
       (EmbedDim demo_cfg) ∅ = Ok ([], zeros0 2)
  /\ existsb (key_bearing (KeyField demo_cfg)) batch_AB = true
  /\ exists e fs1 meta1 embs1,
       add_index_new_Data 3 wide_embed demo_normalize batch_AB demo_cfg ∅
       = (Raise e, fs1)
       /\ fs1 !! AnnoyMetaPath demo_cfg = Some (FMeta meta1)
       /\ fs1 !! AnnoyEmbPath demo_cfg = Some (FEmb (Arr2 embs1))
       /\ fs1 !! AnnoyIndexPath demo_cfg = (∅ : gmap string file) !! AnnoyIndexPath demo_cfg
       /\ add_index_new_Data 3 wide_embed demo_normalize changed_A_new_C demo_cfg fs1
          = (Raise (ValueError "Saved embeddings have wrong shape/dim"), fs1).
Proof.
  split; [exact demo_paths_distinct|]. split; [reflexivity|].
  split; [discriminate|]. split; [reflexivity|]. split; [reflexivity|].
  apply (failed_first_build_leaves_unloadable_store 3 wide_embed demo_normalize
           batch_AB changed_A_new_C demo_cfg ∅ (zeros0 2));
    first [exact demo_paths_distinct|reflexivity|discriminate].
Defined.

Lemma index_summary_adds_up_witness :
  paths_distinct demo_cfg
  /\ 0 < EmbedDim demo_cfg
  /\ _load_meta_embs (AnnoyMetaPath demo_cfg) (AnnoyEmbPath demo_cfg)
       (EmbedDim demo_cfg) dup_fs = Ok (dup_meta, dup_stored)
  /\ dense_row_ids dup_meta
  /\ nrows dup_stored = length dup_meta
  /\ exists r fs',
       add_index_new_Data 2 demo_embed demo_normalize changed_A_new_C demo_cfg dup_fs
       = (Ok r, fs')
       /\ index_size r = length dup_meta + added r
       /\ added r <= length changed_A_new_C.
Proof.
  assert (Hdim : 0 < EmbedDim demo_cfg) by (simpl; lia).
  split; [exact demo_paths_distinct|]. split; [exact Hdim|].
  split; [reflexivity|]. split; [reflexivity|]. split; [reflexivity|].
  assert (Hrun : exists r fs',
            add_index_new_Data 2 demo_embed demo_normalize changed_A_new_C
              demo_cfg dup_fs
            = (Ok r, fs')).
  { eexists _, _. run_to_pair. }
  destruct Hrun as (r & fs' & Hrun).
  exists r, fs'. split; [exact Hrun|].
  exact (index_summary_adds_up 2 demo_embed demo_normalize changed_A_new_C
           demo_cfg dup_fs fs' dup_meta dup_stored r demo_paths_distinct Hdim
           eq_refl eq_refl eq_refl Hrun).
Defined.

Lemma incremental_run_adds_new_or_changed_witness :
  paths_distinct demo_cfg
  /\ _load_meta_embs (AnnoyMetaPath demo_cfg) (AnnoyEmbPath demo_cfg)
       (EmbedDim demo_cfg) dup_fs = Ok (dup_meta, dup_stored)
  /\ dup_meta <> []
  /\ dense_row_ids dup_meta
  /\ exists r fs',
       add_index_new_Data 2 demo_embed demo_normalize
         (batch_AB ++ changed_A_new_C) demo_cfg dup_fs
       = (Ok r, fs')
       /\ let selected := List.filter (needs_row (KeyField demo_cfg) dup_meta)
                            (batch_AB ++ changed_A_new_C) in
          added r = length selected
          /\ (selected = [] -> fs' = dup_fs /\ summary_status r = no_new_or_changed)
          /\ (selected <> [] ->
              summary_status r = incremental_ok
              /\ exists meta1,
                   fs' !! AnnoyMetaPath demo_cfg = Some (FMeta meta1)
                   /\ map snd meta1
                      = map snd dup_meta
                        ++ map (row_of (KeyField demo_cfg)) selected).
Proof.
  assert (Hne : dup_meta <> []) by discriminate.
  split; [exact demo_paths_distinct|]. split; [reflexivity|].
  split; [exact Hne|]. split; [reflexivity|].
  assert (Hrun : exists r fs',
            add_index_new_Data 2 demo_embed demo_normalize
              (batch_AB ++ changed_A_new_C) demo_cfg dup_fs
            = (Ok r, fs')).
  { eexists _, _. run_to_pair. }
  destruct Hrun as (r & fs' & Hrun).
  exists r, fs'. split; [exact Hrun|].
  exact (incremental_run_adds_new_or_changed 2 demo_embed demo_normalize
           (batch_AB ++ changed_A_new_C) demo_cfg dup_fs fs' dup_meta dup_stored
           r demo_paths_distinct eq_refl Hne eq_refl Hrun).
Defined.

Lemma save_then_load_witness :
  "emb/annoy_meta.json" <> "emb/embeddings.npy"
  /\ npy_suffixed "emb/embeddings.npy" = true
  /\ _load_meta_embs "emb/annoy_meta.json" "emb/embeddings.npy" 2
       (_save_meta_embs dup_meta dup_stored "emb/annoy_meta.json"
          "emb/embeddings.npy" ∅)
     = Ok (dup_meta, dup_stored)
  /\ _load_meta_embs "emb/annoy_meta.json" "emb/embeddings.npy" 3
       (_save_meta_embs dup_meta dup_stored "emb/annoy_meta.json"
          "emb/embeddings.npy" ∅)
     = Raise (ValueError "Saved embeddings have wrong shape/dim").
Proof.
  assert (Hne : "emb/annoy_meta.json" <> "emb/embeddings.npy") by discriminate.
  split; [exact Hne|]. split; [reflexivity|]. split.
  - exact (save_then_load ∅ "emb/annoy_meta.json" "emb/embeddings.npy" 2
             dup_meta dup_stored Hne eq_refl).
  - exact (save_then_load ∅ "emb/annoy_meta.json" "emb/embeddings.npy" 3
             dup_meta dup_stored Hne eq_refl).
Defined.

Lemma ann_artifact_iff_rows_witness :
  exists fs',
    _build_and_save_annoy dup_stored "emb/annoy_index.ann" 2 50 ∅ = (Ok tt, fs')
    /\ (exists_file fs' "emb/annoy_index.ann" = true <-> 0 < nrows dup_stored)
    /\ forall p, p <> "emb/annoy_index.ann" -> fs' !! p = (∅ : gmap string file) !! p.
Proof.
  assert (Hrun : exists fs',
            _build_and_save_annoy dup_stored "emb/annoy_index.ann" 2 50 ∅
            = (Ok tt, fs')).
  { eexists. run_to_pair. }
  destruct Hrun as (fs' & Hrun).
  exists fs'. split; [exact Hrun|].
  exact (ann_artifact_iff_rows dup_stored "emb/annoy_index.ann" 2 50 ∅ fs' Hrun).
Defined.

Lemma missing_files_degrade_witness :
  (exists_file meta_only_fs (path_join "emb" "embeddings.npy") = false
   \/ List.find (exists_file meta_only_fs)
        (map (path_join "emb") ["annoy_meta.json"]) = None)
  /\ exists results,
       find_reference_issues 2 demo_embed demo_normalize argsort_stable
         batch_AB "emb" "embeddings.npy" ["annoy_meta.json"] "Issue key" 3 (1#2)
         false meta_only_fs
       = (Ok (RList results), meta_only_fs)
       /\ Forall2 (fun issue r =>
                     input_key r = _safe_key issue "Issue key"
                     /\ input_summary r = py_get_d issue "Summary" (PStr "")
                     /\ references r = []
                     /\ diag r
                        = DiagMissingFiles
                            (exists_file meta_only_fs
                               (path_join "emb" "embeddings.npy"))
                            (List.find (exists_file meta_only_fs)
                               (map (path_join "emb") ["annoy_meta.json"])))
                  batch_AB results.
Proof.
  assert (Hmissing :
            exists_file meta_only_fs (path_join "emb" "embeddings.npy") = false
            \/ List.find (exists_file meta_only_fs)
                 (map (path_join "emb") ["annoy_meta.json"]) = None).
  { left. reflexivity. }
  split; [exact Hmissing|].
  exact (missing_files_degrade 2 demo_embed demo_normalize argsort_stable
           batch_AB "emb" "embeddings.npy" ["annoy_meta.json"] "Issue key" 3
           (1#2) false meta_only_fs Hmissing).
Defined.

Lemma rowless_store_raises_witness :
  List.find (exists_file rowless_fs) (map (path_join "emb") ["annoy_meta.json"])
  = Some "emb/annoy_meta.json"
  /\ rowless_fs !! path_join "emb" "embeddings.npy" = Some (FEmb (Arr2 (zeros0 2)))
  /\ rowless_fs !! "emb/annoy_meta.json" = Some (FMeta [])
  /\ rows (zeros0 2) = []
  /\ ncols (zeros0 2) = 2
  /\ batch_AB <> []
  /\ find_reference_issues 2 demo_embed demo_normalize argsort_stable
       batch_AB "emb" "embeddings.npy" ["annoy_meta.json"] "Issue key" 3 (1#2)
       false rowless_fs
     = (Raise (UnboundLocalError "potential_assignee"), rowless_fs).
Proof.
  split; [reflexivity|]. split; [reflexivity|]. split; [reflexivity|].
  split; [reflexivity|]. split; [reflexivity|]. split; [discriminate|].
  apply (rowless_store_raises 2 demo_embed demo_normalize argsort_stable
           batch_AB "emb" "embeddings.npy" ["annoy_meta.json"] "Issue key" 3
           (1#2) false rowless_fs "emb/annoy_meta.json" (zeros0 2) []);
    first [reflexivity|discriminate].
Defined.

Lemma reference_count_is_bounded_witness :
  exists ret fs',
    find_reference_issues 2 demo_embed demo_normalize argsort_stable
      batch_AB "emb" "embeddings.npy" ["annoy_meta.json"] "Issue key" 1 (1#2)
      false dup_fs
    = (Ok ret, fs')
    /\ Forall (fun r =>
                 ((0 <= 1)%Z -> length (references r) <= Z.to_nat 1)
                 /\ ((1 < 0)%Z -> length (references r) <= 1))
              (results_of ret).
Proof.
  assert (Hrun : exists ret fs',
            find_reference_issues 2 demo_embed demo_normalize argsort_stable
              batch_AB "emb" "embeddings.npy" ["annoy_meta.json"] "Issue key" 1
              (1#2) false dup_fs
            = (Ok ret, fs')).
  { eexists _, _. run_to_pair. }
  destruct Hrun as (ret & fs' & Hrun).
  exists ret, fs'. split; [exact Hrun|].
  exact (reference_count_is_bounded 2 demo_embed demo_normalize argsort_stable
           batch_AB "emb" "embeddings.npy" ["annoy_meta.json"] "Issue key" 1
           (1#2) false dup_fs fs' ret Hrun).
Defined.

Lemma references_meet_threshold_witness :
  exists ret fs',
    find_reference_issues 2 demo_embed demo_normalize argsort_stable
      batch_AB "emb" "embeddings.npy" ["annoy_meta.json"] "Issue key" 3 (7#10)
      false dup_fs
    = (Ok ret, fs')
    /\ Forall (fun r => Forall (fun ref => ((7#10) <= ref_score ref)%Q)
                               (references r))
              (results_of ret).
Proof.
  assert (Hrun : exists ret fs',
            find_reference_issues 2 demo_embed demo_normalize argsort_stable
              batch_AB "emb" "embeddings.npy" ["annoy_meta.json"] "Issue key" 3
              (7#10) false dup_fs
            = (Ok ret, fs')).
  { eexists _, _. run_to_pair. }
  destruct Hrun as (ret & fs' & Hrun).
  exists ret, fs'. split; [exact Hrun|].
  exact (references_meet_threshold 2 demo_embed demo_normalize argsort_stable
           batch_AB "emb" "embeddings.npy" ["annoy_meta.json"] "Issue key" 3
           (7#10) false dup_fs fs' ret Hrun).
Defined.

Lemma references_are_distinct_rows_witness :
  (forall row, ranks_desc row (argsort_stable row))
  /\ exists ret fs',
       find_reference_issues 2 demo_embed demo_normalize argsort_stable
         batch_AB "emb" "embeddings.npy" ["annoy_meta.json"] "Issue key" 3 (1#2)
         false dup_fs
       = (Ok ret, fs')
       /\ Forall (fun r => NoDup (map ref_idx (references r))) (results_of ret).
Proof.
  split; [exact argsort_stable_ranks|].
  assert (Hrun : exists ret fs',
            find_reference_issues 2 demo_embed demo_normalize argsort_stable
              batch_AB "emb" "embeddings.npy" ["annoy_meta.json"] "Issue key" 3
              (1#2) false dup_fs
            = (Ok ret, fs')).
  { eexists _, _. run_to_pair. }
  destruct Hrun as (ret & fs' & Hrun).
  exists ret, fs'. split; [exact Hrun|].
  exact (references_are_distinct_rows 2 demo_embed demo_normalize argsort_stable
           batch_AB "emb" "embeddings.npy" ["annoy_meta.json"] "Issue key" 3
           (1#2) false dup_fs fs' ret argsort_stable_ranks Hrun).
Defined.

Lemma score_diagnostics_agree_witness :
  (forall row, ranks_desc row (argsort_stable row))
  /\ dup_fs !! path_join "emb" "embeddings.npy" = Some (FEmb (Arr2 dup_stored))
  /\ exists rs pa fs',
       find_reference_issues 2 demo_embed demo_normalize argsort_stable
         batch_AB "emb" "embeddings.npy" ["annoy_meta.json"] "Issue key" 3 (1#2)
         true dup_fs
       = (Ok (RPair rs pa), fs')
       /\ Forall (fun r =>
                    exists d,
                      diag r = DiagScores d
                      /\ row_size d = nrows dup_stored
                      /\ returned_count d = Some (length (references r))
                      /\ length (references r) <= n_above_threshold d
                      /\ n_above_threshold d <= row_size d)
                 rs.
Proof.
  split; [exact argsort_stable_ranks|]. split; [reflexivity|].
  assert (Hrun : exists rs pa fs',
            find_reference_issues 2 demo_embed demo_normalize argsort_stable
              batch_AB "emb" "embeddings.npy" ["annoy_meta.json"] "Issue key" 3
              (1#2) true dup_fs
            = (Ok (RPair rs pa), fs')).
  { eexists _, _, _. run_to_pair. }
  destruct Hrun as (rs & pa & fs' & Hrun).
  exists rs, pa, fs'. split; [exact Hrun|].
  exact (score_diagnostics_agree 2 demo_embed demo_normalize argsort_stable
           batch_AB "emb" "embeddings.npy" ["annoy_meta.json"] "Issue key" 3
           (1#2) true dup_fs fs' dup_stored rs pa argsort_stable_ranks eq_refl
           Hrun).
Defined.

Lemma query_picks_one_assignee_per_record_witness :
  List.find (exists_file dup_fs) (map (path_join "emb") ["annoy_meta.json"])
  = Some "emb/annoy_meta.json"
  /\ dup_fs !! path_join "emb" "embeddings.npy" = Some (FEmb (Arr2 dup_stored))
  /\ dup_fs !! "emb/annoy_meta.json" = Some (FMeta dup_meta)
  /\ ncols dup_stored = 2
  /\ rows dup_stored <> []
  /\ batch_AB <> []
  /\ exists ret fs',
       find_reference_issues 2 demo_embed demo_normalize argsort_stable
         batch_AB "emb" "embeddings.npy" ["annoy_meta.json"] "Issue key" 3 (1#2)
         false dup_fs
       = (Ok ret, fs')
       /\ exists rs pa,
            ret = RPair rs pa
            /\ fs' = snd (assign_lru_times (length batch_AB) ASSIGNEE_JSON
                            ASSIGNEE_CSV dup_fs)
            /\ last (fst (assign_lru_times (length batch_AB) ASSIGNEE_JSON
                            ASSIGNEE_CSV dup_fs))
               = Some pa
            /\ length (fst (assign_lru_times (length batch_AB) ASSIGNEE_JSON
                              ASSIGNEE_CSV dup_fs))
               = length batch_AB.
Proof.
  assert (Hrows : rows dup_stored <> []) by discriminate.
  assert (Hne : batch_AB <> []) by discriminate.
  split; [reflexivity|]. split; [reflexivity|]. split; [reflexivity|].
  split; [reflexivity|]. split; [exact Hrows|]. split; [exact Hne|].
  assert (Hrun : exists ret fs',
            find_reference_issues 2 demo_embed demo_normalize argsort_stable
              batch_AB "emb" "embeddings.npy" ["annoy_meta.json"] "Issue key" 3
              (1#2) false dup_fs
            = (Ok ret, fs')).
  { eexists _, _. run_to_pair. }
  destruct Hrun as (ret & fs' & Hrun).
  exists ret, fs'. split; [exact Hrun|].
  exact (query_picks_one_assignee_per_record 2 demo_embed demo_normalize
           argsort_stable batch_AB "emb" "embeddings.npy" ["annoy_meta.json"]
           "Issue key" 3 (1#2) false dup_fs fs' "emb/annoy_meta.json" dup_stored
           dup_meta ret eq_refl eq_refl eq_refl eq_refl Hrows Hne Hrun).
Defined.

Lemma query_scores_what_was_indexed_witness :
  paths_distinct demo_cfg
  /\ npy_suffixed (AnnoyEmbPath demo_cfg) = true
  /\ 2 = EmbedDim demo_cfg
  /\ path_join "emb" "embeddings.npy" = AnnoyEmbPath demo_cfg
  /\ map (path_join "emb") ["annoy_meta.json"] = [AnnoyMetaPath demo_cfg]
  /\ [query_A] <> []
  /\ exists r fs1 ret fs2,
       add_index_new_Data 2 demo_embed demo_normalize batch_AB demo_cfg ∅
       = (Ok r, fs1)
       /\ 0 < added r
       /\ find_reference_issues 2 demo_embed demo_normalize argsort_stable
            [query_A] "emb" "embeddings.npy" ["annoy_meta.json"] "Issue key" 3
            (1#2) false fs1
          = (Ok ret, fs2)
       /\ exists rs pa,
            ret = RPair rs pa
            /\ length rs = length [query_A]
            /\ Forall (fun q => exists d, diag q = DiagScores d
                                          /\ row_size d = index_size r) rs.
Proof.
  assert (Hq : [query_A] <> []) by discriminate.
  split; [exact demo_paths_distinct|]. split; [reflexivity|].
  split; [reflexivity|]. split; [reflexivity|]. split; [reflexivity|].
  split; [exact Hq|].
  assert (Hrun : exists fs1,
            add_index_new_Data 2 demo_embed demo_normalize batch_AB demo_cfg ∅
            = (Ok {| summary_status := built_from_all; added := 2; index_size := 2 |},
               fs1)).
  { eexists. run_to_pair. }
  destruct Hrun as (fs1 & Hrun).
  assert (Hadded : 0 < 2) by lia.
  assert (Hquery : exists ret,
            find_reference_issues 2 demo_embed demo_normalize argsort_stable
              [query_A] "emb" "embeddings.npy" ["annoy_meta.json"] "Issue key" 3
              (1#2) false
              (snd (add_index_new_Data 2 demo_embed demo_normalize batch_AB
                      demo_cfg ∅))
            = (Ok ret,
               snd (find_reference_issues 2 demo_embed demo_normalize
                      argsort_stable [query_A] "emb" "embeddings.npy"
                      ["annoy_meta.json"] "Issue key" 3 (1#2) false
                      (snd (add_index_new_Data 2 demo_embed demo_normalize
                              batch_AB demo_cfg ∅))))).
  { eexists. run_to_pair. }
  destruct Hquery as (ret & Hquery).
  assert (Hfs1 : fs1 = snd (add_index_new_Data 2 demo_embed demo_normalize
                              batch_AB demo_cfg ∅))
    by (now rewrite Hrun).
  rewrite <- Hfs1 in Hquery.
  eexists _, fs1, ret, _. split; [exact Hrun|]. split; [exact Hadded|].
  split; [exact Hquery|].
  exact (query_scores_what_was_indexed 2 demo_embed demo_normalize argsort_stable
           batch_AB [query_A] demo_cfg "emb" "embeddings.npy" ["annoy_meta.json"]
           [] "Issue key" 3 (1#2) false ∅ fs1 _
           {| summary_status := built_from_all; added := 2; index_size := 2 |}
           ret demo_paths_distinct eq_refl eq_refl eq_refl eq_refl Hrun Hadded Hq
           Hquery).
Defined.

Lemma picker_returns_and_requeues_last_witness :
  exists fs',
    assign_lru ASSIGNEE_JSON ASSIGNEE_CSV dup_fs = (Ok (Some "alice"), fs')
    /\ exists others,
         fs' = <[ASSIGNEE_CSV := FCsv (others ++ ["alice"])]> dup_fs
         /\ NoDup (others ++ ["alice"])
         /\ Forall (fun x => x <> "") (others ++ ["alice"]).
Proof.
  assert (Hrun : exists fs',
            assign_lru ASSIGNEE_JSON ASSIGNEE_CSV dup_fs = (Ok (Some "alice"), fs')).
  { eexists. run_to_pair. }
  destruct Hrun as (fs' & Hrun).
  exists fs'. split; [exact Hrun|].
  exact (picker_returns_and_requeues_last ASSIGNEE_JSON ASSIGNEE_CSV dup_fs
           (Some "alice") fs' Hrun).
Defined.


Lemma append_again_skips_everything_witness :
  Forall (fun it => py_get it "Issue key" <> PNone) batch_AB
  /\ append_to_json_store batch_AB
       (Some (fst (append_to_json_store batch_AB None "Issue key"))) "Issue key"
     = (fst (append_to_json_store batch_AB None "Issue key"),
        {| loaded := 0;
           skipped_duplicates := length batch_AB;
           existing := length (fst (append_to_json_store batch_AB None "Issue key")) |}).
Proof.
  assert (Hkeyed : Forall (fun it => py_get it "Issue key" <> PNone) batch_AB).
  { repeat constructor; vm_compute; discriminate. }
  split; [exact Hkeyed|].
  exact (append_again_skips_everything batch_AB None "Issue key" Hkeyed).
Defined.

Lemma append_keeps_keys_unique_witness :
  NoDup (store_keys "Issue key" (default [] (Some batch_AB)))
  /\ NoDup (store_keys "Issue key"
              (fst (append_to_json_store changed_A_new_C (Some batch_AB)
                      "Issue key"))).
Proof.
  assert (Hnd : NoDup (store_keys "Issue key" (default [] (Some batch_AB)))).
  { apply (bool_decide_unpack _). reflexivity. }
  split; [exact Hnd|].
  exact (append_keeps_keys_unique changed_A_new_C (Some batch_AB) "Issue key" Hnd).
Defined.

Lemma populated_row_is_key_bearing_witness :
  mandatory_populated csv_row = true
  /\ csv_row !! "Issue key" = Some (PStr "A")
  /\ "A" <> ""
  /\ _safe_key csv_row "Issue key" = "A"
  /\ key_bearing "Issue key" csv_row = true
  /\ item_key "Issue key" csv_row = Some "A".
Proof.
  split; [reflexivity|]. split; [reflexivity|].
  apply (populated_row_is_key_bearing csv_row "A"); reflexivity.
Defined.

Lemma stored_action_survives_append_witness :
  existsb (names_issue "A") [stored_A] = true
  /\ find_recommended_actions "A"
       (fst (append_to_json_store [resubmitted_A] (Some [stored_A]) "Issue key"))
     = find_recommended_actions "A" [stored_A].
Proof.
  split; [reflexivity|].
  apply (stored_action_survives_append "A" [resubmitted_A] [stored_A] "Issue key").
  reflexivity.
Defined.
